(** * Rapid Photo Downloader: the download orchestration of [raphodo/rapid.py]

    A shallow embedding of the orchestration code of [RapidWindow] and
    [JobCode] (file [src/raphodo/rapid.py]), and the properties of it that
    the specification states.

    Conventions of the embedding.
    - A method of [RapidWindow] is a computation in the monad [M]: it takes
      the window's attributes (record [RapidWindow]) and gives back either a
      value or the Python exception raised, together with the attributes as
      they are at that point.
    - Python dictionaries are [gmap]s, Python sets are [gset]s; [d[k]] on a
      missing key raises [KeyError], as do [del d[k]] and [set.remove].
    - A call into a collaborator whose code is outside [rapid.py] and that
      only acts on the outside (a worker process, a widget, the notification
      service) is recorded, in call order, in the attribute [sent].
    - What a collaborator answers (the file system, the thumbnail model, the
      user closing a dialog) is an input: a field of [Env] or an argument of
      the handler.
    - Calls to [logging] and pure widget cosmetics (progress bar values,
      widget sizes, button labels' text) are left out. *)

From Stdlib Require Import Ascii QArith Qcanon.
From stdpp Require Import gmap strings list fin_maps numbers.

Close Scope Qc_scope.
Close Scope Q_scope.

Open Scope string_scope.

(** ** Enumerations of [constants.py], as [rapid.py] uses them *)

Module FileType.
Inductive t := photo | video.
#[global] Instance eq_dec : EqDecision t.
Proof. solve_decision. Defined.
End FileType.

Module BackupLocationType.
Inductive t := photos | videos | photos_and_videos.
#[global] Instance eq_dec : EqDecision t.
Proof. solve_decision. Defined.
End BackupLocationType.

Module DeviceType.
Inductive t := camera | volume | path.
#[global] Instance eq_dec : EqDecision t.
Proof. solve_decision. Defined.
End DeviceType.

(** Modelled from the spec: [constants.DeviceState] is not among the sources.
    [scanned] and [downloading] are the two members [rapid.py] assigns;
    [scanning] is the state of a device from its registration until its scan
    has finished (spec 4.2, states Registered and Scanning). *)
Module DeviceState.
Inductive t := scanning | scanned | downloading.
#[global] Instance eq_dec : EqDecision t.
Proof. solve_decision. Defined.
End DeviceState.

(** Modelled from the spec: [constants.DownloadStatus] is not among the
    sources. [downloaded_with_warning] is the member [rapid.py] tests; the
    others follow the file lifecycle of spec 3 (discovered, download-pending,
    finished, failed). *)
Module DownloadStatus.
Inductive t :=
| not_downloaded | download_pending | downloaded
| downloaded_with_warning | download_failed.
#[global] Instance eq_dec : EqDecision t.
Proof. solve_decision. Defined.
End DownloadStatus.

Module ErrorType.
Inductive t := critical_error | serious_error | warning.
End ErrorType.

Module RenameAndMoveStatus.
Inductive t := download_started | download_completed.
End RenameAndMoveStatus.

Module CameraErrorCode.
Inductive t := locked | inaccessible.
End CameraErrorCode.

(** ** Data records *)

(** [rpdfile.RPDFile], the attributes [rapid.py] reads. *)
Record RPDFile := {
  unique_id : string;
  scan_id : nat;
  file_type : FileType.t;
  status : DownloadStatus.t;
}.

#[global] Instance RPDFile_eq_dec : EqDecision RPDFile.
Proof. solve_decision. Defined.

(** [devices.Device], the attributes [rapid.py] reads. *)
Record Device := {
  device_type : DeviceType.t;
  display_name : string;
  device_path : string;
  camera_model : string;
  camera_port : string;
  no_photos_scanned : nat;   (* file_type_counter *)
  no_videos_scanned : nat;
  file_size_sum : Z;
}.

(** [devices.BackupDevice]: [mount] is kept as the flag "has a mount". *)
Record BackupDevice := {
  has_mount : bool;
  backup_type : BackupLocationType.t;
}.

#[global] Instance BackupDevice_eq_dec : EqDecision BackupDevice.
Proof. solve_decision. Defined.

(** [thumbnaildisplay.DownloadTypes], [DownloadStats] and the result of
    [getFilesMarkedForDownload]. *)
Record DownloadTypes := { dt_photos : bool; dt_videos : bool }.

Record DownloadStats := {
  no_photos : nat;
  no_videos : nat;
  photos_size_in_bytes : Z;
  videos_size_in_bytes : Z;
}.

Record DownloadFiles := {
  files : gmap nat (list RPDFile);
  download_types : DownloadTypes;
  download_stats : gmap nat DownloadStats;
  camera_access_needed : gmap nat bool;
}.

(** [preferences.Preferences], the keys the modelled methods read or write. *)
Record Preferences := {
  backup_files : bool;
  backup_device_autodetection : bool;
  photo_backup_identifier : string;
  video_backup_identifier : string;
  backup_photo_location : string;
  backup_video_location : string;
  photo_download_folder : string;
  video_download_folder : string;
  device_autodetection : bool;
  device_without_dcim_autodetection : bool;
  auto_download_upon_device_insertion : bool;
  generate_thumbnails : bool;
  verify_file : bool;
  backup_duplicate_overwrite : bool;
  save_fdo_thumbnails : bool;
  move : bool;
  auto_unmount : bool;
  auto_exit : bool;
  auto_exit_force : bool;
  job_codes : list string;
  remember_job_code : bool;
  path_blacklist : list string;
  path_whitelist : list string;
  ignored_paths : list string;
}.

(** ** Payloads exchanged with the workers ([interprocess.py]) *)

Record CopyFilesArguments := {
  cfa_scan_id : nat;
  cfa_device : Device;
  cfa_photo_download_folder : option string;
  cfa_video_download_folder : option string;
  cfa_files : list RPDFile;
  cfa_verify_file : bool;
  cfa_generate_thumbnails : bool;
}.

Inductive RenameAndMoveFileData :=
| rename_data (rpd_file : RPDFile) (download_count : nat) (download_succeeded : bool)
| rename_message (message : RenameAndMoveStatus.t).

Record BackupFileData := {
  bfd_rpd_file : RPDFile;
  bfd_move_succeeded : bool;
  bfd_do_backup : bool;
  bfd_path_suffix : option string;
  bfd_backup_duplicate_overwrite : bool;
  bfd_verify_file : bool;
  bfd_download_count : nat;
  bfd_save_fdo_thumbnails : bool;
}.

(** [ScanResults], as the scan worker sends it. *)
Record ScanResults := {
  sr_rpd_files : option (list RPDFile);
  sr_no_photos : nat;               (* file_type_counter *)
  sr_no_videos : nat;
  sr_file_size_sum : Z;
  sr_scan_id : nat;
  sr_error_code : option CameraErrorCode.t;
  sr_optimal_display_name : string;
}.

(** The text [updateTimeRemaining] puts on the status bar, by its case. *)
Inductive TimeMessage :=
| msg_empty
| msg_one_second
| msg_seconds (secs : Z)
| msg_one_minute
| msg_minutes (minutes seconds : Z).

#[global] Instance TimeMessage_eq_dec : EqDecision TimeMessage.
Proof. solve_decision. Defined.

(** Calls that leave the orchestrator, in the order they are made. A backup
    worker is named by the path of its destination: [rapid.py] obtains the
    worker's number with [backup_devices.device_id(path)], one per path. *)
Inductive Sent :=
| scanmq_start_worker (scan_id : nat) (device : Device)
| scanmq_stop_worker (scan_id : nat)
| scanmq_resume (scan_id : nat)
| copyfilesmq_start_worker (scan_id : nat) (args : CopyFilesArguments)
| copyfilesmq_stop_worker (scan_id : nat)
| copyfilesmq_pause
| renamemq_send (data : RenameAndMoveFileData)
| backupmq_add_device (path : string)
| backupmq_remove_device (path : string)
| backupmq_backup_file (path : string) (data : BackupFileData)
| offloadmq_assign_work
| thumbnailModel_addFile (f : RPDFile) (generate_thumbnail : bool)
| thumbnailModel_generateThumbnails (scan_id : nat)
| thumbnailModel_updateStatusPostDownload (f : RPDFile)
| thumbnailModel_thumbnailReceived (f : RPDFile)
| thumbnailModel_clearAll_files (scan_id : nat)
| deviceModel_addDevice (scan_id : nat)
| deviceModel_removeDevice (scan_id : nat)
| deviceModel_updateDeviceScan (scan_id : nat)
| deviceModel_updateDeviceNameAndStorage (scan_id : nat)
| messageBox_reject (scan_id : nat)
| jobCodeDialog_exec (codes : list string)
| gvolumeMonitor_unmountCamera (model port : string)
| prefs_and_refresh_setEnabled (enabled : bool)
| downloadAct_refresh
| notification_device (scan_id : nat)
| notification_summary
| statusBar_basic_message
| shutil_rmtree (d : string)
| app_quit.

(** ** The download tracker *)

(** Modelled from the spec: [downloadtracker.DownloadTracker] is not among
    the sources. Spec 4.4: per device the tracker keeps file counters
    (downloaded, failed, warned; photo and video apart), the bytes copied and
    backed up, and the files pending backup completion; spec 3: the backups
    of a file are counted, and spec 4.3: the numbers of photo-capable and of
    video-capable destinations are running counts. The files pending backup
    are kept by their number per device (backups to perform against backups
    performed): [rapid.py] hands the tracker counts, never a list of files. *)
Record DownloadTracker := {
  no_photo_backup_devices : nat;
  no_video_backup_devices : nat;
  backups_performed_by_unique_id : gmap string nat;
  backups_performed_by_scan_id : gmap nat nat;
  no_backups_to_perform_by_scan_id : gmap nat nat;
  download_count_for_file_by_unique_id : gmap string nat;
  download_count_by_scan_id : gmap nat nat;
  no_files_in_download_by_scan_id : gmap nat nat;
  total_bytes_copied_by_scan_id : gmap nat Z;
  total_bytes_backed_up_by_scan_id : gmap nat Z;
  photos_downloaded : gmap nat nat;
  videos_downloaded : gmap nat nat;
  photo_failures : gmap nat nat;
  video_failures : gmap nat nat;
  warnings : gmap nat nat;
  file_types_present_by_scan_id : gmap nat string;
  auto_delete : gmap nat (list RPDFile);
}.

(** Modelled from the spec: one entry of [downloadtracker.TimeRemaining]
    (spec 4.4): the bytes to transfer for a device and the bytes marked
    transferred so far. *)
Record TimeForDownload := { tfd_size : Z; tfd_downloaded : Z }.

(** ** The attributes of [JobCode] and of [RapidWindow] *)

Record JobCode := {
  jc_job_code : string;
  need_job_code_for_naming : bool;
  prompting_for_job_code : bool;
}.

Record RapidWindow := mkRapidWindow {
  prefs : Preferences;
  devices : gmap nat Device;
  scan_id_counter : nat;             (* next identifier of [devices.add_device] *)
  device_state : gmap nat DeviceState.t;   (* the rows of the device models *)
  prompting_for_user_action : gset nat;
  rpd_files : gmap string RPDFile;   (* thumbnailModel.rpd_files *)
  backup_devices : gmap string BackupDevice;
  download_tracker : DownloadTracker;
  time_remaining : gmap nat TimeForDownload;
  temp_dirs_by_scan_id : gmap nat (list string);
  active_downloads_by_scan_id : gset nat;
  download_start_time : option Z;
  display_summary_notification : bool;
  auto_start_is_on : bool;
  download_action_is_download : bool;
  job_code : JobCode;
  job_code_dialogs : nat;            (* calls of [dialog.exec()] not yet returned *)
  download_files : option DownloadFiles;
  camera_unmounts_needed : gset (string * string);
  status_bar : option TimeMessage;
  sent : list Sent;
}.

(** ** Attribute assignment

    [set_a v r] is [r.a = v]: the record [r] with its attribute [a] replaced
    by [v]. Records have no update syntax, so each assignment the modelled
    code makes has its setter here. *)

Definition set_prefs (v : Preferences) (r : RapidWindow) : RapidWindow :=
  mkRapidWindow
    v (devices r) (scan_id_counter r) (device_state r) (prompting_for_user_action r)
    (rpd_files r) (backup_devices r) (download_tracker r) (time_remaining r)
    (temp_dirs_by_scan_id r) (active_downloads_by_scan_id r) (download_start_time r)
    (display_summary_notification r) (auto_start_is_on r) (download_action_is_download r)
    (job_code r) (job_code_dialogs r) (download_files r) (camera_unmounts_needed r)
    (status_bar r) (sent r).

Definition set_devices (v : gmap nat Device) (r : RapidWindow) : RapidWindow :=
  mkRapidWindow
    (prefs r) v (scan_id_counter r) (device_state r) (prompting_for_user_action r)
    (rpd_files r) (backup_devices r) (download_tracker r) (time_remaining r)
    (temp_dirs_by_scan_id r) (active_downloads_by_scan_id r) (download_start_time r)
    (display_summary_notification r) (auto_start_is_on r) (download_action_is_download r)
    (job_code r) (job_code_dialogs r) (download_files r) (camera_unmounts_needed r)
    (status_bar r) (sent r).

Definition set_scan_id_counter (v : nat) (r : RapidWindow) : RapidWindow :=
  mkRapidWindow
    (prefs r) (devices r) v (device_state r) (prompting_for_user_action r) (rpd_files r)
    (backup_devices r) (download_tracker r) (time_remaining r) (temp_dirs_by_scan_id r)
    (active_downloads_by_scan_id r) (download_start_time r) (display_summary_notification r)
    (auto_start_is_on r) (download_action_is_download r) (job_code r) (job_code_dialogs r)
    (download_files r) (camera_unmounts_needed r) (status_bar r) (sent r).

Definition set_device_state (v : gmap nat DeviceState.t) (r : RapidWindow) : RapidWindow :=
  mkRapidWindow
    (prefs r) (devices r) (scan_id_counter r) v (prompting_for_user_action r) (rpd_files r)
    (backup_devices r) (download_tracker r) (time_remaining r) (temp_dirs_by_scan_id r)
    (active_downloads_by_scan_id r) (download_start_time r) (display_summary_notification r)
    (auto_start_is_on r) (download_action_is_download r) (job_code r) (job_code_dialogs r)
    (download_files r) (camera_unmounts_needed r) (status_bar r) (sent r).

Definition set_prompting_for_user_action (v : gset nat) (r : RapidWindow) : RapidWindow :=
  mkRapidWindow
    (prefs r) (devices r) (scan_id_counter r) (device_state r) v (rpd_files r)
    (backup_devices r) (download_tracker r) (time_remaining r) (temp_dirs_by_scan_id r)
    (active_downloads_by_scan_id r) (download_start_time r) (display_summary_notification r)
    (auto_start_is_on r) (download_action_is_download r) (job_code r) (job_code_dialogs r)
    (download_files r) (camera_unmounts_needed r) (status_bar r) (sent r).

Definition set_rpd_files (v : gmap string RPDFile) (r : RapidWindow) : RapidWindow :=
  mkRapidWindow
    (prefs r) (devices r) (scan_id_counter r) (device_state r) (prompting_for_user_action r)
    v (backup_devices r) (download_tracker r) (time_remaining r) (temp_dirs_by_scan_id r)
    (active_downloads_by_scan_id r) (download_start_time r) (display_summary_notification r)
    (auto_start_is_on r) (download_action_is_download r) (job_code r) (job_code_dialogs r)
    (download_files r) (camera_unmounts_needed r) (status_bar r) (sent r).

Definition set_backup_devices (v : gmap string BackupDevice) (r : RapidWindow) : RapidWindow :=
  mkRapidWindow
    (prefs r) (devices r) (scan_id_counter r) (device_state r) (prompting_for_user_action r)
    (rpd_files r) v (download_tracker r) (time_remaining r) (temp_dirs_by_scan_id r)
    (active_downloads_by_scan_id r) (download_start_time r) (display_summary_notification r)
    (auto_start_is_on r) (download_action_is_download r) (job_code r) (job_code_dialogs r)
    (download_files r) (camera_unmounts_needed r) (status_bar r) (sent r).

Definition set_download_tracker (v : DownloadTracker) (r : RapidWindow) : RapidWindow :=
  mkRapidWindow
    (prefs r) (devices r) (scan_id_counter r) (device_state r) (prompting_for_user_action r)
    (rpd_files r) (backup_devices r) v (time_remaining r) (temp_dirs_by_scan_id r)
    (active_downloads_by_scan_id r) (download_start_time r) (display_summary_notification r)
    (auto_start_is_on r) (download_action_is_download r) (job_code r) (job_code_dialogs r)
    (download_files r) (camera_unmounts_needed r) (status_bar r) (sent r).

Definition set_time_remaining (v : gmap nat TimeForDownload) (r : RapidWindow) : RapidWindow :=
  mkRapidWindow
    (prefs r) (devices r) (scan_id_counter r) (device_state r) (prompting_for_user_action r)
    (rpd_files r) (backup_devices r) (download_tracker r) v (temp_dirs_by_scan_id r)
    (active_downloads_by_scan_id r) (download_start_time r) (display_summary_notification r)
    (auto_start_is_on r) (download_action_is_download r) (job_code r) (job_code_dialogs r)
    (download_files r) (camera_unmounts_needed r) (status_bar r) (sent r).

Definition set_temp_dirs_by_scan_id (v : gmap nat (list string)) (r : RapidWindow) : RapidWindow :=
  mkRapidWindow
    (prefs r) (devices r) (scan_id_counter r) (device_state r) (prompting_for_user_action r)
    (rpd_files r) (backup_devices r) (download_tracker r) (time_remaining r) v
    (active_downloads_by_scan_id r) (download_start_time r) (display_summary_notification r)
    (auto_start_is_on r) (download_action_is_download r) (job_code r) (job_code_dialogs r)
    (download_files r) (camera_unmounts_needed r) (status_bar r) (sent r).

Definition set_active_downloads_by_scan_id (v : gset nat) (r : RapidWindow) : RapidWindow :=
  mkRapidWindow
    (prefs r) (devices r) (scan_id_counter r) (device_state r) (prompting_for_user_action r)
    (rpd_files r) (backup_devices r) (download_tracker r) (time_remaining r)
    (temp_dirs_by_scan_id r) v (download_start_time r) (display_summary_notification r)
    (auto_start_is_on r) (download_action_is_download r) (job_code r) (job_code_dialogs r)
    (download_files r) (camera_unmounts_needed r) (status_bar r) (sent r).

Definition set_download_start_time (v : option Z) (r : RapidWindow) : RapidWindow :=
  mkRapidWindow
    (prefs r) (devices r) (scan_id_counter r) (device_state r) (prompting_for_user_action r)
    (rpd_files r) (backup_devices r) (download_tracker r) (time_remaining r)
    (temp_dirs_by_scan_id r) (active_downloads_by_scan_id r) v (display_summary_notification
    r) (auto_start_is_on r) (download_action_is_download r) (job_code r) (job_code_dialogs
    r) (download_files r) (camera_unmounts_needed r) (status_bar r) (sent r).

Definition set_display_summary_notification (v : bool) (r : RapidWindow) : RapidWindow :=
  mkRapidWindow
    (prefs r) (devices r) (scan_id_counter r) (device_state r) (prompting_for_user_action r)
    (rpd_files r) (backup_devices r) (download_tracker r) (time_remaining r)
    (temp_dirs_by_scan_id r) (active_downloads_by_scan_id r) (download_start_time r) v
    (auto_start_is_on r) (download_action_is_download r) (job_code r) (job_code_dialogs r)
    (download_files r) (camera_unmounts_needed r) (status_bar r) (sent r).

Definition set_auto_start_is_on (v : bool) (r : RapidWindow) : RapidWindow :=
  mkRapidWindow
    (prefs r) (devices r) (scan_id_counter r) (device_state r) (prompting_for_user_action r)
    (rpd_files r) (backup_devices r) (download_tracker r) (time_remaining r)
    (temp_dirs_by_scan_id r) (active_downloads_by_scan_id r) (download_start_time r)
    (display_summary_notification r) v (download_action_is_download r) (job_code r)
    (job_code_dialogs r) (download_files r) (camera_unmounts_needed r) (status_bar r) (sent
    r).

Definition set_download_action_is_download (v : bool) (r : RapidWindow) : RapidWindow :=
  mkRapidWindow
    (prefs r) (devices r) (scan_id_counter r) (device_state r) (prompting_for_user_action r)
    (rpd_files r) (backup_devices r) (download_tracker r) (time_remaining r)
    (temp_dirs_by_scan_id r) (active_downloads_by_scan_id r) (download_start_time r)
    (display_summary_notification r) (auto_start_is_on r) v (job_code r) (job_code_dialogs
    r) (download_files r) (camera_unmounts_needed r) (status_bar r) (sent r).

Definition set_job_code (v : JobCode) (r : RapidWindow) : RapidWindow :=
  mkRapidWindow
    (prefs r) (devices r) (scan_id_counter r) (device_state r) (prompting_for_user_action r)
    (rpd_files r) (backup_devices r) (download_tracker r) (time_remaining r)
    (temp_dirs_by_scan_id r) (active_downloads_by_scan_id r) (download_start_time r)
    (display_summary_notification r) (auto_start_is_on r) (download_action_is_download r) v
    (job_code_dialogs r) (download_files r) (camera_unmounts_needed r) (status_bar r) (sent
    r).

Definition set_job_code_dialogs (v : nat) (r : RapidWindow) : RapidWindow :=
  mkRapidWindow
    (prefs r) (devices r) (scan_id_counter r) (device_state r) (prompting_for_user_action r)
    (rpd_files r) (backup_devices r) (download_tracker r) (time_remaining r)
    (temp_dirs_by_scan_id r) (active_downloads_by_scan_id r) (download_start_time r)
    (display_summary_notification r) (auto_start_is_on r) (download_action_is_download r)
    (job_code r) v (download_files r) (camera_unmounts_needed r) (status_bar r) (sent r).

Definition set_download_files (v : option DownloadFiles) (r : RapidWindow) : RapidWindow :=
  mkRapidWindow
    (prefs r) (devices r) (scan_id_counter r) (device_state r) (prompting_for_user_action r)
    (rpd_files r) (backup_devices r) (download_tracker r) (time_remaining r)
    (temp_dirs_by_scan_id r) (active_downloads_by_scan_id r) (download_start_time r)
    (display_summary_notification r) (auto_start_is_on r) (download_action_is_download r)
    (job_code r) (job_code_dialogs r) v (camera_unmounts_needed r) (status_bar r) (sent r).

Definition set_camera_unmounts_needed (v : gset (string * string)) (r : RapidWindow) : RapidWindow :=
  mkRapidWindow
    (prefs r) (devices r) (scan_id_counter r) (device_state r) (prompting_for_user_action r)
    (rpd_files r) (backup_devices r) (download_tracker r) (time_remaining r)
    (temp_dirs_by_scan_id r) (active_downloads_by_scan_id r) (download_start_time r)
    (display_summary_notification r) (auto_start_is_on r) (download_action_is_download r)
    (job_code r) (job_code_dialogs r) (download_files r) v (status_bar r) (sent r).

Definition set_status_bar (v : option TimeMessage) (r : RapidWindow) : RapidWindow :=
  mkRapidWindow
    (prefs r) (devices r) (scan_id_counter r) (device_state r) (prompting_for_user_action r)
    (rpd_files r) (backup_devices r) (download_tracker r) (time_remaining r)
    (temp_dirs_by_scan_id r) (active_downloads_by_scan_id r) (download_start_time r)
    (display_summary_notification r) (auto_start_is_on r) (download_action_is_download r)
    (job_code r) (job_code_dialogs r) (download_files r) (camera_unmounts_needed r) v (sent
    r).

Definition set_sent (v : list Sent) (r : RapidWindow) : RapidWindow :=
  mkRapidWindow
    (prefs r) (devices r) (scan_id_counter r) (device_state r) (prompting_for_user_action r)
    (rpd_files r) (backup_devices r) (download_tracker r) (time_remaining r)
    (temp_dirs_by_scan_id r) (active_downloads_by_scan_id r) (download_start_time r)
    (display_summary_notification r) (auto_start_is_on r) (download_action_is_download r)
    (job_code r) (job_code_dialogs r) (download_files r) (camera_unmounts_needed r)
    (status_bar r) v.

Definition set_no_photo_backup_devices (v : nat) (r : DownloadTracker) : DownloadTracker :=
  Build_DownloadTracker
    v (no_video_backup_devices r) (backups_performed_by_unique_id r)
    (backups_performed_by_scan_id r) (no_backups_to_perform_by_scan_id r)
    (download_count_for_file_by_unique_id r) (download_count_by_scan_id r)
    (no_files_in_download_by_scan_id r) (total_bytes_copied_by_scan_id r)
    (total_bytes_backed_up_by_scan_id r) (photos_downloaded r) (videos_downloaded r)
    (photo_failures r) (video_failures r) (warnings r) (file_types_present_by_scan_id r)
    (auto_delete r).

Definition set_no_video_backup_devices (v : nat) (r : DownloadTracker) : DownloadTracker :=
  Build_DownloadTracker
    (no_photo_backup_devices r) v (backups_performed_by_unique_id r)
    (backups_performed_by_scan_id r) (no_backups_to_perform_by_scan_id r)
    (download_count_for_file_by_unique_id r) (download_count_by_scan_id r)
    (no_files_in_download_by_scan_id r) (total_bytes_copied_by_scan_id r)
    (total_bytes_backed_up_by_scan_id r) (photos_downloaded r) (videos_downloaded r)
    (photo_failures r) (video_failures r) (warnings r) (file_types_present_by_scan_id r)
    (auto_delete r).



Definition set_no_backups_to_perform_by_scan_id (v : gmap nat nat) (r : DownloadTracker) : DownloadTracker :=
  Build_DownloadTracker
    (no_photo_backup_devices r) (no_video_backup_devices r) (backups_performed_by_unique_id
    r) (backups_performed_by_scan_id r) v (download_count_for_file_by_unique_id r)
    (download_count_by_scan_id r) (no_files_in_download_by_scan_id r)
    (total_bytes_copied_by_scan_id r) (total_bytes_backed_up_by_scan_id r)
    (photos_downloaded r) (videos_downloaded r) (photo_failures r) (video_failures r)
    (warnings r) (file_types_present_by_scan_id r) (auto_delete r).

Definition set_download_count_for_file_by_unique_id (v : gmap string nat) (r : DownloadTracker) : DownloadTracker :=
  Build_DownloadTracker
    (no_photo_backup_devices r) (no_video_backup_devices r) (backups_performed_by_unique_id
    r) (backups_performed_by_scan_id r) (no_backups_to_perform_by_scan_id r) v
    (download_count_by_scan_id r) (no_files_in_download_by_scan_id r)
    (total_bytes_copied_by_scan_id r) (total_bytes_backed_up_by_scan_id r)
    (photos_downloaded r) (videos_downloaded r) (photo_failures r) (video_failures r)
    (warnings r) (file_types_present_by_scan_id r) (auto_delete r).

Definition set_download_count_by_scan_id (v : gmap nat nat) (r : DownloadTracker) : DownloadTracker :=
  Build_DownloadTracker
    (no_photo_backup_devices r) (no_video_backup_devices r) (backups_performed_by_unique_id
    r) (backups_performed_by_scan_id r) (no_backups_to_perform_by_scan_id r)
    (download_count_for_file_by_unique_id r) v (no_files_in_download_by_scan_id r)
    (total_bytes_copied_by_scan_id r) (total_bytes_backed_up_by_scan_id r)
    (photos_downloaded r) (videos_downloaded r) (photo_failures r) (video_failures r)
    (warnings r) (file_types_present_by_scan_id r) (auto_delete r).

Definition set_no_files_in_download_by_scan_id (v : gmap nat nat) (r : DownloadTracker) : DownloadTracker :=
  Build_DownloadTracker
    (no_photo_backup_devices r) (no_video_backup_devices r) (backups_performed_by_unique_id
    r) (backups_performed_by_scan_id r) (no_backups_to_perform_by_scan_id r)
    (download_count_for_file_by_unique_id r) (download_count_by_scan_id r) v
    (total_bytes_copied_by_scan_id r) (total_bytes_backed_up_by_scan_id r)
    (photos_downloaded r) (videos_downloaded r) (photo_failures r) (video_failures r)
    (warnings r) (file_types_present_by_scan_id r) (auto_delete r).

Definition set_total_bytes_copied_by_scan_id (v : gmap nat Z) (r : DownloadTracker) : DownloadTracker :=
  Build_DownloadTracker
    (no_photo_backup_devices r) (no_video_backup_devices r) (backups_performed_by_unique_id
    r) (backups_performed_by_scan_id r) (no_backups_to_perform_by_scan_id r)
    (download_count_for_file_by_unique_id r) (download_count_by_scan_id r)
    (no_files_in_download_by_scan_id r) v (total_bytes_backed_up_by_scan_id r)
    (photos_downloaded r) (videos_downloaded r) (photo_failures r) (video_failures r)
    (warnings r) (file_types_present_by_scan_id r) (auto_delete r).

Definition set_total_bytes_backed_up_by_scan_id (v : gmap nat Z) (r : DownloadTracker) : DownloadTracker :=
  Build_DownloadTracker
    (no_photo_backup_devices r) (no_video_backup_devices r) (backups_performed_by_unique_id
    r) (backups_performed_by_scan_id r) (no_backups_to_perform_by_scan_id r)
    (download_count_for_file_by_unique_id r) (download_count_by_scan_id r)
    (no_files_in_download_by_scan_id r) (total_bytes_copied_by_scan_id r) v
    (photos_downloaded r) (videos_downloaded r) (photo_failures r) (video_failures r)
    (warnings r) (file_types_present_by_scan_id r) (auto_delete r).

Definition set_photos_downloaded (v : gmap nat nat) (r : DownloadTracker) : DownloadTracker :=
  Build_DownloadTracker
    (no_photo_backup_devices r) (no_video_backup_devices r) (backups_performed_by_unique_id
    r) (backups_performed_by_scan_id r) (no_backups_to_perform_by_scan_id r)
    (download_count_for_file_by_unique_id r) (download_count_by_scan_id r)
    (no_files_in_download_by_scan_id r) (total_bytes_copied_by_scan_id r)
    (total_bytes_backed_up_by_scan_id r) v (videos_downloaded r) (photo_failures r)
    (video_failures r) (warnings r) (file_types_present_by_scan_id r) (auto_delete r).

Definition set_videos_downloaded (v : gmap nat nat) (r : DownloadTracker) : DownloadTracker :=
  Build_DownloadTracker
    (no_photo_backup_devices r) (no_video_backup_devices r) (backups_performed_by_unique_id
    r) (backups_performed_by_scan_id r) (no_backups_to_perform_by_scan_id r)
    (download_count_for_file_by_unique_id r) (download_count_by_scan_id r)
    (no_files_in_download_by_scan_id r) (total_bytes_copied_by_scan_id r)
    (total_bytes_backed_up_by_scan_id r) (photos_downloaded r) v (photo_failures r)
    (video_failures r) (warnings r) (file_types_present_by_scan_id r) (auto_delete r).

Definition set_photo_failures (v : gmap nat nat) (r : DownloadTracker) : DownloadTracker :=
  Build_DownloadTracker
    (no_photo_backup_devices r) (no_video_backup_devices r) (backups_performed_by_unique_id
    r) (backups_performed_by_scan_id r) (no_backups_to_perform_by_scan_id r)
    (download_count_for_file_by_unique_id r) (download_count_by_scan_id r)
    (no_files_in_download_by_scan_id r) (total_bytes_copied_by_scan_id r)
    (total_bytes_backed_up_by_scan_id r) (photos_downloaded r) (videos_downloaded r) v
    (video_failures r) (warnings r) (file_types_present_by_scan_id r) (auto_delete r).

Definition set_video_failures (v : gmap nat nat) (r : DownloadTracker) : DownloadTracker :=
  Build_DownloadTracker
    (no_photo_backup_devices r) (no_video_backup_devices r) (backups_performed_by_unique_id
    r) (backups_performed_by_scan_id r) (no_backups_to_perform_by_scan_id r)
    (download_count_for_file_by_unique_id r) (download_count_by_scan_id r)
    (no_files_in_download_by_scan_id r) (total_bytes_copied_by_scan_id r)
    (total_bytes_backed_up_by_scan_id r) (photos_downloaded r) (videos_downloaded r)
    (photo_failures r) v (warnings r) (file_types_present_by_scan_id r) (auto_delete r).

Definition set_warnings (v : gmap nat nat) (r : DownloadTracker) : DownloadTracker :=
  Build_DownloadTracker
    (no_photo_backup_devices r) (no_video_backup_devices r) (backups_performed_by_unique_id
    r) (backups_performed_by_scan_id r) (no_backups_to_perform_by_scan_id r)
    (download_count_for_file_by_unique_id r) (download_count_by_scan_id r)
    (no_files_in_download_by_scan_id r) (total_bytes_copied_by_scan_id r)
    (total_bytes_backed_up_by_scan_id r) (photos_downloaded r) (videos_downloaded r)
    (photo_failures r) (video_failures r) v (file_types_present_by_scan_id r) (auto_delete
    r).

Definition set_file_types_present_by_scan_id (v : gmap nat string) (r : DownloadTracker) : DownloadTracker :=
  Build_DownloadTracker
    (no_photo_backup_devices r) (no_video_backup_devices r) (backups_performed_by_unique_id
    r) (backups_performed_by_scan_id r) (no_backups_to_perform_by_scan_id r)
    (download_count_for_file_by_unique_id r) (download_count_by_scan_id r)
    (no_files_in_download_by_scan_id r) (total_bytes_copied_by_scan_id r)
    (total_bytes_backed_up_by_scan_id r) (photos_downloaded r) (videos_downloaded r)
    (photo_failures r) (video_failures r) (warnings r) v (auto_delete r).

Definition set_auto_delete (v : gmap nat (list RPDFile)) (r : DownloadTracker) : DownloadTracker :=
  Build_DownloadTracker
    (no_photo_backup_devices r) (no_video_backup_devices r) (backups_performed_by_unique_id
    r) (backups_performed_by_scan_id r) (no_backups_to_perform_by_scan_id r)
    (download_count_for_file_by_unique_id r) (download_count_by_scan_id r)
    (no_files_in_download_by_scan_id r) (total_bytes_copied_by_scan_id r)
    (total_bytes_backed_up_by_scan_id r) (photos_downloaded r) (videos_downloaded r)
    (photo_failures r) (video_failures r) (warnings r) (file_types_present_by_scan_id r) v.

Definition set_job_codes (v : list string) (r : Preferences) : Preferences :=
  Build_Preferences
    (backup_files r) (backup_device_autodetection r) (photo_backup_identifier r)
    (video_backup_identifier r) (backup_photo_location r) (backup_video_location r)
    (photo_download_folder r) (video_download_folder r) (device_autodetection r)
    (device_without_dcim_autodetection r) (auto_download_upon_device_insertion r)
    (generate_thumbnails r) (verify_file r) (backup_duplicate_overwrite r)
    (save_fdo_thumbnails r) (move r) (auto_unmount r) (auto_exit r) (auto_exit_force r) v
    (remember_job_code r) (path_blacklist r) (path_whitelist r) (ignored_paths r).

Definition set_remember_job_code (v : bool) (r : Preferences) : Preferences :=
  Build_Preferences
    (backup_files r) (backup_device_autodetection r) (photo_backup_identifier r)
    (video_backup_identifier r) (backup_photo_location r) (backup_video_location r)
    (photo_download_folder r) (video_download_folder r) (device_autodetection r)
    (device_without_dcim_autodetection r) (auto_download_upon_device_insertion r)
    (generate_thumbnails r) (verify_file r) (backup_duplicate_overwrite r)
    (save_fdo_thumbnails r) (move r) (auto_unmount r) (auto_exit r) (auto_exit_force r)
    (job_codes r) v (path_blacklist r) (path_whitelist r) (ignored_paths r).

Definition set_jc_job_code (v : string) (r : JobCode) : JobCode :=
  Build_JobCode
    v (need_job_code_for_naming r) (prompting_for_job_code r).

Definition set_prompting_for_job_code (v : bool) (r : JobCode) : JobCode :=
  Build_JobCode
    (jc_job_code r) (need_job_code_for_naming r) v.

Definition set_status (v : DownloadStatus.t) (r : RPDFile) : RPDFile :=
  Build_RPDFile
    (unique_id r) (scan_id r) (file_type r) v.

Definition set_display_name (v : string) (r : Device) : Device :=
  Build_Device
    (device_type r) v (device_path r) (camera_model r) (camera_port r) (no_photos_scanned r)
    (no_videos_scanned r) (file_size_sum r).

Definition set_no_photos_scanned (v : nat) (r : Device) : Device :=
  Build_Device
    (device_type r) (display_name r) (device_path r) (camera_model r) (camera_port r) v
    (no_videos_scanned r) (file_size_sum r).

Definition set_no_videos_scanned (v : nat) (r : Device) : Device :=
  Build_Device
    (device_type r) (display_name r) (device_path r) (camera_model r) (camera_port r)
    (no_photos_scanned r) v (file_size_sum r).

Definition set_file_size_sum (v : Z) (r : Device) : Device :=
  Build_Device
    (device_type r) (display_name r) (device_path r) (camera_model r) (camera_port r)
    (no_photos_scanned r) (no_videos_scanned r) v.

Definition set_tfd_downloaded (v : Z) (r : TimeForDownload) : TimeForDownload :=
  Build_TimeForDownload
    (tfd_size r) v.

(** ** The monad of the handlers *)

Inductive Exception :=
| KeyError
| IndexError
| AssertionError
| AttributeError (name : string).

Definition M (A : Type) : Type := RapidWindow → (Exception + A) * RapidWindow.

#[global] Instance M_ret : MRet M := λ A a w, (inr a, w).

#[global] Instance M_bind : MBind M := λ A B f m w,
  match m w with
  | (inl e, w') => (inl e, w')
  | (inr a, w') => f a w'
  end.

Definition raise {A} (e : Exception) : M A := λ w, (inl e, w).
Definition gets {A} (f : RapidWindow → A) : M A := λ w, (inr (f w), w).
Definition modify (f : RapidWindow → RapidWindow) : M unit := λ w, (inr tt, f w).

(** A call that leaves the orchestrator. *)
Definition send (s : Sent) : M unit := modify (λ w, set_sent (sent w ++ [s]) w).

Definition pass : M unit := mret tt.
Definition when (b : bool) (m : M unit) : M unit := if b then m else pass.
Definition assert (b : bool) : M unit := if b then pass else raise AssertionError.

(** [d[k]] for a dictionary read out of the window. *)
Definition getitem {A} (o : option A) : M A :=
  match o with Some a => mret a | None => raise KeyError end.

(** [for x in l: body]. *)
Fixpoint for_each {A} (l : list A) (body : A → M unit) : M unit :=
  match l with
  | [] => pass
  | x :: l' => body x ;; for_each l' body
  end.

(** What a handler leaves behind: the window, and how it ended. *)
Definition window_after {A} (r : (Exception + A) * RapidWindow) : RapidWindow := r.2.
Definition returned {A} (r : (Exception + A) * RapidWindow) : bool :=
  match r.1 with inr _ => true | inl _ => false end.

(** ** The answers of the collaborators

    One [Env] is what the file system, the mount table, the thumbnail model
    and the worker managers answer during one handler. *)
Record Env := {
  os_path_isdir : string → bool;
  os_access_W_OK : string → bool;
  mountPaths : list string;
  mountedValidMountPoints : list string;
  mount_isValid_and_isReady : string → bool;
  mount_displayName : string → string;
  has_non_empty_dcim_folder : string → bool;
  gvfsControlsMounts : bool;
  cameraMountPoint : string → string → option string;
  known_device : gmap nat Device → Device → bool;
  scanmq_workers : gset nat;
  copyfilesmq_workers : gset nat;
  getFilesMarkedForDownload : gmap string RPDFile → option nat → DownloadFiles;
  terminateThumbnailGeneration : nat → bool;
  markThumbnailsNeeded : list RPDFile → bool;
  thumbnailModel_clearAll : nat → bool;
  getNoFilesRemaining : nat → nat;
  filesRemainToDownload : bool;
  datetime_now : Z;
  home_dir : string;
}.

(** [os.path.join(a, b)] on POSIX paths. *)
Definition is_absolute (p : string) : bool :=
  match p with String c _ => bool_decide (c = "/"%char) | EmptyString => false end.

Fixpoint ends_with_slash (p : string) : bool :=
  match p with
  | EmptyString => false
  | String c EmptyString => bool_decide (c = "/"%char)
  | String _ rest => ends_with_slash rest
  end.

Definition os_path_join (a b : string) : string :=
  if is_absolute b then b
  else if bool_decide (a = EmptyString) || ends_with_slash a then a ++ b
  else a ++ "/" ++ b.

(** ** The backup destinations ([devices.BackupDeviceCollection]) *)

(** Modelled from the spec: [BackupDeviceCollection] is not among the
    sources. Spec 3 and 4.3: the collection is keyed by path, one entry per
    path, and it keeps the numbers of photo-capable and of video-capable
    destinations; a destination is capable of a file type when its
    capability is that type or photos-and-videos. *)
Definition capable (ft : FileType.t) (t : BackupLocationType.t) : bool :=
  match ft, t with
  | _, BackupLocationType.photos_and_videos => true
  | FileType.photo, BackupLocationType.photos => true
  | FileType.video, BackupLocationType.videos => true
  | _, _ => false
  end.

(** Modelled from the spec: the running count of the destinations capable of
    one file type, [no_photo_backup_devices] and [no_video_backup_devices]. *)
Definition no_backup_devices_for (ft : FileType.t) (bd : gmap string BackupDevice) : nat :=
  length (filter (λ pd : string * BackupDevice, capable ft (backup_type pd.2) = true)
            (map_to_list bd)).

(** Modelled from the spec: [backup_possible(file_type)] is "at least one
    destination can back up this type" (spec 4.3), [multiple_backup_devices]
    is "more than one". *)
Definition backup_possible (ft : FileType.t) (bd : gmap string BackupDevice) : bool :=
  bool_decide (0 < no_backup_devices_for ft bd).

Definition multiple_backup_devices (ft : FileType.t) (bd : gmap string BackupDevice) : bool :=
  bool_decide (1 < no_backup_devices_for ft bd).

(** ** The operations of the download tracker *)

Module tracker.

Definition count {K} `{Countable K} (m : gmap K nat) (k : K) : nat := default 0 (m !! k).

(** Modelled from the spec: [set_no_backup_devices] stores the two running
    counts of spec 4.3. *)
Definition set_no_backup_devices (p v : nat) (t : DownloadTracker) : DownloadTracker :=
  set_no_video_backup_devices v (set_no_photo_backup_devices p t).

Definition no_backup_devices (ft : FileType.t) (t : DownloadTracker) : nat :=
  match ft with
  | FileType.photo => no_photo_backup_devices t
  | FileType.video => no_video_backup_devices t
  end.

(** Modelled from the spec: [init_stats] opens the per-device counters of
    spec 4.4 for a download of [stats]: the files in the download and the
    backups to perform, one per file and capable destination. *)
Definition init_stats (scan_id : nat) (stats : DownloadStats) (t : DownloadTracker)
  : DownloadTracker :=
  set_no_files_in_download_by_scan_id
    (<[scan_id := no_photos stats + no_videos stats]> (no_files_in_download_by_scan_id t))
    (set_no_backups_to_perform_by_scan_id
       (<[scan_id := no_photos stats * no_photo_backup_devices t
                     + no_videos stats * no_video_backup_devices t]>
          (no_backups_to_perform_by_scan_id t))
       (set_total_bytes_copied_by_scan_id
          (<[scan_id := 0%Z]> (total_bytes_copied_by_scan_id t))
          (set_total_bytes_backed_up_by_scan_id
             (<[scan_id := 0%Z]> (total_bytes_backed_up_by_scan_id t)) t))).

Definition set_download_count_for_file (uid : string) (n : nat) (t : DownloadTracker) :=
  set_download_count_for_file_by_unique_id
    (<[uid := n]> (download_count_for_file_by_unique_id t)) t.

Definition set_download_count (scan_id n : nat) (t : DownloadTracker) :=
  set_download_count_by_scan_id (<[scan_id := n]> (download_count_by_scan_id t)) t.

Definition get_download_count_for_file (uid : string) (t : DownloadTracker) : nat :=
  count (download_count_for_file_by_unique_id t) uid.

Definition get_no_files_in_download (scan_id : nat) (t : DownloadTracker) : nat :=
  count (no_files_in_download_by_scan_id t) scan_id.

Definition set_total_bytes_copied (scan_id : nat) (b : Z) (t : DownloadTracker) :=
  set_total_bytes_copied_by_scan_id (<[scan_id := b]> (total_bytes_copied_by_scan_id t)) t.

Definition increment_bytes_backed_up (scan_id : nat) (b : Z) (t : DownloadTracker) :=
  set_total_bytes_backed_up_by_scan_id
    (<[scan_id := (default 0 (total_bytes_backed_up_by_scan_id t !! scan_id) + b)%Z]>
       (total_bytes_backed_up_by_scan_id t)) t.



(** Modelled from the spec: no backup is pending, for one device or, with
    no device given, for every device of the download. *)
Definition all_files_backed_up (scan_id : option nat) (t : DownloadTracker) : bool :=
  match scan_id with
  | Some i =>
      bool_decide (count (no_backups_to_perform_by_scan_id t) i
                   = count (backups_performed_by_scan_id t) i)
  | None =>
      forallb (λ kv : nat * nat,
                 bool_decide (kv.2 = count (backups_performed_by_scan_id t) kv.1))
        (map_to_list (no_backups_to_perform_by_scan_id t))
  end.

Definition set_file_types_present (scan_id : nat) (present : string) (t : DownloadTracker) :=
  set_file_types_present_by_scan_id
    (<[scan_id := present]> (file_types_present_by_scan_id t)) t.

Definition add_to_auto_delete (f : RPDFile) (t : DownloadTracker) :=
  set_auto_delete
    (<[scan_id f := (default [] (auto_delete t !! scan_id f) ++ [f])%list]> (auto_delete t)) t.

Definition clear_auto_delete (scan_id : nat) (t : DownloadTracker) :=
  set_auto_delete (delete scan_id (auto_delete t)) t.

Definition bump (k : nat) (m : gmap nat nat) : gmap nat nat := <[k := S (count m k)]> m.

(** Modelled from the spec: the per-device file counters of spec 4.4,
    downloaded and failed by file type, and warned. *)
Definition file_downloaded_increment (scan_id : nat) (ft : FileType.t)
    (st : DownloadStatus.t) (t : DownloadTracker) : DownloadTracker :=
  let t1 :=
    match st, ft with
    | DownloadStatus.download_failed, FileType.photo =>
        set_photo_failures (bump scan_id (photo_failures t)) t
    | DownloadStatus.download_failed, FileType.video =>
        set_video_failures (bump scan_id (video_failures t)) t
    | _, FileType.photo => set_photos_downloaded (bump scan_id (photos_downloaded t)) t
    | _, FileType.video => set_videos_downloaded (bump scan_id (videos_downloaded t)) t
    end in
  match st with
  | DownloadStatus.downloaded_with_warning => set_warnings (bump scan_id (warnings t1)) t1
  | _ => t1
  end.

Definition no_errors_or_warnings (t : DownloadTracker) : bool :=
  bool_decide (photo_failures t = ∅ ∧ video_failures t = ∅ ∧ warnings t = ∅).

(** Modelled from the spec: the reset of all per-session counters at global
    completion (spec 4.2); the destination counts and the file types found
    by the scans are not per-session and stay. *)
Definition purge_all (t : DownloadTracker) : DownloadTracker :=
  Build_DownloadTracker
    (no_photo_backup_devices t) (no_video_backup_devices t)
    ∅ ∅ ∅ ∅ ∅ ∅ ∅ ∅ ∅ ∅ ∅ ∅ ∅ (file_types_present_by_scan_id t) ∅.

Definition empty : DownloadTracker :=
  Build_DownloadTracker 0 0 ∅ ∅ ∅ ∅ ∅ ∅ ∅ ∅ ∅ ∅ ∅ ∅ ∅ ∅ ∅.

End tracker.

(** ** The time-remaining table ([downloadtracker.TimeRemaining]) *)

Module TimeRemaining.

(** Modelled from the spec: [TimeRemaining] is not among the sources.
    [time_remaining[scan_id] = size] opens an entry with nothing transferred. *)
Definition setitem (scan_id : nat) (size : Z) (m : gmap nat TimeForDownload) :=
  <[scan_id := Build_TimeForDownload size 0]> m.

(** Modelled from the spec: [update] marks [bytes_downloaded] more bytes
    transferred for the device; a device without an entry is ignored. *)
Definition update (scan_id : nat) (bytes_downloaded : Z) (m : gmap nat TimeForDownload) :=
  alter (λ t, set_tfd_downloaded (tfd_downloaded t + bytes_downloaded)%Z t) scan_id m.

(** Modelled from the spec: the bytes outstanding, over all entries. *)
Definition bytes_outstanding (m : gmap nat TimeForDownload) : Z :=
  foldr (λ (kv : nat * TimeForDownload) acc, (tfd_size kv.2 - tfd_downloaded kv.2 + acc)%Z)
    0%Z (map_to_list m).

(** Modelled from the spec: the remaining-time figure of spec 4.4,
    bytes outstanding over the most recent rate (bytes per second), an exact
    rational here where Python has a float. *)
Definition time_remaining (rate : Qc) (m : gmap nat TimeForDownload) : Qc :=
  (Qc_of_Z (bytes_outstanding m) / rate)%Qc.

End TimeRemaining.

(** ** The methods of [RapidWindow] *)

Section RapidWindow.

Context (env : Env).

(** [mapModel]: the device model of a registered device, found through
    [self.devices[scan_id]]. *)
Definition mapModel (scan_id : nat) : M DeviceType.t :=
  ds ← gets devices;
  d ← getitem (ds !! scan_id);
  mret (device_type d).

(** [self.mapModel(scan_id).setDeviceState(scan_id, state)]. *)
Definition setDeviceState (scan_id : nat) (state : DeviceState.t) : M unit :=
  mapModel scan_id ;;
  modify (λ w, set_device_state (<[scan_id := state]> (device_state w)) w).

(** [logError] has an empty body. *)
Definition logError (severity : ErrorType.t) (problem details : string) : M unit := pass.

(** [self.log_error(...)]: [RapidWindow] defines [logError] only, so the
    attribute lookup fails. *)
Definition log_error (severity : ErrorType.t) (problem details : string) : M unit :=
  raise (AttributeError "log_error").

Definition downloadIsRunning (w : RapidWindow) : bool :=
  if bool_decide (size (active_downloads_by_scan_id w) = 0) then
    if backup_files (prefs w) then
      if tracker.all_files_backed_up None (download_tracker w) then false else true
    else false
  else true.

Definition enablePrefsAndRefresh (enabled : bool) : M unit :=
  send (prefs_and_refresh_setEnabled enabled).

Definition setDownloadActionSensitivity : M unit :=
  running ← gets downloadIsRunning;
  when (negb running) (send downloadAct_refresh).

Definition setDownloadActionLabel (is_download : bool) : M unit :=
  modify (set_download_action_is_download is_download).

Definition displayMessageInStatusBar : M unit := send statusBar_basic_message.

Definition isValidDownloadDir (path : string) (is_photo_dir show_error_in_log : bool)
  : M bool :=
  if negb (os_path_isdir env path) then
    when show_error_in_log
      (log_error ErrorType.warning "download folder is invalid" path) ;;
    mret false
  else if negb (os_access_W_OK env path) then
    when show_error_in_log
      (log_error ErrorType.warning "download folder is not writable" path) ;;
    mret false
  else mret true.

Definition invalidDownloadFolders (downloading : DownloadTypes) : M (list string) :=
  p ← gets prefs;
  invalid_dirs ←
    (if dt_photos downloading then
       valid ← isValidDownloadDir (photo_download_folder p) true false;
       mret (if valid : bool then [] else [photo_download_folder p])
     else mret [] : M (list string));
  if dt_videos downloading then
    valid ← isValidDownloadDir (video_download_folder p) false false;
    mret (if valid : bool then invalid_dirs
          else (invalid_dirs ++ [video_download_folder p])%list)
  else mret invalid_dirs.

(** [BackupMissing(photo, video)], or [None]. *)
Definition backupDestinationsMissing (downloading : DownloadTypes) (w : RapidWindow)
  : option (bool * bool) :=
  if backup_files (prefs w) && backup_device_autodetection (prefs w) then
    let photo_missing :=
      dt_photos downloading && negb (backup_possible FileType.photo (backup_devices w)) in
    let video_missing :=
      dt_videos downloading && negb (backup_possible FileType.video (backup_devices w)) in
    if negb (photo_missing || video_missing) then None
    else Some (photo_missing, video_missing)
  else None.

(** Modelled from the spec: [thumbnailModel.markDownloadPending] is not
    among the sources; it gives the files the status download-pending
    (spec 3; "Set status to download pending" at the call). *)
Definition markDownloadPending (fs : gmap nat (list RPDFile)) : M unit :=
  modify (λ w,
    set_rpd_files
      (foldr (λ f m, <[unique_id f := set_status DownloadStatus.download_pending f]> m)
         (rpd_files w) (concat (map_to_list fs).*2)) w).

Definition downloadFiles (fs : list RPDFile) (scan_id : nat)
    (download_stats : DownloadStats) (generate : bool) : M unit :=
  setDeviceState scan_id DeviceState.downloading ;;
  p ← gets prefs;
  let photo_download_folder' :=
    if bool_decide (0 < no_photos download_stats) then Some (photo_download_folder p)
    else None in
  let video_download_folder' :=
    if bool_decide (0 < no_videos download_stats) then Some (video_download_folder p)
    else None in
  modify (λ w, set_download_tracker
                 (tracker.init_stats scan_id download_stats (download_tracker w)) w) ;;
  bd ← gets backup_devices;
  let download_size :=
    (photos_size_in_bytes download_stats + videos_size_in_bytes download_stats
     + (if backup_files p then
          Z.of_nat (no_backup_devices_for FileType.photo bd)
            * photos_size_in_bytes download_stats
          + Z.of_nat (no_backup_devices_for FileType.video bd)
            * videos_size_in_bytes download_stats
        else 0))%Z in
  modify (λ w, set_time_remaining
                 (TimeRemaining.setitem scan_id download_size (time_remaining w)) w) ;;
  modify (λ w, set_active_downloads_by_scan_id
                 ({[scan_id]} ∪ active_downloads_by_scan_id w) w) ;;
  active ← gets active_downloads_by_scan_id;
  when (bool_decide (1 < size active)) (modify (set_display_summary_notification true)) ;;
  auto_start ← gets auto_start_is_on;
  let generate_thumbnails' :=
    if auto_start && generate_thumbnails p then true else generate in
  ds ← gets devices;
  device ← getitem (ds !! scan_id);
  send (copyfilesmq_start_worker scan_id
          {| cfa_scan_id := scan_id; cfa_device := device;
             cfa_photo_download_folder := photo_download_folder';
             cfa_video_download_folder := video_download_folder';
             cfa_files := fs; cfa_verify_file := verify_file p;
             cfa_generate_thumbnails := generate_thumbnails' |}).

Definition startDownloadPhase2 : M unit :=
  df ← gets download_files;
  download_files' ←
    match df with
    | Some d => mret d
    | None => raise (AttributeError "download_files")
    end;
  invalid_dirs ← invalidDownloadFolders (download_types download_files');
  match invalid_dirs with
  | _ :: _ =>
      log_error ErrorType.critical_error "Download cannot proceed"
        (String.concat (String "010"%char EmptyString) invalid_dirs)
  | [] =>
      missing_destinations ←
        gets (backupDestinationsMissing (download_types download_files'));
      match missing_destinations with
      | Some _ => logError ErrorType.warning "Backup problem" "No backup device contains a valid folder"
      | None => pass
      end ;;
      start ← gets download_start_time;
      when (bool_decide (start = None))
        (modify (set_download_start_time (Some (datetime_now env)))) ;;
      markDownloadPending (files download_files') ;;
      enablePrefsAndRefresh false ;;
      send (renamemq_send (rename_message RenameAndMoveStatus.download_started)) ;;
      for_each (map_to_list (files download_files')) (λ '(scan_id, fs),
        let fs := set_status DownloadStatus.download_pending <$> fs in
        let generate :=
          if terminateThumbnailGeneration env scan_id then markThumbnailsNeeded env fs
          else false in
        stats ← getitem (download_stats download_files' !! scan_id);
        downloadFiles fs scan_id stats generate) ;;
      setDownloadActionLabel false
  end.

Definition startDownload (scan_id : option nat) : M unit :=
  marked ← gets (λ w, getFilesMarkedForDownload env (rpd_files w) scan_id);
  modify (set_download_files (Some marked)) ;;
  modify (set_camera_unmounts_needed ∅) ;;
  camera_unmount_called ←
    (if gvfsControlsMounts env then
       for_each (map_to_list (camera_access_needed marked)) (λ '(scan_id, needed),
         when needed (
           ds ← gets devices;
           device ← getitem (ds !! scan_id);
           match cameraMountPoint env (camera_model device) (camera_port device) with
           | Some _ =>
               modify (λ w, set_camera_unmounts_needed
                              ({[(camera_model device, camera_port device)]}
                               ∪ camera_unmounts_needed w) w)
           | None => pass
           end)) ;;
       needed ← gets camera_unmounts_needed;
       if bool_decide (size needed = 0) then mret false
       else
         for_each (elements needed) (λ '(model, port),
           send (gvolumeMonitor_unmountCamera model port)) ;;
         mret true
     else mret false : M bool);
  when (negb camera_unmount_called) startDownloadPhase2.

(** *** Class [JobCode]

    [get_job_code] blocks in [dialog.exec()], which runs a nested event loop:
    other handlers, and so other calls of [get_job_code], run before it
    returns. The method is therefore given in its two halves: [get_job_code]
    is the code up to and including the call of [dialog.exec()], and
    [get_job_code_dialog_closed] is the code from the point where
    [dialog.exec()] returns. Every caller in [rapid.py] calls [get_job_code]
    as its last statement. *)

Inductive DialogResult :=
| dialog_accepted (job_code : string) (remember : bool)
| dialog_rejected.

Definition set_prompting_for_job_code_flag (b : bool) : M unit :=
  modify (λ w, set_job_code (set_prompting_for_job_code b (job_code w)) w).

Definition get_job_code : M unit :=
  prompting ← gets (λ w, prompting_for_job_code (job_code w));
  if negb prompting then
    set_prompting_for_job_code_flag true ;;
    codes ← gets (λ w, job_codes (prefs w));
    modify (λ w, set_job_code_dialogs (S (job_code_dialogs w)) w) ;;
    send (jobCodeDialog_exec codes)
  else pass.

(** [while job_code in job_codes: job_codes.remove(job_code)]. *)
Definition remove_all (job_code : string) (codes : list string) : list string :=
  List.filter (λ c, negb (bool_decide (c = job_code))) codes.

Definition get_job_code_dialog_closed (result : DialogResult) : M unit :=
  modify (λ w, set_job_code_dialogs (pred (job_code_dialogs w)) w) ;;
  match result with
  | dialog_accepted job_code' remember =>
      (* JobCodeDialog.accept *)
      modify (λ w, set_prefs (set_remember_job_code remember (prefs w)) w) ;;
      set_prompting_for_job_code_flag false ;;
      if bool_decide (job_code' ≠ EmptyString) then
        when remember
          (modify (λ w, set_prefs
             (set_job_codes (job_code' :: remove_all job_code' (job_codes (prefs w)))
                (prefs w)) w)) ;;
        modify (λ w, set_job_code (set_jc_job_code job_code' (job_code w)) w) ;;
        startDownload None
      else pass
  | dialog_rejected =>
      set_prompting_for_job_code_flag false
  end.

Definition need_to_prompt_on_auto_start (w : RapidWindow) : bool :=
  bool_decide (jc_job_code (job_code w) = EmptyString)
  && need_job_code_for_naming (job_code w).

Definition need_to_prompt (w : RapidWindow) : bool :=
  need_job_code_for_naming (job_code w) && negb (prompting_for_job_code (job_code w)).

Definition pauseDownload : M unit :=
  send copyfilesmq_pause ;;
  is_download ← gets download_action_is_download;
  when (negb is_download) (setDownloadActionLabel true).

Definition downloadButtonClicked : M unit :=
  is_download ← gets download_action_is_download;
  if is_download : bool then
    prompt ← gets need_to_prompt;
    if prompt : bool then get_job_code else startDownload None
  else pauseDownload.

(** *** Copy, rename and backup results *)

Definition tempDirsReceivedFromCopyFiles (scan_id : nat)
    (photo_temp_dir video_temp_dir : option string) : M unit :=
  let truthy (d : option string) :=
    match d with
    | Some s => if bool_decide (s = EmptyString) then [] else [s]
    | None => []
    end in
  modify (λ w, set_temp_dirs_by_scan_id
                 (<[scan_id := (truthy photo_temp_dir ++ truthy video_temp_dir)%list]>
                    (temp_dirs_by_scan_id w)) w).

Definition cleanTempDirsForScanId (scan_id : nat) (remove_entry : bool) : M unit :=
  dirs ← gets temp_dirs_by_scan_id;
  ds ← getitem (dirs !! scan_id);
  for_each ds (λ d,
    assert (bool_decide (d ≠ home_dir env)) ;;
    when (os_path_isdir env d) (send (shutil_rmtree d))) ;;
  when remove_entry
    (modify (λ w, set_temp_dirs_by_scan_id (delete scan_id (temp_dirs_by_scan_id w)) w)).

Definition copyfilesDownloaded (download_succeeded : bool) (rpd_file : RPDFile)
    (download_count : nat) : M unit :=
  modify (λ w, set_download_tracker
    (tracker.set_download_count (scan_id rpd_file) download_count
       (tracker.set_download_count_for_file (unique_id rpd_file) download_count
          (download_tracker w))) w) ;;
  send (renamemq_send (rename_data rpd_file download_count download_succeeded)).

(** The bytes-transferred message of the copy worker ([CopyFilesResults]).
    [time_check.increment] feeds the rate sampler, whose answers are inputs
    of [updateTimeRemaining]. *)
Definition copyfilesBytesDownloaded (scan_id : nat)
    (total_downloaded chunk_downloaded : Z) : M unit :=
  assert (bool_decide (0 ≤ total_downloaded)%Z) ;;
  assert (bool_decide (0 ≤ chunk_downloaded)%Z) ;;
  modify (λ w, set_download_tracker
    (tracker.set_total_bytes_copied scan_id total_downloaded (download_tracker w)) w) ;;
  modify (λ w, set_time_remaining
    (TimeRemaining.update scan_id chunk_downloaded (time_remaining w)) w).

Definition copyfilesFinished : M unit := pass.

Definition fileRenamedAndMovedFinished : M unit := pass.

(** [int(x)] of a number: truncation towards zero. *)
Definition int_of (q : Qc) : Z := Z.quot (Qnum q) (Zpos (Qden q)).

(** [update] and the rate are the answers of [time_check.check_for_update()]
    and of the rate sampling behind [time_remaining.time_remaining()]. The
    test [if time_remaining:] is Python truthiness: zero does not pass. *)
Definition updateTimeRemaining (update : bool) (rate : Qc) : M unit :=
  when update (
    remaining ← gets (λ w, TimeRemaining.time_remaining rate (time_remaining w));
    when (negb (bool_decide (remaining = 0%Qc))) (
      let secs := int_of remaining in
      let message :=
        if bool_decide (secs = 0)%Z then msg_empty
        else if bool_decide (secs = 1)%Z then msg_one_second
        else if bool_decide (secs < 60)%Z then msg_seconds secs
        else if bool_decide (secs = 60)%Z then msg_one_minute
        else msg_minutes (secs / 60) (secs `mod` 60) in
      modify (set_status_bar (Some message)))).

(** The pair [(completed, files_remaining)]. *)
Definition updateFileDownloadDeviceProgress (scan_id : nat) (unique_id : string)
    (w : RapidWindow) : bool * nat :=
  let files_downloaded := tracker.get_download_count_for_file unique_id (download_tracker w) in
  let files_to_download := tracker.get_no_files_in_download scan_id (download_tracker w) in
  let completed := bool_decide (files_downloaded = files_to_download) in
  let completed :=
    if backup_files (prefs w) && completed
    then tracker.all_files_backed_up (Some scan_id) (download_tracker w)
    else completed in
  let files_remaining := if completed then getNoFilesRemaining env scan_id else 0 in
  (completed, files_remaining).

Definition notifyDownloadedFromDevice (scan_id : nat) : M unit :=
  ds ← gets devices;
  getitem (ds !! scan_id) ;;
  send (notification_device scan_id).

Definition notifyDownloadComplete : M unit :=
  summary ← gets display_summary_notification;
  when summary (
    send notification_summary ;;
    modify (set_display_summary_notification false)).

Definition unmountVolume (scan_id : nat) : M unit :=
  ds ← gets devices;
  getitem (ds !! scan_id) ;;
  pass.

(** [set.remove]: the element must be there. *)
Definition active_downloads_remove (scan_id : nat) : M unit :=
  active ← gets active_downloads_by_scan_id;
  if bool_decide (scan_id ∈ active) then
    modify (set_active_downloads_by_scan_id (active ∖ {[scan_id]}))
  else raise KeyError.

(** [update] and [rate] are handed on to [updateTimeRemaining]. *)
Definition fileDownloadFinished (update : bool) (rate : Qc)
    (succeeded : bool) (rpd_file : RPDFile) : M unit :=
  let scan_id := scan_id rpd_file in
  let unique_id := unique_id rpd_file in
  bd ← gets backup_devices;
  p ← gets prefs;
  (if negb succeeded && negb (multiple_backup_devices (file_type rpd_file) bd) then
     logError ErrorType.serious_error "error_title" "error_msg"
   else
     when (move p)
       (modify (λ w, set_download_tracker
                       (tracker.add_to_auto_delete rpd_file (download_tracker w)) w))) ;;
  (* thumbnailModel.updateStatusPostDownload *)
  modify (λ w, set_rpd_files (<[unique_id := rpd_file]> (rpd_files w)) w) ;;
  send (thumbnailModel_updateStatusPostDownload rpd_file) ;;
  modify (λ w, set_download_tracker
    (tracker.file_downloaded_increment scan_id (file_type rpd_file) (status rpd_file)
       (download_tracker w)) w) ;;
  progress ← gets (updateFileDownloadDeviceProgress scan_id unique_id);
  let '(completed, files_remaining) := progress : bool * nat in
  running ← gets downloadIsRunning;
  when running (updateTimeRemaining update rate) ;;
  when completed (
    setDeviceState scan_id DeviceState.scanned ;;
    cleanTempDirsForScanId scan_id true ;;
    when (move p)
      (modify (λ w, set_download_tracker
                      (tracker.clear_auto_delete scan_id (download_tracker w)) w)) ;;
    active_downloads_remove scan_id ;;
    modify (λ w, set_time_remaining (delete scan_id (time_remaining w)) w) ;;
    notifyDownloadedFromDevice scan_id ;;
    when (bool_decide (files_remaining = 0) && auto_unmount p) (unmountVolume scan_id) ;;
    running ← gets downloadIsRunning;
    when (negb running) (
      enablePrefsAndRefresh true ;;
      notifyDownloadComplete ;;
      send (renamemq_send (rename_message RenameAndMoveStatus.download_completed)) ;;
      no_errors ← gets (λ w, tracker.no_errors_or_warnings (download_tracker w));
      when ((auto_exit p && no_errors || auto_exit_force p)
            && negb (filesRemainToDownload env))
        (send app_quit) ;;
      modify (λ w, set_download_tracker (tracker.purge_all (download_tracker w)) w) ;;
      displayMessageInStatusBar ;;
      setDownloadActionLabel true ;;
      setDownloadActionSensitivity ;;
      modify (λ w, set_job_code (set_jc_job_code EmptyString (job_code w)) w) ;;
      modify (set_download_start_time None))).

(** The flag [do_backup] that [backupFile] computes for one destination. *)
Definition do_backup_to (backup_type : BackupLocationType.t) (ft : FileType.t) : bool :=
  bool_decide (backup_type = BackupLocationType.photos_and_videos)
  || (bool_decide (ft = FileType.photo)
      && bool_decide (backup_type = BackupLocationType.photos))
  || (bool_decide (ft = FileType.video)
      && bool_decide (backup_type = BackupLocationType.videos)).

Definition backupFile (rpd_file : RPDFile) (move_succeeded : bool) (download_count : nat)
  : M unit :=
  p ← gets prefs;
  let path_suffix :=
    if backup_device_autodetection p then
      if bool_decide (file_type rpd_file = FileType.photo)
      then Some (photo_backup_identifier p)
      else Some (video_backup_identifier p)
    else None in
  bd ← gets backup_devices;
  for_each (map_to_list bd) (λ '(path, device),
    let do_backup := do_backup_to (backup_type device) (file_type rpd_file) in
    send (backupmq_backup_file path
            {| bfd_rpd_file := rpd_file; bfd_move_succeeded := move_succeeded;
               bfd_do_backup := do_backup; bfd_path_suffix := path_suffix;
               bfd_backup_duplicate_overwrite := backup_duplicate_overwrite p;
               bfd_verify_file := verify_file p; bfd_download_count := download_count;
               bfd_save_fdo_thumbnails := save_fdo_thumbnails p |})).

Definition fileRenamedAndMoved (update : bool) (rate : Qc) (move_succeeded : bool)
    (rpd_file : RPDFile) (download_count : nat) (thumbnail_isNull : bool) : M unit :=
  when (negb thumbnail_isNull) (send (thumbnailModel_thumbnailReceived rpd_file)) ;;
  when (bool_decide (status rpd_file = DownloadStatus.downloaded_with_warning))
    (logError ErrorType.warning "error_title" "error_msg") ;;
  p ← gets prefs;
  bd ← gets backup_devices;
  if backup_files p then
    if backup_possible (file_type rpd_file) bd then
      backupFile rpd_file move_succeeded download_count
    else fileDownloadFinished update rate move_succeeded rpd_file
  else fileDownloadFinished update rate move_succeeded rpd_file.


Definition backupFileBytesBackedUp (scan_id : nat) (chunk_downloaded : Z) : M unit :=
  modify (λ w, set_download_tracker
    (tracker.increment_bytes_backed_up scan_id chunk_downloaded (download_tracker w)) w) ;;
  modify (λ w, set_time_remaining
    (TimeRemaining.update scan_id chunk_downloaded (time_remaining w)) w).

(** *** The backup destination resolver *)

Definition manualBackupPathAvailable (path : string) : bool := os_access_W_OK env path.

Definition isBackupPath (path : string) (p : Preferences) : option BackupLocationType.t :=
  if backup_files p then
    if backup_device_autodetection p then
      let photo_path := os_path_join path (photo_backup_identifier p) in
      let p_backup := os_path_isdir env photo_path && os_access_W_OK env photo_path in
      let video_path := os_path_join path (video_backup_identifier p) in
      let v_backup := os_path_isdir env video_path && os_access_W_OK env video_path in
      if p_backup && v_backup then Some BackupLocationType.photos_and_videos
      else if p_backup then Some BackupLocationType.photos
      else if v_backup then Some BackupLocationType.videos
      else None
    else if bool_decide (path = backup_photo_location p) then
      if manualBackupPathAvailable path then Some BackupLocationType.photos else None
    else if bool_decide (path = backup_video_location p) then
      if manualBackupPathAvailable path then Some BackupLocationType.videos else None
    else None
  else None.

Definition setupManualBackup : M unit :=
  p ← gets prefs;
  let backup_photo_location := backup_photo_location p in
  let backup_video_location := backup_video_location p in
  if bool_decide (backup_photo_location ≠ backup_video_location) then
    let backup_photo_device :=
      {| has_mount := false; backup_type := BackupLocationType.photos |} in
    let backup_video_device :=
      {| has_mount := false; backup_type := BackupLocationType.videos |} in
    modify (λ w, set_backup_devices
                   (<[backup_photo_location := backup_photo_device]> (backup_devices w)) w) ;;
    modify (λ w, set_backup_devices
                   (<[backup_video_location := backup_video_device]> (backup_devices w)) w)
  else
    let backup_device :=
      {| has_mount := false; backup_type := BackupLocationType.photos_and_videos |} in
    modify (λ w, set_backup_devices
                   (<[backup_photo_location := backup_device]> (backup_devices w)) w).

Definition addDeviceToBackupManager (path : string) : M unit :=
  send (backupmq_add_device path).

(** [download_tracker.set_no_backup_devices] with the collection's two
    current counts. *)
Definition sync_no_backup_devices : M unit :=
  modify (λ w, set_download_tracker
    (tracker.set_no_backup_devices
       (no_backup_devices_for FileType.photo (backup_devices w))
       (no_backup_devices_for FileType.video (backup_devices w))
       (download_tracker w)) w).

Definition scanEvenIfNoDCIM (p : Preferences) : bool :=
  device_autodetection p && device_without_dcim_autodetection p.

Definition partitionValid (path : string) (p : Preferences) : bool :=
  if mount_isValid_and_isReady env path then
    if bool_decide (path ∈ path_blacklist p) && scanEvenIfNoDCIM p then false else true
  else false.

Definition shouldScanMountPath (path : string) (p : Preferences) : bool :=
  if device_autodetection p then
    if device_without_dcim_autodetection p || has_non_empty_dcim_folder env path
    then true else false
  else false.

Definition monitorPartitionChanges (p : Preferences) : bool :=
  device_autodetection p || backup_device_autodetection p.

Definition setupBackupDevices : M unit :=
  p ← gets prefs;
  (if backup_device_autodetection p then
     for_each (mountedValidMountPoints env) (λ path,
       when (partitionValid path p)
         match isBackupPath path p with
         | Some backup_type =>
             modify (λ w, set_backup_devices
               (<[path := {| has_mount := true; backup_type := backup_type |}]>
                  (backup_devices w)) w) ;;
             addDeviceToBackupManager path
         | None => pass
         end)
   else
     setupManualBackup ;;
     bd ← gets backup_devices;
     for_each (map_to_list bd).*1 addDeviceToBackupManager) ;;
  sync_no_backup_devices.

(** The part of [RapidWindow.__init__] that sets up the backup
    destinations. *)
Definition init_backup_devices : M unit :=
  p ← gets prefs;
  if backup_files p then setupBackupDevices
  else
    modify (λ w, set_download_tracker
                   (tracker.set_no_backup_devices 0 0 (download_tracker w)) w).

(** *** The device registry *)

Definition generateTemporalProximityTableData : M unit := send offloadmq_assign_work.

(** Modelled from the spec: [DeviceCollection.add_device] is not among the
    sources; it registers the device under a fresh identifier (spec 3:
    "opaque identifier, assigned at registration"). *)
Definition add_device (device : Device) : M nat :=
  scan_id ← gets scan_id_counter;
  modify (λ w, set_scan_id_counter (S scan_id) (set_devices (<[scan_id := device]> (devices w)) w)) ;;
  mret scan_id.

Definition addToDeviceDisplay (device : Device) (scan_id : nat) : M unit :=
  mapModel scan_id ;;
  modify (λ w, set_device_state (<[scan_id := DeviceState.scanning]> (device_state w)) w) ;;
  send (deviceModel_addDevice scan_id).

Definition startDeviceScan (device : Device) : M unit :=
  scan_id ← add_device device;
  addToDeviceDisplay device scan_id ;;
  send (scanmq_start_worker scan_id device) ;;
  setDownloadActionSensitivity.

Definition prepareNonCameraDeviceScan (device : Device) : M unit :=
  ds ← gets devices;
  p ← gets prefs;
  if negb (known_device env ds device) then
    if scanEvenIfNoDCIM p && negb (bool_decide (device_path device ∈ path_whitelist p))
    then pass
    else startDeviceScan device
  else pass.

(** Modelled from the spec: [thumbnailModel.clearAll(scan_id,
    keep_downloaded_files=True)] is not among the sources; it drops the
    device's files from the model but those already downloaded (spec 4.2: on
    removal, files keep the terminal state they reached). Its result, whether
    anything was dropped, is the answer [thumbnailModel_clearAll]. *)
Definition clearAll (scan_id' : nat) : M bool :=
  modify (λ w, set_rpd_files
    (filter (λ kv : string * RPDFile,
               scan_id kv.2 ≠ scan_id'
               ∨ status kv.2 = DownloadStatus.downloaded
               ∨ status kv.2 = DownloadStatus.downloaded_with_warning)
       (rpd_files w)) w) ;;
  send (thumbnailModel_clearAll_files scan_id') ;;
  mret (thumbnailModel_clearAll env scan_id').

Definition removeDevice (scan_id : nat) (stop_worker : bool) : M unit :=
  ds ← gets devices;
  if bool_decide (scan_id ∈ dom ds) then
    prompting ← gets prompting_for_user_action;
    when (bool_decide (scan_id ∈ prompting)) (send (messageBox_reject scan_id)) ;;
    cleared ← clearAll scan_id;
    when cleared generateTemporalProximityTableData ;;
    mapModel scan_id ;;
    modify (λ w, set_device_state (delete scan_id (device_state w)) w) ;;
    send (deviceModel_removeDevice scan_id) ;;
    when (bool_decide (scan_id ∈ scanmq_workers env)) (send (scanmq_stop_worker scan_id)) ;;
    when (bool_decide (scan_id ∈ copyfilesmq_workers env))
      (send (copyfilesmq_stop_worker scan_id)) ;;
    mapModel scan_id ;;
    modify (λ w, set_devices (delete scan_id (devices w)) w)
  else pass.

Definition partitionMounted (path : string) : M unit :=
  assert (bool_decide (path ∈ mountPaths env)) ;;
  p ← gets prefs;
  when (monitorPartitionChanges p) (
    when (partitionValid path p)
      match isBackupPath path p with
      | Some backup_file_type =>
          bd ← gets backup_devices;
          when (bool_decide (path ∉ dom bd)) (
            modify (λ w, set_backup_devices
              (<[path := {| has_mount := true; backup_type := backup_file_type |}]>
                 (backup_devices w)) w) ;;
            addDeviceToBackupManager path ;;
            sync_no_backup_devices ;;
            displayMessageInStatusBar)
      | None =>
          when (shouldScanMountPath path p) (
            modify (set_auto_start_is_on (auto_download_upon_device_insertion p)) ;;
            prepareNonCameraDeviceScan
              {| device_type := DeviceType.volume;
                 display_name := mount_displayName env path;
                 device_path := path;
                 camera_model := EmptyString; camera_port := EmptyString;
                 no_photos_scanned := 0; no_videos_scanned := 0; file_size_sum := 0 |})
      end).

(** Modelled from the spec: [DeviceCollection.scan_id_from_path] is not
    among the sources; it finds the registered device of that kind and path. *)
Definition scan_id_from_path (path : string) (kind : DeviceType.t)
    (ds : gmap nat Device) : option nat :=
  fst <$> head (List.filter
    (λ kv : nat * Device,
       bool_decide (device_type kv.2 = kind) && bool_decide (device_path kv.2 = path))
    (map_to_list ds)).

Definition partitionUmounted (path : string) : M unit :=
  if bool_decide (path = EmptyString) then pass
  else
    ds ← gets devices;
    bd ← gets backup_devices;
    match scan_id_from_path path DeviceType.volume ds with
    | Some scan_id => removeDevice scan_id true
    | None =>
        when (bool_decide (path ∈ dom bd)) (
          send (backupmq_remove_device path) ;;
          modify (λ w, set_backup_devices (delete path (backup_devices w)) w) ;;
          displayMessageInStatusBar ;;
          sync_no_backup_devices)
    end ;;
    setDownloadActionSensitivity.

(** *** Scan results *)

(** [try_again] is the answer of the message box of a scan error: the
    "Try Again" button or "Ignore This Device". *)
Definition scanMessageReceived (data : ScanResults) (try_again : bool) : M unit :=
  match sr_rpd_files data with
  | Some rpd_files' =>
      first ← match rpd_files' with
              | f :: _ => mret f
              | [] => raise IndexError
              end;
      let scan_id := scan_id first in
      ds ← gets devices;
      match ds !! scan_id with
      | None => pass
      | Some device =>
          let device :=
            set_file_size_sum (sr_file_size_sum data)
              (set_no_videos_scanned (sr_no_videos data)
                 (set_no_photos_scanned (sr_no_photos data) device)) in
          modify (λ w, set_devices (<[scan_id := device]> (devices w)) w) ;;
          mapModel scan_id ;;
          send (deviceModel_updateDeviceScan scan_id) ;;
          auto_start ← gets auto_start_is_on;
          for_each rpd_files' (λ rpd_file,
            modify (λ w, set_rpd_files (<[unique_id rpd_file := rpd_file]> (rpd_files w)) w) ;;
            send (thumbnailModel_addFile rpd_file (negb auto_start)))
      end
  | None =>
      let scan_id := sr_scan_id data in
      ds ← gets devices;
      match ds !! scan_id with
      | None => pass
      | Some device =>
          match sr_error_code data with
          | Some error_code =>
              modify (λ w, set_prompting_for_user_action
                             ({[scan_id]} ∪ prompting_for_user_action w) w) ;;
              (if try_again then send (scanmq_resume scan_id)
               else
                 send (scanmq_stop_worker scan_id) ;;
                 removeDevice scan_id false) ;;
              prompting ← gets prompting_for_user_action;
              if bool_decide (scan_id ∈ prompting) then
                modify (set_prompting_for_user_action (prompting ∖ {[scan_id]}))
              else raise KeyError
          | None =>
              let device := set_display_name (sr_optimal_display_name data) device in
              modify (λ w, set_devices (<[scan_id := device]> (devices w)) w) ;;
              send (deviceModel_updateDeviceNameAndStorage scan_id)
          end
      end
  end.

(** Modelled from the spec: [FileTypeCounter.summarize_file_count] is not
    among the sources; the second component of its result names the file
    types the scan found. *)
Definition file_types_present (device : Device) : string :=
  match no_photos_scanned device, no_videos_scanned device with
  | 0, 0 => EmptyString
  | _, 0 => "photos"
  | 0, _ => "videos"
  | _, _ => "photos and videos"
  end.

Definition scanFinished (scan_id : nat) : M unit :=
  ds ← gets devices;
  match ds !! scan_id with
  | None => pass
  | Some device =>
      modify (λ w, set_download_tracker
        (tracker.set_file_types_present scan_id (file_types_present device)
           (download_tracker w)) w) ;;
      mapModel scan_id ;;
      send (deviceModel_updateDeviceScan scan_id) ;;
      setDownloadActionSensitivity ;;
      displayMessageInStatusBar ;;
      generateTemporalProximityTableData ;;
      auto_start ← gets auto_start_is_on;
      p ← gets prefs;
      if negb auto_start && generate_thumbnails p then
        setDeviceState scan_id DeviceState.scanned ;;
        send (thumbnailModel_generateThumbnails scan_id)
      else if auto_start : bool then
        prompt ← gets need_to_prompt_on_auto_start;
        if prompt : bool then
          setDeviceState scan_id DeviceState.scanned ;;
          get_job_code
        else startDownload (Some scan_id)
      else pass
  end.

(** *** The text of the status bar *)

(** [generateBasicStatusMessage] builds the text that
    [displayMessageInStatusBar] shows, and is called by it whenever the text
    is to be built anew (always, but for the call of [scanFinished], which
    asks to update the marked files only). It checks both download folders
    with [show_error_in_log=True]; the text itself (free space, backup
    destinations) is not modelled. [displayMessageInStatusBar] above is the
    call that shows the text, once it is built. *)
Definition generateBasicStatusMessage : M unit :=
  p ← gets prefs;
  photo_dir ← isValidDownloadDir (photo_download_folder p) true true;
  video_dir ← isValidDownloadDir (video_download_folder p) false true;
  pass.

(** *** Temporary folders, at exit *)

(** [for scan_id in self.temp_dirs_by_scan_id: ...], then the table is
    replaced by an empty one. *)
Definition cleanAllTempDirs : M unit :=
  dirs ← gets temp_dirs_by_scan_id;
  for_each (map_to_list dirs).*1 (λ scan_id, cleanTempDirsForScanId scan_id false) ;;
  modify (set_temp_dirs_by_scan_id ∅).

(** *** Volumes and cameras found at start-up or on request *)

(** [Device.set_download_from_volume(path, display_name, ...)]. *)
Definition volume_device (path : string) : Device :=
  {| device_type := DeviceType.volume;
     display_name := mount_displayName env path;
     device_path := path;
     camera_model := EmptyString; camera_port := EmptyString;
     no_photos_scanned := 0; no_videos_scanned := 0; file_size_sum := 0 |}.

(** The mounts to scan are collected first, then scanned. *)
Definition setupNonCameraDevices : M unit :=
  p ← gets prefs;
  if negb (device_autodetection p) then pass
  else
    bd ← gets backup_devices;
    let mounts :=
      List.filter
        (λ path, partitionValid path p
                 && (negb (bool_decide (path ∈ dom bd)) && shouldScanMountPath path p))
        (mountedValidMountPoints env) in
    for_each mounts (λ path, prepareNonCameraDeviceScan (volume_device path)).

(** Modelled from the spec: [Device.set_download_from_camera] is not among
    the sources; the device is a camera with that model and port (the
    attributes [startDownload] reads), named by its model until the scan
    reports its display name. *)
Definition camera_device (model port : string) : Device :=
  {| device_type := DeviceType.camera;
     display_name := model;
     device_path := EmptyString;
     camera_model := model; camera_port := port;
     no_photos_scanned := 0; no_videos_scanned := 0; file_size_sum := 0 |}.

Definition startCameraScan (model port : string) : M unit :=
  startDeviceScan (camera_device model port).

(** The answer of the volume monitor to an unmount request. The table
    [cameras_to_unmount] (port to model) of the camera search is an argument
    and the result: the table as the handler leaves it when it returns. *)
Definition cameraUnmounted (cameras_to_unmount : gmap string string) (result : bool)
    (model port : string) (download_started : bool) : M (gmap string string) :=
  if negb download_started then
    model' ← getitem (cameras_to_unmount !! port);
    assert (bool_decide (model' = model)) ;;
    (if result then startCameraScan model port else pass) ;;
    mret (delete port cameras_to_unmount)
  else
    needed ← gets camera_unmounts_needed;
    assert (bool_decide ((model, port) ∈ needed)) ;;
    (if result then
       modify (set_camera_unmounts_needed (needed ∖ {[(model, port)]})) ;;
       needed ← gets camera_unmounts_needed;
       when (bool_decide (size needed = 0)) startDownloadPhase2
     else pass) ;;
    mret cameras_to_unmount.

End RapidWindow.

(** ** The worker managers: what they forward to the window

    [process_sink_data] of a manager runs on each message of its workers and
    emits one of the manager's signals, which [RapidWindow.__init__]
    connects to the window's handlers. An attribute that is [None] is
    [None] here. *)

Inductive SinkError :=
| sink_AssertionError
| sink_TypeError.

(** [x >= 0] on an attribute that may be [None]. *)
Definition sink_nonneg (x : option Z) : SinkError + unit :=
  match x with
  | None => inl sink_TypeError
  | Some v => if bool_decide (0 ≤ v)%Z then inr tt else inl sink_AssertionError
  end.

Definition sink_assert (b : bool) : SinkError + unit :=
  if b then inr tt else inl sink_AssertionError.

Definition sink_bind {A B} (m : SinkError + A) (k : A → SinkError + B) : SinkError + B :=
  match m with inl e => inl e | inr a => k a end.

(** [CopyFilesResults], as the copy worker sends it. *)
Record CopyFilesResults := {
  cfr_scan_id : option nat;
  cfr_photo_temp_dir : option string;
  cfr_video_temp_dir : option string;
  cfr_total_downloaded : option Z;
  cfr_chunk_downloaded : option Z;
  cfr_copy_succeeded : option bool;
  cfr_rpd_file : option RPDFile;
  cfr_download_count : option nat;
}.

Module CopyFilesManager.

Inductive Signal :=
| bytesDownloaded (content : CopyFilesResults)
| message (copy_succeeded : option bool) (rpd_file : option RPDFile)
    (download_count : option nat)
| tempDirs (scan_id : option nat) (photo_temp_dir video_temp_dir : option string).

Definition process_sink_data (data : CopyFilesResults) : SinkError + Signal :=
  if bool_decide (is_Some (cfr_total_downloaded data)) then
    sink_bind (sink_assert (bool_decide (is_Some (cfr_scan_id data)))) (λ _,
    sink_bind (sink_nonneg (cfr_chunk_downloaded data)) (λ _,
    sink_bind (sink_nonneg (cfr_total_downloaded data)) (λ _,
    inr (bytesDownloaded data))))
  else if bool_decide (is_Some (cfr_copy_succeeded data)) then
    sink_bind (sink_assert (bool_decide (is_Some (cfr_rpd_file data)))) (λ _,
    sink_bind (sink_assert (bool_decide (is_Some (cfr_download_count data)))) (λ _,
    inr (message (cfr_copy_succeeded data) (cfr_rpd_file data) (cfr_download_count data))))
  else
    sink_bind (sink_assert (bool_decide (is_Some (cfr_photo_temp_dir data))
                            || bool_decide (is_Some (cfr_video_temp_dir data)))) (λ _,
    sink_bind (sink_assert (bool_decide (is_Some (cfr_scan_id data)))) (λ _,
    inr (tempDirs (cfr_scan_id data) (cfr_photo_temp_dir data) (cfr_video_temp_dir data)))).

End CopyFilesManager.

(** The slot a signal of the copy manager is connected to, called with what
    the signal carries ([copyfilesBytesDownloaded] reads the scan id and the
    two byte counts out of the content). A signal that carries [None] where
    the slot is declared with [int], [bool] or [RPDFile] is not delivered. *)
Definition copyfiles_slot (s : CopyFilesManager.Signal) : option (M unit) :=
  match s with
  | CopyFilesManager.bytesDownloaded content =>
      match cfr_scan_id content, cfr_total_downloaded content, cfr_chunk_downloaded content with
      | Some scan_id, Some total, Some chunk =>
          Some (copyfilesBytesDownloaded scan_id total chunk)
      | _, _, _ => None
      end
  | CopyFilesManager.message (Some copy_succeeded) (Some rpd_file) (Some download_count) =>
      Some (copyfilesDownloaded copy_succeeded rpd_file download_count)
  | CopyFilesManager.message _ _ _ => None
  | CopyFilesManager.tempDirs (Some scan_id) photo_temp_dir video_temp_dir =>
      Some (tempDirsReceivedFromCopyFiles scan_id photo_temp_dir video_temp_dir)
  | CopyFilesManager.tempDirs None _ _ => None
  end.

(** * Runs, readings of the specification, and example data *)

(** ** Sequences of handler calls

    Handlers are slots called one at a time by the event loop; an exception
    in one of them ends that handler and the loop goes on with the window as
    it is. *)
Definition run_handlers (hs : list (M unit)) (w : RapidWindow) : RapidWindow :=
  foldl (λ w h, (h w).2) w hs.

(** [preserves proj m]: whatever [m] does, and however it ends, the part
    [proj] of the window is afterwards what it was. *)
Definition preserves {A B} (proj : RapidWindow → B) (m : M A) : Prop :=
  ∀ w, proj (m w).2 = proj w.

(** The calls a handler made: what it added to [sent]. *)
Definition newly_sent (before after : RapidWindow) : list Sent :=
  drop (length (sent before)) (sent after).

(** The device identifier a scan message carries: that of its first file
    for a message with files, the field [scan_id] otherwise. *)
Definition message_scan_id (data : ScanResults) : option nat :=
  match sr_rpd_files data with
  | Some (f :: _) => Some (scan_id f)
  | Some [] => None
  | None => Some (sr_scan_id data)
  end.

(** ** The claim on backup capabilities, in the specification's words

    With autodetection, the capability follows the writable marker folders;
    without, it follows the literal equality of the path with the configured
    photo and video destinations. *)
Definition spec_capability (env : Env) (path : string) (p : Preferences)
  : option BackupLocationType.t :=
  if backup_device_autodetection p then
    let marker (identifier : string) :=
      os_path_isdir env (os_path_join path identifier)
      && os_access_W_OK env (os_path_join path identifier) in
    match marker (photo_backup_identifier p), marker (video_backup_identifier p) with
    | true, true => Some BackupLocationType.photos_and_videos
    | true, false => Some BackupLocationType.photos
    | false, true => Some BackupLocationType.videos
    | false, false => None
    end
  else
    match bool_decide (path = backup_photo_location p),
          bool_decide (path = backup_video_location p) with
    | true, true => Some BackupLocationType.photos_and_videos
    | true, false => Some BackupLocationType.photos
    | false, true => Some BackupLocationType.videos
    | false, false => None
    end.

(** ** Example data *)

Definition example_prefs : Preferences :=
  {| backup_files := true;
     backup_device_autodetection := true;
     photo_backup_identifier := "Pictures";
     video_backup_identifier := "Videos";
     backup_photo_location := "/backup/photos";
     backup_video_location := "/backup/videos";
     photo_download_folder := "/home/user/Pictures";
     video_download_folder := "/home/user/Videos";
     device_autodetection := true;
     device_without_dcim_autodetection := false;
     auto_download_upon_device_insertion := false;
     generate_thumbnails := true;
     verify_file := false;
     backup_duplicate_overwrite := false;
     save_fdo_thumbnails := false;
     move := false;
     auto_unmount := false;
     auto_exit := false;
     auto_exit_force := false;
     job_codes := [];
     remember_job_code := false;
     path_blacklist := [];
     path_whitelist := [];
     ignored_paths := [] |}.

(** The same preferences with backups off, and with manual backup paths. *)
Definition prefs_no_backup : Preferences :=
  Build_Preferences false true "Pictures" "Videos" "/backup/photos" "/backup/videos"
    "/home/user/Pictures" "/home/user/Videos" true false false true false false false
    false false false false [] false [] [] [].

Definition prefs_manual_backup : Preferences :=
  Build_Preferences true false "Pictures" "Videos" "/backup/photos" "/backup/videos"
    "/home/user/Pictures" "/home/user/Videos" true false false true false false false
    false false false false [] false [] [] [].

(** What the collaborators answer: a file system with the directories
    [dirs], of which [writable] can be written to, and [marked] the files
    marked for download. *)
Definition example_env_on (dirs writable : list string) (marked : DownloadFiles) : Env :=
  {| os_path_isdir := λ p, bool_decide (p ∈ dirs);
     os_access_W_OK := λ p, bool_decide (p ∈ writable);
     mountPaths := ["/media/drive"; "/media/card"];
     mountedValidMountPoints := ["/media/drive"; "/media/card"];
     mount_isValid_and_isReady := λ _, true;
     mount_displayName := λ p, p;
     has_non_empty_dcim_folder := λ p, bool_decide (p = "/media/card");
     gvfsControlsMounts := false;
     cameraMountPoint := λ _ _, None;
     known_device := λ _ _, false;
     scanmq_workers := ∅;
     copyfilesmq_workers := ∅;
     getFilesMarkedForDownload := λ _ _, marked;
     terminateThumbnailGeneration := λ _, false;
     markThumbnailsNeeded := λ _, false;
     thumbnailModel_clearAll := λ _, false;
     getNoFilesRemaining := λ _, 0;
     filesRemainToDownload := false;
     datetime_now := 0;
     home_dir := "/home/user" |}.

(** The two download folders and a backup drive [/media/drive] that has
    both marker folders; everything that exists is writable but
    [/backup/photos]. *)
Definition example_env_with (marked : DownloadFiles) : Env :=
  example_env_on
    ["/home/user/Pictures"; "/home/user/Videos"; "/media/drive"; "/media/drive/Pictures";
     "/media/drive/Videos"; "/backup/photos"; "/backup/videos"]
    ["/home/user/Pictures"; "/home/user/Videos"; "/media/drive"; "/media/drive/Pictures";
     "/media/drive/Videos"; "/backup/videos"]
    marked.

(** Nothing is marked for download. *)
Definition example_env : Env :=
  example_env_with (Build_DownloadFiles ∅ (Build_DownloadTypes false false) ∅ ∅).

Definition example_job_code : JobCode :=
  {| jc_job_code := EmptyString; need_job_code_for_naming := false;
     prompting_for_job_code := false |}.

(** The window at start-up: nothing registered, nothing sent. *)
Definition initial_window (p : Preferences) (jc : JobCode) : RapidWindow :=
  {| prefs := p; devices := ∅; scan_id_counter := 0; device_state := ∅;
     prompting_for_user_action := ∅; rpd_files := ∅; backup_devices := ∅;
     download_tracker := tracker.empty; time_remaining := ∅; temp_dirs_by_scan_id := ∅;
     active_downloads_by_scan_id := ∅; download_start_time := None;
     display_summary_notification := false; auto_start_is_on := false;
     download_action_is_download := true; job_code := jc; job_code_dialogs := 0;
     download_files := None; camera_unmounts_needed := ∅; status_bar := None;
     sent := [] |}.

Definition example_card : Device :=
  {| device_type := DeviceType.volume; display_name := "card"; device_path := "/media/card";
     camera_model := EmptyString; camera_port := EmptyString;
     no_photos_scanned := 1; no_videos_scanned := 0; file_size_sum := 100 |}.

Definition example_camera : Device :=
  {| device_type := DeviceType.camera; display_name := "camera"; device_path := EmptyString;
     camera_model := "EOS"; camera_port := "usb:001,002";
     no_photos_scanned := 0; no_videos_scanned := 0; file_size_sum := 0 |}.

Definition example_photo : RPDFile :=
  {| unique_id := "photo-1"; scan_id := 0; file_type := FileType.photo;
     status := DownloadStatus.download_pending |}.

Definition example_video : RPDFile :=
  {| unique_id := "video-1"; scan_id := 0; file_type := FileType.video;
     status := DownloadStatus.download_pending |}.

(** A window with the card registered as device 0 and being scanned. *)
Definition window_scanning : RapidWindow :=
  set_device_state {[0 := DeviceState.scanning]}
    (set_scan_id_counter 1
       (set_devices {[0 := example_card]} (initial_window example_prefs example_job_code))).

(** Scan messages of a device 7 that is not, or no longer, registered. *)
Definition stale_photo : RPDFile :=
  {| unique_id := "photo-7"; scan_id := 7; file_type := FileType.photo;
     status := DownloadStatus.not_downloaded |}.

Definition stale_scan_results : ScanResults :=
  {| sr_rpd_files := Some [stale_photo]; sr_no_photos := 1; sr_no_videos := 0;
     sr_file_size_sum := 10; sr_scan_id := 7; sr_error_code := None;
     sr_optimal_display_name := EmptyString |}.

(** ** Counting calls *)

(** The number of calls of one kind made so far. *)
Definition sent_count (kind : Sent → bool) (w : RapidWindow) : nat :=
  length (List.filter kind (sent w)).

Definition is_backupmq_add_device (s : Sent) : bool :=
  match s with backupmq_add_device _ => true | _ => false end.

Definition is_copyfilesmq_start_worker (s : Sent) : bool :=
  match s with copyfilesmq_start_worker _ _ => true | _ => false end.

(** A window in which the drive [/media/drive] is a registered backup
    destination, as [setupBackupDevices] leaves it at start-up. *)
Definition window_with_backup_drive : RapidWindow :=
  (setupBackupDevices example_env (initial_window example_prefs example_job_code)).2.

(** ** A download in progress

    The card holds one photo of 100 bytes; it is scanned as device 0, the
    photo is marked, and the download is started. *)
Definition card_photo (st : DownloadStatus.t) : RPDFile :=
  {| unique_id := "photo-1"; scan_id := 0; file_type := FileType.photo; status := st |}.

Definition card_scan_results : ScanResults :=
  {| sr_rpd_files := Some [card_photo DownloadStatus.not_downloaded];
     sr_no_photos := 1; sr_no_videos := 0; sr_file_size_sum := 100; sr_scan_id := 0;
     sr_error_code := None; sr_optimal_display_name := EmptyString |}.

Definition card_photo_marked : DownloadFiles :=
  {| files := {[0 := [card_photo DownloadStatus.not_downloaded]]};
     download_types := {| dt_photos := true; dt_videos := false |};
     download_stats := {[0 := {| no_photos := 1; no_videos := 0;
                                 photos_size_in_bytes := 100;
                                 videos_size_in_bytes := 0 |}]};
     camera_access_needed := ∅ |}.

Definition env_downloading : Env := example_env_with card_photo_marked.

(** The card is being downloaded from: its photo is pending and the copy
    worker has answered with its temporary folder. With backups enabled, the
    drive [/media/drive] is the one backup destination. *)
Definition window_downloading (p : Preferences) : RapidWindow :=
  run_handlers
    [ init_backup_devices env_downloading;
      startDeviceScan example_card;
      scanMessageReceived env_downloading card_scan_results true;
      scanFinished env_downloading 0;
      startDownload env_downloading None;
      tempDirsReceivedFromCopyFiles 0 (Some "/tmp/rpd-photos") None ]
    (initial_window p example_job_code).

(** ** Job-code prompts *)

(** The number of outstanding prompts agrees with the flag
    [prompting_for_job_code]: one prompt when it is set, none otherwise. *)
Definition job_code_invariant (w : RapidWindow) : Prop :=
  job_code_dialogs w = if prompting_for_job_code (job_code w) then 1 else 0.

(** What the window's handlers other than [get_job_code] leave alone. *)
Definition prompt_state (w : RapidWindow) : bool * nat :=
  (prompting_for_job_code (job_code w), job_code_dialogs w).

(** The runs of the event loop, as far as the job code is concerned: a
    request for a job code ([get_job_code] is called, by whichever caller),
    an outstanding dialog that closes, or any other computation that does
    not touch the prompt. *)
Inductive job_code_run (env : Env) : RapidWindow → RapidWindow → Prop :=
| run_done w :
    job_code_run env w w
| run_request w w' :
    job_code_run env (get_job_code w).2 w' → job_code_run env w w'
| run_dialog_closed w w' result :
    0 < job_code_dialogs w →
    job_code_run env (get_job_code_dialog_closed env result w).2 w' →
    job_code_run env w w'
| run_other w w' (h : M unit) :
    preserves prompt_state h →
    job_code_run env (h w).2 w' → job_code_run env w w'.

(** Auto-start is on and the naming needs a job code, which is not set:
    two devices, the card and the camera, are being scanned. *)
Definition job_code_needed : JobCode :=
  {| jc_job_code := EmptyString; need_job_code_for_naming := true;
     prompting_for_job_code := false |}.

Definition window_two_scans : RapidWindow :=
  run_handlers [startDeviceScan example_card; startDeviceScan example_camera]
    (set_auto_start_is_on true (initial_window prefs_no_backup job_code_needed)).

Definition is_jobCodeDialog_exec (s : Sent) : bool :=
  match s with jobCodeDialog_exec _ => true | _ => false end.

(** The card's scan has finished: the prompt for the job code is open. *)
Definition window_prompting : RapidWindow :=
  run_handlers [scanFinished example_env 0] window_two_scans.

(** ** Backup requests and backup results *)

(** The request [backupFile] sends to one destination for a file. *)
Definition backup_request (p : Preferences) (rpd_file : RPDFile) (move_succeeded : bool)
    (download_count : nat) (destination : string * BackupDevice) : Sent :=
  backupmq_backup_file destination.1
    {| bfd_rpd_file := rpd_file; bfd_move_succeeded := move_succeeded;
       bfd_do_backup := do_backup_to (backup_type destination.2) (file_type rpd_file);
       bfd_path_suffix :=
         if backup_device_autodetection p then
           if bool_decide (file_type rpd_file = FileType.photo)
           then Some (photo_backup_identifier p)
           else Some (video_backup_identifier p)
         else None;
       bfd_backup_duplicate_overwrite := backup_duplicate_overwrite p;
       bfd_verify_file := verify_file p; bfd_download_count := download_count;
       bfd_save_fdo_thumbnails := save_fdo_thumbnails p |}.

(** Two more destinations next to the drive: one for photos only, one for
    videos only. *)
Definition window_three_destinations : RapidWindow :=
  set_download_tracker (tracker.set_no_backup_devices 2 2 tracker.empty)
    (set_backup_devices
       (<["/media/photos-only" := {| has_mount := true;
                                     backup_type := BackupLocationType.photos |}]>
          (<["/media/videos-only" := {| has_mount := true;
                                        backup_type := BackupLocationType.videos |}]>
             (backup_devices window_with_backup_drive)))
       window_with_backup_drive).











(** ** Starting a download *)

(** The check [isValidDownloadDir] makes of a folder, and the folders
    [invalidDownloadFolders] lists for the file types to download. *)
Definition valid_download_dir (env : Env) (path : string) : bool :=
  os_path_isdir env path && os_access_W_OK env path.

Definition invalid_download_folders (env : Env) (downloading : DownloadTypes)
    (p : Preferences) : list string :=
  ((if dt_photos downloading && negb (valid_download_dir env (photo_download_folder p))
    then [photo_download_folder p] else [])
   ++ (if dt_videos downloading && negb (valid_download_dir env (video_download_folder p))
       then [video_download_folder p] else []))%list.

(** The files marked for download belong to registered devices and come
    with their statistics, as [getFilesMarkedForDownload] builds them. *)
Definition marked_files_known (df : DownloadFiles) (w : RapidWindow) : Prop :=
  ∀ scan_id, scan_id ∈ dom (files df) →
    is_Some (devices w !! scan_id) ∧ is_Some (download_stats df !! scan_id).

(** No backup drive is mounted: the download folders are all there is. *)
Definition env_no_backup_drive : Env :=
  example_env_on ["/home/user/Pictures"; "/home/user/Videos"]
    ["/home/user/Pictures"; "/home/user/Videos"] card_photo_marked.

(** The photo download folder does not exist. *)
Definition env_no_photo_folder : Env :=
  example_env_on ["/home/user/Videos"] ["/home/user/Videos"] card_photo_marked.

(** The card has been scanned and its photo is marked for download. *)
Definition window_scanned (env : Env) (p : Preferences) : RapidWindow :=
  run_handlers
    [ init_backup_devices env;
      startDeviceScan example_card;
      scanMessageReceived env card_scan_results true;
      scanFinished env 0 ]
    (initial_window p example_job_code).

(** ** Global completion *)

(** Global completion is reported by [enablePrefsAndRefresh(enabled=True)],
    the first statement of the block that also notifies, resets the tracker
    and clears the job code. *)
Definition is_completion_report (s : Sent) : bool :=
  match s with prefs_and_refresh_setEnabled true => true | _ => false end.







(** The body of [fileDownloadFinished], block by block, for the proofs:
    recording the file's result, the progress of its device, what is done
    when the device is complete, and what is done when nothing is running
    any more. [fileDownloadFinished] is these blocks in sequence. *)
Definition global_completion_block (env : Env) (p : Preferences) : M unit :=
  enablePrefsAndRefresh true ;;
  notifyDownloadComplete ;;
  send (renamemq_send (rename_message RenameAndMoveStatus.download_completed)) ;;
  no_errors ← gets (λ w, tracker.no_errors_or_warnings (download_tracker w));
  when ((auto_exit p && no_errors || auto_exit_force p)
        && negb (filesRemainToDownload env))
    (send app_quit) ;;
  modify (λ w, set_download_tracker (tracker.purge_all (download_tracker w)) w) ;;
  displayMessageInStatusBar ;;
  setDownloadActionLabel true ;;
  setDownloadActionSensitivity ;;
  modify (λ w, set_job_code (set_jc_job_code EmptyString (job_code w)) w) ;;
  modify (set_download_start_time None).

Definition device_completed_block (env : Env) (p : Preferences) (scan_id files_remaining : nat)
  : M unit :=
  setDeviceState scan_id DeviceState.scanned ;;
  cleanTempDirsForScanId env scan_id true ;;
  when (move p)
    (modify (λ w, set_download_tracker
                    (tracker.clear_auto_delete scan_id (download_tracker w)) w)) ;;
  active_downloads_remove scan_id ;;
  modify (λ w, set_time_remaining (delete scan_id (time_remaining w)) w) ;;
  notifyDownloadedFromDevice scan_id ;;
  when (bool_decide (files_remaining = 0) && auto_unmount p) (unmountVolume scan_id) ;;
  running ← gets downloadIsRunning;
  when (negb running) (global_completion_block env p).

Definition progress_block (env : Env) (update : bool) (rate : Qc) (p : Preferences)
    (rpd_file : RPDFile) : M unit :=
  progress ← gets (updateFileDownloadDeviceProgress env (scan_id rpd_file)
                     (unique_id rpd_file));
  let '(completed, files_remaining) := progress : bool * nat in
  running ← gets downloadIsRunning;
  when running (updateTimeRemaining update rate) ;;
  when completed (device_completed_block env p (scan_id rpd_file) files_remaining).

Definition record_block (succeeded : bool) (rpd_file : RPDFile) (bd : gmap string BackupDevice)
    (p : Preferences) : M unit :=
  (if negb succeeded && negb (multiple_backup_devices (file_type rpd_file) bd) then
     logError ErrorType.serious_error "error_title" "error_msg"
   else
     when (move p)
       (modify (λ w, set_download_tracker
                       (tracker.add_to_auto_delete rpd_file (download_tracker w)) w))) ;;
  modify (λ w, set_rpd_files (<[unique_id rpd_file := rpd_file]> (rpd_files w)) w) ;;
  send (thumbnailModel_updateStatusPostDownload rpd_file) ;;
  modify (λ w, set_download_tracker
    (tracker.file_downloaded_increment (scan_id rpd_file) (file_type rpd_file)
       (status rpd_file) (download_tracker w)) w).


(** ** The remaining time *)

(** The two events that drive the remaining-time display during a download:
    a copy worker reports bytes transferred ([copyfilesBytesDownloaded]), or
    the display is refreshed ([updateTimeRemaining]; [update] is the answer
    of the rate sampler). *)
Inductive TransferEvent :=
| bytes_downloaded (scan_id : nat) (total_downloaded chunk_downloaded : Z)
| time_update (update : bool).

Definition transfer_handler (rate : Qc) (e : TransferEvent) : M unit :=
  match e with
  | bytes_downloaded scan_id total chunk => copyfilesBytesDownloaded scan_id total chunk
  | time_update update => updateTimeRemaining update rate
  end.

(** A run of such events at the constant rate [rate]. *)
Definition remaining_time_run (rate : Qc) (events : list TransferEvent) (w : RapidWindow) :=
  run_handlers (transfer_handler rate <$> events) w.

(** The message [updateTimeRemaining] shows for a number of whole seconds. *)
Definition time_message (secs : Z) : TimeMessage :=
  if bool_decide (secs = 0)%Z then msg_empty
  else if bool_decide (secs = 1)%Z then msg_one_second
  else if bool_decide (secs < 60)%Z then msg_seconds secs
  else if bool_decide (secs = 60)%Z then msg_one_minute
  else msg_minutes (secs / 60) (secs `mod` 60).

(** The seconds a message of the status bar stands for. *)
Definition message_seconds (m : TimeMessage) : Z :=
  match m with
  | msg_empty => 0
  | msg_one_second => 1
  | msg_seconds secs => secs
  | msg_one_minute => 60
  | msg_minutes minutes seconds => 60 * minutes + seconds
  end.

(** The remaining-time figure of the window at rate [rate]. *)
Definition time_figure (rate : Qc) (w : RapidWindow) : Qc :=
  TimeRemaining.time_remaining rate (time_remaining w).

(** The status bar is not behind the figure: what it shows, if anything, is
    no less than the whole seconds of the current figure. It holds when
    nothing is shown and after every refresh. *)
Definition shown_in_step (rate : Qc) (w : RapidWindow) : Prop :=
  ∀ m, status_bar w = Some m → (int_of (time_figure rate w) ≤ message_seconds m)%Z.

(** What the status bar shows afterwards is no more than what it showed
    before. *)
Definition never_later (before after : RapidWindow) : Prop :=
  ∀ m m', status_bar before = Some m → status_bar after = Some m' →
    (message_seconds m' ≤ message_seconds m)%Z.

Definition stays_shown (before after : RapidWindow) : Prop :=
  is_Some (status_bar before) → is_Some (status_bar after).

Definition rate_10 : Qc := Qc_of_Z 10.

(** The card's 100 bytes are transferred in two steps at 10 bytes per
    second, the display being refreshed after each. *)
Definition window_all_transferred : RapidWindow :=
  remaining_time_run rate_10
    [bytes_downloaded 0 90 90; time_update true; bytes_downloaded 0 100 10; time_update true]
    (window_downloading prefs_no_backup).

Definition window_some_transferred : RapidWindow :=
  remaining_time_run rate_10 [bytes_downloaded 0 30 30; time_update true]
    (window_downloading prefs_no_backup).

(** ** Temporary folders

    The loop of [cleanTempDirsForScanId] over the folders of one device. *)
Definition clean_loop (env : Env) (dirs : list string) : M unit :=
  for_each dirs (λ d,
    assert (bool_decide (d ≠ home_dir env)) ;;
    when (os_path_isdir env d) (send (shutil_rmtree d))).

(** [d] is one of the temporary folders recorded for the device. *)
Definition recorded_temp_dir (w : RapidWindow) (scan_id : nat) (d : string) : Prop :=
  ∃ dirs, temp_dirs_by_scan_id w !! scan_id = Some dirs ∧ d ∈ dirs.

(** The home directory is among the recorded temporary folders. *)
Definition home_dir_recorded (env : Env) (w : RapidWindow) : Prop :=
  ∃ scan_id, recorded_temp_dir w scan_id (home_dir env).

(** The loop of [cleanAllTempDirs] over the devices of the table. *)
Definition clean_all_loop (env : Env) (ids : list nat) : M unit :=
  for_each ids (λ scan_id, cleanTempDirsForScanId env scan_id false).

(** ** Removing a device

    The calls [removeDevice] makes for a registered device, in their order. *)
Definition removeDevice_calls (env : Env) (scan_id : nat) (w : RapidWindow) : list Sent :=
  (if bool_decide (scan_id ∈ prompting_for_user_action w)
   then [messageBox_reject scan_id] else [])
  ++ [thumbnailModel_clearAll_files scan_id]
  ++ (if thumbnailModel_clearAll env scan_id then [offloadmq_assign_work] else [])
  ++ [deviceModel_removeDevice scan_id]
  ++ (if bool_decide (scan_id ∈ scanmq_workers env) then [scanmq_stop_worker scan_id] else [])
  ++ (if bool_decide (scan_id ∈ copyfilesmq_workers env)
      then [copyfilesmq_stop_worker scan_id] else []).

(** The files [clearAll] keeps. *)
Definition kept_files (scan_id' : nat) (fs : gmap string RPDFile) : gmap string RPDFile :=
  filter (λ kv : string * RPDFile,
            scan_id kv.2 ≠ scan_id'
            ∨ status kv.2 = DownloadStatus.downloaded
            ∨ status kv.2 = DownloadStatus.downloaded_with_warning) fs.

(** ** Mounted partitions

    The tracker's copy of the numbers of photo-capable and of video-capable
    backup destinations is the collection's current one. *)
Definition counts_in_sync (w : RapidWindow) : Prop :=
  ∀ ft, tracker.no_backup_devices ft (download_tracker w)
        = no_backup_devices_for ft (backup_devices w).

Definition is_scanmq_start_worker (s : Sent) : bool :=
  match s with scanmq_start_worker _ _ => true | _ => false end.

(** ** Scan messages

    The files of a scan message, added to the thumbnail model one after the
    other. *)
Definition add_files (fs : list RPDFile) (m : gmap string RPDFile) : gmap string RPDFile :=
  foldl (λ m f, <[unique_id f := f]> m) m fs.

(** ** Cameras to unmount before a download

    The loop of [startDownload] over the devices that need camera access. *)
Definition camera_unmount_loop (env : Env) (marked : DownloadFiles) : M unit :=
  for_each (map_to_list (camera_access_needed marked)) (λ '(scan_id, needed),
    when needed (
      ds ← gets devices;
      device ← getitem (ds !! scan_id);
      match cameraMountPoint env (camera_model device) (camera_port device) with
      | Some _ =>
          modify (λ w, set_camera_unmounts_needed
                         ({[(camera_model device, camera_port device)]}
                          ∪ camera_unmounts_needed w) w)
      | None => pass
      end)).

(** The unmount request for a camera, given as (model, port). *)
Definition unmount_request (camera : string * string) : Sent :=
  gvolumeMonitor_unmountCamera camera.1 camera.2.

Definition is_prefs_and_refresh_setEnabled (s : Sent) : bool :=
  match s with prefs_and_refresh_setEnabled _ => true | _ => false end.

(** What a download that has not begun leaves alone. *)
Definition download_state (w : RapidWindow)
  : gmap string RPDFile * gset nat * gmap nat TimeForDownload * DownloadTracker
    * gmap nat DeviceState.t * option Z :=
  (rpd_files w, active_downloads_by_scan_id w, time_remaining w, download_tracker w,
   device_state w, download_start_time w).

(** The camera's photo is marked for download, and the volume monitor
    controls the mounts and has the camera mounted. *)
Definition camera_photo : RPDFile :=
  {| unique_id := "camera-photo-1"; scan_id := 1; file_type := FileType.photo;
     status := DownloadStatus.not_downloaded |}.

Definition camera_photo_marked : DownloadFiles :=
  {| files := {[1 := [camera_photo]]};
     download_types := {| dt_photos := true; dt_videos := false |};
     download_stats := {[1 := {| no_photos := 1; no_videos := 0;
                                 photos_size_in_bytes := 50;
                                 videos_size_in_bytes := 0 |}]};
     camera_access_needed := {[1 := true]} |}.

Definition env_camera_mounted : Env :=
  {| os_path_isdir := λ p, bool_decide (p ∈ ["/home/user/Pictures"; "/home/user/Videos"]);
     os_access_W_OK := λ p, bool_decide (p ∈ ["/home/user/Pictures"; "/home/user/Videos"]);
     mountPaths := ["/media/card"];
     mountedValidMountPoints := ["/media/card"];
     mount_isValid_and_isReady := λ _, true;
     mount_displayName := λ p, p;
     has_non_empty_dcim_folder := λ p, bool_decide (p = "/media/card");
     gvfsControlsMounts := true;
     cameraMountPoint := λ _ _, Some "/run/user/1000/gvfs/camera";
     known_device := λ _ _, false;
     scanmq_workers := ∅;
     copyfilesmq_workers := ∅;
     getFilesMarkedForDownload := λ _ _, camera_photo_marked;
     terminateThumbnailGeneration := λ _, false;
     markThumbnailsNeeded := λ _, false;
     thumbnailModel_clearAll := λ _, false;
     getNoFilesRemaining := λ _, 0;
     filesRemainToDownload := false;
     datetime_now := 0;
     home_dir := "/home/user" |}.

(** The download of the camera's photo has been requested: it waits for the
    camera to be unmounted. *)
Definition window_waiting_for_unmount : RapidWindow :=
  window_after (startDownload env_camera_mounted None window_two_scans).

(** The scan worker reports that the card cannot be read. *)
Definition card_locked : ScanResults :=
  {| sr_rpd_files := None; sr_no_photos := 0; sr_no_videos := 0; sr_file_size_sum := 0;
     sr_scan_id := 0; sr_error_code := Some CameraErrorCode.locked;
     sr_optimal_display_name := EmptyString |}.

(** ** Volumes found at start-up

    The calls [startDeviceScan] makes. *)
Definition startDeviceScan_calls (device : Device) (w : RapidWindow) : list Sent :=
  [deviceModel_addDevice (scan_id_counter w); scanmq_start_worker (scan_id_counter w) device]
  ++ (if downloadIsRunning w then [] else [downloadAct_refresh]).

(** ** Messages of the copy workers

    A copy worker reports 90 bytes copied from device 0. *)
Definition bytes_report : CopyFilesResults :=
  {| cfr_scan_id := Some 0; cfr_photo_temp_dir := None; cfr_video_temp_dir := None;
     cfr_total_downloaded := Some 90%Z; cfr_chunk_downloaded := Some 90%Z;
     cfr_copy_succeeded := None; cfr_rpd_file := None; cfr_download_count := None |}.

(** ** The download button

    A download is running and the button shows "Pause". *)
Definition window_pause_shown : RapidWindow :=
  set_download_action_is_download false (window_downloading prefs_no_backup).

(** ** Backup destinations found at start-up

    The mount points [setupBackupDevices] registers, and the entry it makes
    for one. *)
Definition recognised (env : Env) (p : Preferences) (path : string) : bool :=
  partitionValid env path p && bool_decide (is_Some (isBackupPath env path p)).

Definition register (env : Env) (p : Preferences) (bd : gmap string BackupDevice)
    (path : string) : gmap string BackupDevice :=
  match isBackupPath env path p with
  | Some t => <[path := {| has_mount := true; backup_type := t |}]> bd
  | None => bd
  end.

(** The card is removed while it is being downloaded from. *)
Definition window_card_removed : RapidWindow :=
  window_after (removeDevice env_downloading 0 true (window_downloading prefs_no_backup)).

(** * Properties *)

(** ** Reasoning about the monad *)

Lemma bind_inr {A B} (m : M A) (k : A → M B) w a w' :
  m w = (inr a, w') → (m ≫= k) w = k a w'.
Proof. intros H. unfold mbind, M_bind. by rewrite H. Qed.

Lemma bind_inl {A B} (m : M A) (k : A → M B) w e w' :
  m w = (inl e, w') → (m ≫= k) w = (inl e, w').
Proof. intros H. unfold mbind, M_bind. by rewrite H. Qed.

(** ** Stale scan messages *)

(** C10. A scan message (files found, a scan error, or the camera's
    attributes) and a scan-finished event whose device identifier is not in
    the device registry are discarded: the handler returns and the window,
    and with it the registry, the tracker, the models and the list of calls
    made, is the one it started with. *)
Theorem stale_scan_message_discarded (env : Env) (w : RapidWindow) (data : ScanResults)
    (try_again : bool) (scan_id : nat) :
  devices w !! scan_id = None →
  (message_scan_id data = Some scan_id →
     scanMessageReceived env data try_again w = (inr tt, w))
  ∧ scanFinished env scan_id w = (inr tt, w).
Proof.
  intros Hgone. split.
  - unfold message_scan_id, scanMessageReceived.
    destruct (sr_rpd_files data) as [[|f fs]|]; intros Hid; simplify_eq.
    + erewrite bind_inr by reflexivity.
      erewrite bind_inr by reflexivity.
      by rewrite Hgone.
    + erewrite bind_inr by reflexivity.
      by rewrite Hgone.
  - unfold scanFinished.
    erewrite bind_inr by reflexivity.
    by rewrite Hgone.
Qed.

Lemma stale_scan_message_discarded_witness :
  scanMessageReceived example_env stale_scan_results false window_scanning
    = (inr tt, window_scanning)
  ∧ scanFinished example_env 7 window_scanning = (inr tt, window_scanning).
Proof.
  destruct (stale_scan_message_discarded example_env window_scanning
              stale_scan_results false 7) as [H1 H2].
  - reflexivity.
  - split; [apply H1; reflexivity | exact H2].
Defined.

(** ** Worker-finished events *)

(** C5 (as amended). When the copy worker or the rename worker reports that
    it has finished, the handler does nothing: it returns, sends no request
    to any worker, and leaves the window as it was, so a file that was
    pending stays pending and its device stays in the set of active
    downloads. *)
Theorem worker_finished_does_nothing (w : RapidWindow) :
  copyfilesFinished w = (inr tt, w) ∧ fileRenamedAndMovedFinished w = (inr tt, w).
Proof. split; reflexivity. Qed.

(** ** The capability of a backup path *)

(** C6, refuted as stated. The marker folders and the literal equality of
    paths do not decide the capability alone: with backups switched off the
    drive [/media/drive], which has both writable marker folders, resolves to
    no capability; and without autodetection the configured photo
    destination [/backup/photos], which is not writable, resolves to no
    capability either. *)
Lemma capability_not_by_markers_and_equality_alone :
  (isBackupPath example_env "/media/drive" prefs_no_backup = None
   ∧ spec_capability example_env "/media/drive" prefs_no_backup
     = Some BackupLocationType.photos_and_videos)
  ∧ (isBackupPath example_env "/backup/photos" prefs_manual_backup = None
     ∧ spec_capability example_env "/backup/photos" prefs_manual_backup
       = Some BackupLocationType.photos).
Proof. repeat split; vm_compute; reflexivity. Qed.

(** C6 (as amended). With backups enabled: when autodetection is on, the
    capability of a path is photos-and-videos exactly when both marker
    folders are writable directories, photos or videos when exactly that one
    is, and none when neither is; when autodetection is off, it is photos
    exactly when the path equals the configured photo destination and is
    writable, videos exactly when it differs from the photo destination,
    equals the video destination and is writable, and never
    photos-and-videos. With backups disabled no path has a capability.
    [setupManualBackup] registers the photo destination as photos and the
    video destination as videos when the two differ, and the one destination
    as photos-and-videos when they are equal. *)
Theorem backup_path_capability (env : Env) (path : string) (p : Preferences) :
  let marker identifier :=
    os_path_isdir env (os_path_join path identifier)
    && os_access_W_OK env (os_path_join path identifier) in
  let photo_marker := marker (photo_backup_identifier p) in
  let video_marker := marker (video_backup_identifier p) in
  (backup_files p = true → backup_device_autodetection p = true →
     (isBackupPath env path p = Some BackupLocationType.photos_and_videos
        ↔ photo_marker = true ∧ video_marker = true)
     ∧ (isBackupPath env path p = Some BackupLocationType.photos
        ↔ photo_marker = true ∧ video_marker = false)
     ∧ (isBackupPath env path p = Some BackupLocationType.videos
        ↔ photo_marker = false ∧ video_marker = true)
     ∧ (isBackupPath env path p = None ↔ photo_marker = false ∧ video_marker = false))
  ∧ (backup_files p = true → backup_device_autodetection p = false →
     (isBackupPath env path p = Some BackupLocationType.photos
        ↔ path = backup_photo_location p ∧ os_access_W_OK env path = true)
     ∧ (isBackupPath env path p = Some BackupLocationType.videos
        ↔ path ≠ backup_photo_location p ∧ path = backup_video_location p
          ∧ os_access_W_OK env path = true)
     ∧ isBackupPath env path p ≠ Some BackupLocationType.photos_and_videos)
  ∧ (backup_files p = false → isBackupPath env path p = None)
  ∧ (∀ w, prefs w = p →
       let registered := backup_devices (setupManualBackup w).2 in
       if bool_decide (backup_photo_location p = backup_video_location p) then
         backup_type <$> registered !! backup_photo_location p
           = Some BackupLocationType.photos_and_videos
       else
         backup_type <$> registered !! backup_photo_location p
           = Some BackupLocationType.photos
         ∧ backup_type <$> registered !! backup_video_location p
           = Some BackupLocationType.videos).
Proof.
  intros marker photo_marker video_marker.
  split; [|split; [|split]].
  - intros Hb Ha. unfold isBackupPath. rewrite Hb, Ha.
    subst photo_marker video_marker marker. cbv beta zeta.
    destruct (os_path_isdir env (os_path_join path (photo_backup_identifier p))
              && os_access_W_OK env (os_path_join path (photo_backup_identifier p)));
      destruct (os_path_isdir env (os_path_join path (video_backup_identifier p))
                && os_access_W_OK env (os_path_join path (video_backup_identifier p)));
      simpl; naive_solver.
  - intros Hb Ha. unfold isBackupPath, manualBackupPathAvailable. rewrite Hb, Ha.
    repeat case_bool_decide; destruct (os_access_W_OK env path); naive_solver.
  - intros Hb. unfold isBackupPath. by rewrite Hb.
  - intros w <-. unfold setupManualBackup.
    erewrite bind_inr by reflexivity.
    repeat case_bool_decide; try congruence; simpl.
    + by rewrite lookup_insert_eq.
    + split.
      * rewrite lookup_insert_ne by congruence. by rewrite lookup_insert_eq.
      * by rewrite lookup_insert_eq.
Qed.

Lemma backup_path_capability_witness :
  isBackupPath example_env "/media/drive" example_prefs
    = Some BackupLocationType.photos_and_videos.
Proof.
  destruct (backup_path_capability example_env "/media/drive" example_prefs) as [H _].
  destruct (H eq_refl eq_refl) as [[_ H1] _].
  apply H1. split; vm_compute; reflexivity.
Defined.

(** ** Frame reasoning: what a computation leaves alone *)

Section preserves.
Context {B : Type} (proj : RapidWindow → B).

Lemma preserves_ret {A} (a : A) : preserves proj (mret a).
Proof. by intros w. Qed.

Lemma preserves_pass : preserves proj pass.
Proof. by intros w. Qed.

Lemma preserves_raise {A} e : preserves proj (raise e : M A).
Proof. by intros w. Qed.

Lemma preserves_gets {A} (f : RapidWindow → A) : preserves proj (gets f).
Proof. by intros w. Qed.

Lemma preserves_getitem {A} (o : option A) : preserves proj (getitem o).
Proof. by destruct o; intros w. Qed.

Lemma preserves_assert b : preserves proj (assert b).
Proof. by destruct b; intros w. Qed.

Lemma preserves_modify f : (∀ w, proj (f w) = proj w) → preserves proj (modify f).
Proof. intros H w. apply H. Qed.

Lemma preserves_bind {A C} (m : M A) (k : A → M C) :
  preserves proj m → (∀ a, preserves proj (k a)) → preserves proj (m ≫= k).
Proof.
  intros Hm Hk w. unfold mbind, M_bind.
  specialize (Hm w). destruct (m w) as [[e|a] w']; simpl in *; [done|].
  by rewrite Hk.
Qed.

Lemma preserves_when b m : preserves proj m → preserves proj (when b m).
Proof. destruct b; [done|]. intros _. apply preserves_pass. Qed.

Lemma preserves_for_each {A} (l : list A) body :
  (∀ x, preserves proj (body x)) → preserves proj (for_each l body).
Proof.
  intros H. induction l as [|x l IH]; simpl.
  - apply preserves_pass.
  - apply preserves_bind; [apply H | intros _; apply IH].
Qed.

End preserves.

(** A call of a kind that [kind] does not count leaves the counted calls. *)
Lemma preserves_send_other (kind : Sent → bool) (s : Sent) :
  kind s = false → preserves (λ w, List.filter kind (sent w)) (send s).
Proof.
  intros H w. unfold send, modify. simpl.
  rewrite List.filter_app. simpl. rewrite H. apply app_nil_r.
Qed.

(** A call leaves every part of the window but [sent]. *)
Lemma preserves_send {B} (proj : RapidWindow → B) (s : Sent) :
  (∀ l w, proj (set_sent l w) = proj w) → preserves proj (send s).
Proof. intros H w. unfold send, modify. simpl. apply H. Qed.

(** One step of a frame proof: split the computation at hand. *)
Ltac frame_step :=
  first
    [ apply preserves_bind; [|intros ?]
    | apply preserves_ret | apply preserves_pass | apply preserves_raise
    | apply preserves_gets | apply preserves_getitem | apply preserves_assert
    | apply preserves_when
    | apply preserves_for_each; intros ?
    | apply preserves_modify; intros ?; reflexivity
    | apply preserves_send; intros ? ?; reflexivity
    | apply preserves_send_other; reflexivity
    | match goal with
      | |- preserves _ (match ?x with _ => _ end) => destruct x
      | |- preserves _ (let '(_, _) := ?x in _) => destruct x
      end ].

Ltac frame := repeat frame_step.

(** ** Idempotence of the registry operations *)

Lemma setDownloadActionSensitivity_preserves {B} (proj : RapidWindow → B) :
  (∀ l w, proj (set_sent l w) = proj w) → preserves proj setDownloadActionSensitivity.
Proof. intros H. unfold setDownloadActionSensitivity. frame. by apply preserves_send. Qed.

(** Starting the scan of a new device touches neither the backup
    destinations nor the tracker. *)
Lemma prepareNonCameraDeviceScan_preserves {B} (proj : RapidWindow → B) env device :
  (∀ l w, proj (set_sent l w) = proj w) →
  (∀ v w, proj (set_devices v w) = proj w) →
  (∀ v w, proj (set_scan_id_counter v w) = proj w) →
  (∀ v w, proj (set_device_state v w) = proj w) →
  preserves proj (prepareNonCameraDeviceScan env device).
Proof.
  intros Hs Hd Hc Hst.
  unfold prepareNonCameraDeviceScan, startDeviceScan, add_device, addToDeviceDisplay,
    mapModel.
  frame.
  all: try (by apply preserves_send).
  all: try (by apply setDownloadActionSensitivity_preserves).
  all: apply preserves_modify; intros w; cbv beta; by rewrite ?Hc, ?Hd, ?Hst.
Qed.

Lemma prepareNonCameraDeviceScan_quiet env device :
  preserves (λ w, List.filter is_backupmq_add_device (sent w))
    (prepareNonCameraDeviceScan env device).
Proof.
  unfold prepareNonCameraDeviceScan, startDeviceScan, add_device, addToDeviceDisplay,
    mapModel, setDownloadActionSensitivity.
  frame.
Qed.

(** A mount event for a registered backup destination either does nothing
    or, when the path has meanwhile lost its capability, considers the path
    as a device to download from. *)
Lemma partitionMounted_registered env path w :
  path ∈ dom (backup_devices w) →
  (partitionMounted env path w).2 = w
  ∨ ∃ device b,
      (partitionMounted env path w).2
      = (prepareNonCameraDeviceScan env device (set_auto_start_is_on b w)).2.
Proof.
  intros Hin. unfold partitionMounted.
  unfold assert. case_bool_decide; [|left; by erewrite bind_inl by reflexivity].
  erewrite bind_inr by reflexivity.
  erewrite bind_inr by reflexivity.
  destruct (monitorPartitionChanges (prefs w)); [|by left]. simpl.
  destruct (partitionValid env path (prefs w)); [|by left]. simpl.
  destruct (isBackupPath env path (prefs w)).
  - left. erewrite bind_inr by reflexivity.
    by rewrite bool_decide_eq_false_2 by auto.
  - destruct (shouldScanMountPath env path (prefs w)); [|by left]. simpl.
    right. erewrite bind_inr by reflexivity. eauto.
Qed.

(** C8. The registry operations are idempotent. Removing a device whose
    identifier is not registered does nothing: [removeDevice] returns and the
    window is unchanged. A mount event for a path that is already a
    registered backup destination leaves the collection of destinations as it
    is (no entry added, none changed), hence the counts of photo-capable and
    of video-capable destinations, leaves the tracker with its copy of these
    counts, and starts no backup worker. *)
Theorem registry_operations_idempotent (env : Env) (w : RapidWindow) :
  (∀ scan_id stop_worker,
     devices w !! scan_id = None → removeDevice env scan_id stop_worker w = (inr tt, w))
  ∧ (∀ path,
       path ∈ dom (backup_devices w) →
       let w' := (partitionMounted env path w).2 in
       backup_devices w' = backup_devices w
       ∧ (∀ ft, no_backup_devices_for ft (backup_devices w')
                = no_backup_devices_for ft (backup_devices w))
       ∧ download_tracker w' = download_tracker w
       ∧ sent_count is_backupmq_add_device w' = sent_count is_backupmq_add_device w).
Proof.
  split.
  - intros scan_id stop_worker Hgone. unfold removeDevice.
    erewrite bind_inr by reflexivity.
    by rewrite bool_decide_eq_false_2 by by apply not_elem_of_dom.
  - intros path Hin w'. subst w'.
    destruct (partitionMounted_registered env path w Hin) as [->|(device & b & ->)];
      [done|].
    assert (backup_devices
              (prepareNonCameraDeviceScan env device (set_auto_start_is_on b w)).2
            = backup_devices w) as Hbd
      by by rewrite prepareNonCameraDeviceScan_preserves.
    repeat split.
    + done.
    + intros ft. by rewrite Hbd.
    + by rewrite prepareNonCameraDeviceScan_preserves.
    + unfold sent_count. f_equal.
      apply (prepareNonCameraDeviceScan_quiet env device (set_auto_start_is_on b w)).
Qed.

Lemma registry_operations_idempotent_witness :
  removeDevice example_env 7 true window_with_backup_drive
    = (inr tt, window_with_backup_drive)
  ∧ backup_devices (partitionMounted example_env "/media/drive" window_with_backup_drive).2
    = backup_devices window_with_backup_drive.
Proof.
  destruct (registry_operations_idempotent example_env window_with_backup_drive)
    as [H1 H2].
  split.
  - apply H1. reflexivity.
  - apply H2. apply elem_of_dom. eexists. vm_compute. reflexivity.
Defined.

(** C5, refuted as stated. The card is being downloaded from and its photo
    is pending when the copy worker reports that it has finished: afterwards
    the photo is still pending, not failed, and the card is still in the set
    of active downloads. *)
Lemma worker_finished_leaves_files_pending :
  let w := window_downloading prefs_no_backup in
  let w' := (copyfilesFinished w).2 in
  rpd_files w !! "photo-1" = Some (card_photo DownloadStatus.download_pending)
  ∧ 0 ∈ active_downloads_by_scan_id w
  ∧ rpd_files w' !! "photo-1" = Some (card_photo DownloadStatus.download_pending)
  ∧ status (card_photo DownloadStatus.download_pending) ≠ DownloadStatus.download_failed
  ∧ 0 ∈ active_downloads_by_scan_id w'.
Proof.
  cbv zeta. repeat split; try (vm_compute; reflexivity); try done.
  all: apply bool_decide_unpack; vm_compute; exact I.
Qed.

(** ** Job-code prompts *)

Lemma startDownload_preserves_prompt env scan_id :
  preserves prompt_state (startDownload env scan_id).
Proof.
  unfold startDownload, startDownloadPhase2, downloadFiles, invalidDownloadFolders,
    isValidDownloadDir, log_error, logError, markDownloadPending, enablePrefsAndRefresh,
    setDownloadActionLabel, setDeviceState, mapModel.
  frame.
Qed.

Lemma get_job_code_invariant w :
  job_code_invariant w → job_code_invariant (get_job_code w).2.
Proof.
  unfold job_code_invariant, get_job_code. intros H.
  erewrite bind_inr by reflexivity.
  destruct (prompting_for_job_code (job_code w)) eqn:Hp; simpl.
  - by rewrite Hp.
  - by rewrite H.
Qed.

Lemma get_job_code_dialog_closed_invariant env result w :
  0 < job_code_dialogs w → job_code_invariant w →
  job_code_invariant (get_job_code_dialog_closed env result w).2.
Proof.
  unfold job_code_invariant. intros Hpos H.
  destruct (prompting_for_job_code (job_code w)) eqn:Hp; [|lia].
  unfold get_job_code_dialog_closed.
  erewrite bind_inr by reflexivity.
  destruct result as [code remember|]; [|by rewrite H].
  erewrite bind_inr by reflexivity.
  erewrite bind_inr by reflexivity.
  case_bool_decide; [|by rewrite H].
  assert (∀ w1, prompt_state w1 = (false, 0) →
                prompt_state (startDownload env None w1).2 = (false, 0)) as Hstart.
  { intros w1 <-. apply startDownload_preserves_prompt. }
  assert (∀ w1, prompt_state w1 = (false, 0) →
                job_code_dialogs (startDownload env None w1).2
                = if prompting_for_job_code (job_code (startDownload env None w1).2)
                  then 1 else 0) as Hgoal.
  { intros w1 Hw1. specialize (Hstart w1 Hw1). unfold prompt_state in Hstart.
    injection Hstart as Hp' Hd'. by rewrite Hp', Hd'. }
  destruct remember; simpl;
    repeat (erewrite bind_inr by reflexivity);
    apply Hgoal; unfold prompt_state; simpl; by rewrite H.
Qed.

Lemma job_code_run_invariant env w w' :
  job_code_run env w w' → job_code_invariant w → job_code_invariant w'.
Proof.
  induction 1 as [w|w w' _ IH|w w' result Hpos _ IH|w w' h Hh _ IH]; intros Hinv.
  - done.
  - by apply IH, get_job_code_invariant.
  - by apply IH, get_job_code_dialog_closed_invariant.
  - apply IH. unfold job_code_invariant in *.
    specialize (Hh w). unfold prompt_state in Hh.
    injection Hh as Hp Hd. by rewrite Hp, Hd.
Qed.

(** Unfolding of the monad's operations, for symbolic execution. *)
Ltac exec :=
  unfold mbind, M_bind, mret, M_ret, gets, modify, send, when, pass, raise, getitem;
  simpl.

(** While a prompt is outstanding, a device whose scan finishes under
    auto-start with a job code needed is set to scanned and waits. *)
Lemma scanFinished_waits env w scan_id :
  prompting_for_job_code (job_code w) = true →
  is_Some (devices w !! scan_id) →
  auto_start_is_on w = true →
  need_to_prompt_on_auto_start w = true →
  let w' := (scanFinished env scan_id w).2 in
  prompt_state w' = prompt_state w
  ∧ sent_count is_copyfilesmq_start_worker w' = sent_count is_copyfilesmq_start_worker w
  ∧ sent_count is_jobCodeDialog_exec w' = sent_count is_jobCodeDialog_exec w
  ∧ device_state w' !! scan_id = Some DeviceState.scanned.
Proof.
  intros Hp [device Hdev] Hauto Hneed.
  unfold scanFinished, setDownloadActionSensitivity, displayMessageInStatusBar,
    generateTemporalProximityTableData, setDeviceState, mapModel, get_job_code.
  unfold need_to_prompt_on_auto_start in *.
  exec. rewrite Hdev. simpl. rewrite Hdev. simpl.
  destruct (downloadIsRunning _); simpl; rewrite Hauto; simpl; rewrite Hneed; simpl;
    rewrite Hdev; simpl; rewrite Hp; simpl;
    unfold prompt_state, sent_count; simpl; rewrite Hp;
    rewrite <- ?app_assoc, !List.filter_app; simpl; rewrite ?app_nil_r;
    by rewrite lookup_insert_eq.
Qed.

(** C2. At most one job-code prompt is outstanding. (1) A request that
    arrives while the flag [prompting_for_job_code] is set is a no-op:
    [get_job_code] returns with the window unchanged, so no second prompt is
    opened. (2) Along every run of requests, dialog closings and other
    handlers, started where the outstanding prompts agree with the flag (as
    at start-up), at most one prompt is outstanding. (3) A device whose scan
    finishes under auto-start while the prompt is outstanding is set to
    scanned and waits: no copy worker is started and no prompt is opened.
    (4) When the prompt is closed with a job code, the flag is cleared, no
    prompt remains outstanding, and the download of the waiting devices is
    started by [startDownload] with that job code. *)
Theorem single_job_code_prompt (env : Env) (w : RapidWindow) :
  (prompting_for_job_code (job_code w) = true → get_job_code w = (inr tt, w))
  ∧ (job_code_invariant w →
     ∀ w', job_code_run env w w' → (job_code_dialogs w' ≤ 1)%nat ∧ job_code_invariant w')
  ∧ (∀ scan_id,
       prompting_for_job_code (job_code w) = true →
       is_Some (devices w !! scan_id) →
       auto_start_is_on w = true →
       need_to_prompt_on_auto_start w = true →
       let w' := (scanFinished env scan_id w).2 in
       prompt_state w' = prompt_state w
       ∧ sent_count is_copyfilesmq_start_worker w' = sent_count is_copyfilesmq_start_worker w
       ∧ sent_count is_jobCodeDialog_exec w' = sent_count is_jobCodeDialog_exec w
       ∧ device_state w' !! scan_id = Some DeviceState.scanned)
  ∧ (∀ code remember,
       job_code_invariant w → 0 < job_code_dialogs w → code ≠ EmptyString →
       ∃ w1,
         get_job_code_dialog_closed env (dialog_accepted code remember) w
         = startDownload env None w1
         ∧ jc_job_code (job_code w1) = code
         ∧ prompt_state w1 = (false, 0)
         ∧ sent w1 = sent w
         ∧ prompt_state (startDownload env None w1).2 = (false, 0)).
Proof.
  split; [|split; [|split]].
  - intros Hp. unfold get_job_code. erewrite bind_inr by reflexivity. by rewrite Hp.
  - intros Hinv w' Hrun.
    pose proof (job_code_run_invariant env w w' Hrun Hinv) as Hinv'.
    split; [|done]. unfold job_code_invariant in Hinv'.
    destruct (prompting_for_job_code (job_code w')); lia.
  - intros scan_id. apply scanFinished_waits.
  - intros code remember Hinv Hpos Hcode. unfold job_code_invariant in Hinv.
    destruct (prompting_for_job_code (job_code w)) eqn:Hp; [|lia].
    unfold get_job_code_dialog_closed.
    erewrite bind_inr by reflexivity.
    erewrite bind_inr by reflexivity.
    erewrite bind_inr by reflexivity.
    rewrite bool_decide_eq_true_2 by done.
    destruct remember; simpl; repeat (erewrite bind_inr by reflexivity).
    all: eexists; split; [reflexivity|].
    all: unfold prompt_state at 1; simpl; rewrite Hinv; repeat split; try done.
    all: rewrite startDownload_preserves_prompt; unfold prompt_state; simpl;
      by rewrite ?Hinv.
Qed.

Lemma single_job_code_prompt_witness :
  get_job_code window_prompting = (inr tt, window_prompting)
  ∧ (job_code_dialogs (get_job_code (get_job_code window_prompting).2).2 ≤ 1)%nat
  ∧ sent_count is_copyfilesmq_start_worker (scanFinished example_env 1 window_prompting).2
    = sent_count is_copyfilesmq_start_worker window_prompting.
Proof.
  destruct (single_job_code_prompt example_env window_prompting) as (H1 & H2 & H3 & _).
  split; [|split].
  - apply H1. vm_compute. reflexivity.
  - apply H2.
    + vm_compute. reflexivity.
    + apply run_request, run_request, run_done.
  - apply (H3 1).
    + vm_compute. reflexivity.
    + eexists. vm_compute. reflexivity.
    + vm_compute. reflexivity.
    + vm_compute. reflexivity.
Defined.

(** ** Backup requests *)

Lemma set_sent_id w : set_sent (sent w) w = w.
Proof. by destruct w. Qed.

Lemma for_each_send {A} (l : list A) (g : A → Sent) w :
  for_each l (λ x, send (g x)) w = (inr tt, set_sent (sent w ++ (g <$> l)) w).
Proof.
  revert w. induction l as [|x l IH]; intros w; simpl.
  - unfold pass, mret, M_ret. by rewrite app_nil_r, set_sent_id.
  - erewrite bind_inr by reflexivity. rewrite IH. simpl.
    by rewrite <- app_assoc.
Qed.

Lemma for_each_ext {A} (l : list A) (f g : A → M unit) :
  (∀ x, f x = g x) → for_each l f = for_each l g.
Proof. intros H. induction l as [|x l IH]; simpl; [done|]. by rewrite H, IH. Qed.

Lemma backupFile_sends w rpd_file move_succeeded download_count :
  backupFile rpd_file move_succeeded download_count w
  = (inr tt,
     set_sent (sent w ++ (backup_request (prefs w) rpd_file move_succeeded download_count
                            <$> map_to_list (backup_devices w))) w).
Proof.
  unfold backupFile.
  erewrite bind_inr by reflexivity. erewrite bind_inr by reflexivity.
  rewrite (for_each_ext _ _
             (λ x, send (backup_request (prefs w) rpd_file move_succeeded
                           download_count x)))
    by by intros [path device].
  apply for_each_send.
Qed.

Lemma do_backup_to_capable t ft : do_backup_to t ft = capable ft t.
Proof. by destruct t, ft. Qed.

Lemma newly_sent_app w l w' : sent w' = (sent w ++ l)%list → newly_sent w w' = l.
Proof. intros H. unfold newly_sent. by rewrite H, drop_app_length. Qed.

(** C9. With backup enabled and at least one destination capable of the
    file's type, the rename result of a file makes the orchestrator send one
    backup request for the file to every registered backup destination, and
    to nothing else; the request to a destination carries [do_backup] set
    exactly when the destination's capability covers the file's type, so the
    destinations that do not match receive the request with the flag False.
    (That each worker answers each request is the workers' part.) *)
Theorem backup_request_to_every_destination (env : Env) (update : bool) (rate : Qc)
    (w : RapidWindow) (rpd_file : RPDFile) (move_succeeded : bool) (download_count : nat)
    (thumbnail_isNull : bool) :
  backup_files (prefs w) = true →
  backup_possible (file_type rpd_file) (backup_devices w) = true →
  let r := fileRenamedAndMoved env update rate move_succeeded rpd_file download_count
             thumbnail_isNull w in
  let requests :=
    backup_request (prefs w) rpd_file move_succeeded download_count
      <$> map_to_list (backup_devices w) in
  returned r = true
  ∧ newly_sent w r.2
    = ((if thumbnail_isNull then [] else [thumbnailModel_thumbnailReceived rpd_file])
       ++ requests)%list
  ∧ ∀ path device,
      backup_devices w !! path = Some device →
      ∃ data,
        backupmq_backup_file path data ∈ requests
        ∧ bfd_rpd_file data = rpd_file
        ∧ bfd_do_backup data = capable (file_type rpd_file) (backup_type device).
Proof.
  intros Hbackup Hpossible r requests.
  assert (r = (inr tt,
               set_sent (sent w
                         ++ (if thumbnail_isNull then []
                             else [thumbnailModel_thumbnailReceived rpd_file])
                         ++ requests) w)) as Hr.
  { subst r requests. unfold fileRenamedAndMoved, logError.
    destruct thumbnail_isNull; simpl.
    - erewrite bind_inr by reflexivity.
      erewrite bind_inr by (by destruct (bool_decide _)).
      erewrite bind_inr by reflexivity. erewrite bind_inr by reflexivity.
      rewrite Hbackup, Hpossible. apply backupFile_sends.
    - erewrite bind_inr by reflexivity.
      erewrite bind_inr by (by destruct (bool_decide _)).
      erewrite bind_inr by reflexivity. erewrite bind_inr by reflexivity.
      simpl. rewrite Hbackup, Hpossible. rewrite backupFile_sends. simpl.
      by rewrite <- app_assoc. }
  split; [by rewrite Hr|]. split; [rewrite Hr; by apply newly_sent_app|].
  intros path device Hlookup.
  eexists. split; [|split].
  - apply list_elem_of_fmap. exists (path, device). split; [reflexivity|].
    by apply elem_of_map_to_list.
  - done.
  - apply do_backup_to_capable.
Qed.

Lemma backup_request_to_every_destination_witness :
  ∃ data,
    backupmq_backup_file "/media/photos-only" data
      ∈ newly_sent window_three_destinations
          (fileRenamedAndMoved example_env false 0%Qc true example_video 1 true
             window_three_destinations).2
    ∧ bfd_rpd_file data = example_video
    ∧ bfd_do_backup data = false.
Proof.
  destruct (backup_request_to_every_destination example_env false 0%Qc
              window_three_destinations example_video true 1 true eq_refl eq_refl)
    as (_ & -> & H).
  apply (H "/media/photos-only"
           {| has_mount := true; backup_type := BackupLocationType.photos |}).
  vm_compute. reflexivity.
Defined.

(** ** Backup results and the end of a file's download *)


















(** ** Starting a download *)

(** C4, refuted as stated. Backups are enabled with autodetection and no
    backup drive is mounted, so no destination can take the photo that is
    marked for download: [backupDestinationsMissing] reports photos as
    missing, and the download starts all the same, a copy worker being
    started for the card. *)
Lemma missing_backup_destination_does_not_block :
  let w := window_scanned env_no_backup_drive example_prefs in
  let w' := (startDownload env_no_backup_drive None w).2 in
  backupDestinationsMissing (download_types card_photo_marked) w = Some (true, false)
  ∧ sent_count is_copyfilesmq_start_worker w = 0
  ∧ sent_count is_copyfilesmq_start_worker w' = 1
  ∧ rpd_files w' !! "photo-1" = Some (card_photo DownloadStatus.download_pending)
  ∧ elements (active_downloads_by_scan_id w') = [0].
Proof. cbv zeta. repeat split; vm_compute; reflexivity. Qed.

Lemma invalidDownloadFolders_eq env downloading w :
  invalidDownloadFolders env downloading w
  = (inr (invalid_download_folders env downloading (prefs w)), w).
Proof.
  unfold invalidDownloadFolders, invalid_download_folders, isValidDownloadDir,
    valid_download_dir.
  erewrite bind_inr by reflexivity.
  destruct (dt_photos downloading), (dt_videos downloading);
    destruct (os_path_isdir env (photo_download_folder (prefs w)));
    destruct (os_access_W_OK env (photo_download_folder (prefs w)));
    destruct (os_path_isdir env (video_download_folder (prefs w)));
    destruct (os_access_W_OK env (video_download_folder (prefs w)));
    reflexivity.
Qed.

(** The copy of one device's files is started: the device joins the active
    downloads and its copy worker is started. *)
Lemma downloadFiles_starts fs scan_id stats generate w device :
  devices w !! scan_id = Some device →
  ∃ w' args,
    downloadFiles fs scan_id stats generate w = (inr tt, w')
    ∧ devices w' = devices w
    ∧ sent w' = (sent w ++ [copyfilesmq_start_worker scan_id args])%list
    ∧ active_downloads_by_scan_id w' = {[scan_id]} ∪ active_downloads_by_scan_id w.
Proof.
  intros Hdev. unfold downloadFiles, setDeviceState, mapModel.
  exec. rewrite Hdev. simpl.
  case_bool_decide; simpl; rewrite ?Hdev; simpl.
  all: eexists _, _; repeat split; eauto.
Qed.

(** The loop of [startDownloadPhase2] over the devices with marked files. *)
Lemma start_workers (stats : gmap nat DownloadStats) (body : nat * list RPDFile → M unit)
    (l : list (nat * list RPDFile)) :
  (∀ scan_id fs w device st,
     devices w !! scan_id = Some device → stats !! scan_id = Some st →
     ∃ w' args,
       body (scan_id, fs) w = (inr tt, w')
       ∧ devices w' = devices w
       ∧ sent w' = (sent w ++ [copyfilesmq_start_worker scan_id args])%list
       ∧ active_downloads_by_scan_id w' = {[scan_id]} ∪ active_downloads_by_scan_id w) →
  ∀ w,
    (∀ scan_id fs, (scan_id, fs) ∈ l →
       is_Some (devices w !! scan_id) ∧ is_Some (stats !! scan_id)) →
    ∃ w' extra,
      for_each l body w = (inr tt, w')
      ∧ devices w' = devices w
      ∧ sent w' = (sent w ++ extra)%list
      ∧ active_downloads_by_scan_id w ⊆ active_downloads_by_scan_id w'
      ∧ ∀ scan_id fs, (scan_id, fs) ∈ l →
          scan_id ∈ active_downloads_by_scan_id w'
          ∧ ∃ args, copyfilesmq_start_worker scan_id args ∈ extra.
Proof.
  intros Hbody. induction l as [|[scan_id fs] l IH]; intros w Hknown.
  - exists w, []. split; [done|]. split; [done|]. split; [by rewrite app_nil_r|].
    split; [done|]. by intros ? ? ?%not_elem_of_nil.
  - destruct (Hknown scan_id fs) as [[device Hdev] [st Hst]]; [by left|].
    destruct (Hbody scan_id fs w device st Hdev Hst)
      as (w1 & args & Hrun & Hdevs & Hsent & Hactive).
    destruct (IH w1) as (w' & extra & Hrun' & Hdevs' & Hsent' & Hsub & Hall).
    { intros i fs' Hin. rewrite Hdevs. apply (Hknown i fs'). by right. }
    exists w', (copyfilesmq_start_worker scan_id args :: extra).
    split; [|split; [|split; [|split]]].
    + simpl. erewrite bind_inr by exact Hrun. exact Hrun'.
    + congruence.
    + rewrite Hsent', Hsent. by rewrite <- app_assoc.
    + set_solver.
    + intros i fs' [Heq|Hin]%elem_of_cons.
      * simplify_eq. split; [set_solver|]. eexists. by left.
      * destruct (Hall i fs' Hin) as [? [args' ?]]. split; [done|].
        exists args'. by right.
Qed.

(** C4 (as amended). An invalid download folder (missing or not writable)
    for a file type that is being downloaded blocks the download: the window
    is left as it was, so nothing is marked pending and no copy worker is
    started. The absence of a backup destination for a file type that is
    being downloaded does not block: whatever [backupDestinationsMissing]
    finds, with valid folders the download starts, every device with marked
    files joining the active downloads with its copy worker started. *)
Theorem invalid_folder_blocks_download (env : Env) (w : RapidWindow) (df : DownloadFiles) :
  download_files w = Some df →
  (invalid_download_folders env (download_types df) (prefs w) ≠ [] →
     (startDownloadPhase2 env w).2 = w)
  ∧ (invalid_download_folders env (download_types df) (prefs w) = [] →
     marked_files_known df w →
     let r := startDownloadPhase2 env w in
     returned r = true
     ∧ ∀ scan_id, scan_id ∈ dom (files df) →
         scan_id ∈ active_downloads_by_scan_id r.2
         ∧ ∃ args, copyfilesmq_start_worker scan_id args ∈ newly_sent w r.2).
Proof.
  intros Hdf. unfold startDownloadPhase2.
  erewrite bind_inr by reflexivity. rewrite Hdf.
  erewrite bind_inr by reflexivity.
  erewrite bind_inr by apply invalidDownloadFolders_eq.
  split.
  - intros Hinvalid.
    by destruct (invalid_download_folders env (download_types df) (prefs w)).
  - intros -> Hknown.
    erewrite bind_inr by reflexivity.
    erewrite bind_inr
      by (unfold logError;
          by destruct (backupDestinationsMissing (download_types df) w)).
    erewrite bind_inr by reflexivity.
    set (w1 := if bool_decide (download_start_time w = None)
               then set_download_start_time (Some (datetime_now env)) w else w).
    erewrite (bind_inr _ _ _ tt w1) by (subst w1; by case_bool_decide).
    erewrite bind_inr by reflexivity.
    erewrite bind_inr by reflexivity.
    erewrite bind_inr by reflexivity.
    match goal with
    | |- context [(for_each ?l ?body ≫= _) ?w2] =>
        destruct (start_workers (download_stats df) body l) with (w := w2)
          as (w' & extra & Hrun & Hdevs & Hsent & Hsub & Hall)
    end.
    { intros scan_id fs w0 device st Hdev Hst. simpl.
      erewrite bind_inr by (by rewrite Hst).
      by eapply downloadFiles_starts. }
    { intros scan_id fs Hin%elem_of_map_to_list. simpl.
      assert (devices w1 = devices w) as -> by (subst w1; by case_bool_decide).
      apply Hknown. apply elem_of_dom. eauto. }
    erewrite bind_inr by exact Hrun.
    cbv zeta. simpl. split; [done|].
    intros scan_id [fs Hfs]%elem_of_dom.
    destruct (Hall scan_id fs) as [Hactive [args Hargs]];
      [by apply elem_of_map_to_list|].
    split; [done|]. exists args.
    assert (sent w1 = sent w) as Hsent1 by (subst w1; by case_bool_decide).
    simpl in Hsent. rewrite Hsent1 in Hsent.
    erewrite newly_sent_app; [|simpl; rewrite Hsent, <- !app_assoc; reflexivity].
    set_solver.
Qed.

Lemma invalid_folder_blocks_download_witness :
  (let w := set_download_files (Some card_photo_marked)
              (window_scanned env_no_photo_folder example_prefs) in
   (startDownloadPhase2 env_no_photo_folder w).2 = w)
  ∧ (let w := set_download_files (Some card_photo_marked)
                (window_scanned env_no_backup_drive example_prefs) in
     0 ∈ active_downloads_by_scan_id (startDownloadPhase2 env_no_backup_drive w).2).
Proof.
  split.
  - intros w.
    destruct (invalid_folder_blocks_download env_no_photo_folder w card_photo_marked
                eq_refl) as [H _].
    apply H. vm_compute. discriminate.
  - intros w.
    destruct (invalid_folder_blocks_download env_no_backup_drive w card_photo_marked
                eq_refl) as [_ H].
    apply H.
    + vm_compute. reflexivity.
    + intros scan_id Hin.
      assert (scan_id = 0) as ->.
      { change (files card_photo_marked)
          with ({[0 := [card_photo DownloadStatus.not_downloaded]]}
                : gmap nat (list RPDFile)) in Hin.
        rewrite dom_singleton_L in Hin. by apply elem_of_singleton in Hin. }
      split; eexists; vm_compute; reflexivity.
    + change (files card_photo_marked)
        with ({[0 := [card_photo DownloadStatus.not_downloaded]]}
              : gmap nat (list RPDFile)).
      rewrite dom_singleton_L. by apply elem_of_singleton.
Defined.

(** ** Global completion *)


Lemma set_status_bar_id w : set_status_bar (status_bar w) w = w.
Proof. by destruct w. Qed.

Lemma updateTimeRemaining_eq update rate w :
  ∃ message, updateTimeRemaining update rate w = (inr tt, set_status_bar message w).
Proof.
  unfold updateTimeRemaining. destruct update; simpl.
  - erewrite bind_inr by reflexivity.
    destruct (negb _); simpl; [by eexists|].
    exists (status_bar w). by rewrite set_status_bar_id.
  - exists (status_bar w). by rewrite set_status_bar_id.
Qed.







Lemma when_updateTimeRemaining b update rate w :
  ∃ message, when b (updateTimeRemaining update rate) w = (inr tt, set_status_bar message w).
Proof.
  destruct b; simpl; [apply updateTimeRemaining_eq|].
  exists (status_bar w). unfold pass, mret, M_ret. by rewrite set_status_bar_id.
Qed.






Lemma fileDownloadFinished_blocks env update rate succeeded rpd_file w :
  fileDownloadFinished env update rate succeeded rpd_file w
  = (record_block succeeded rpd_file (backup_devices w) (prefs w) ;;
     progress_block env update rate (prefs w) rpd_file) w.
Proof.
  unfold fileDownloadFinished, record_block, progress_block, device_completed_block,
    global_completion_block.
  unfold mbind, M_bind, gets. simpl.
  destruct (negb succeeded && _); [reflexivity|].
  destruct (move (prefs w)); reflexivity.
Qed.



Lemma record_block_ok succeeded rpd_file bd p w :
  ∃ w2,
    record_block succeeded rpd_file bd p w = (inr tt, w2)
    ∧ devices w2 = devices w
    ∧ temp_dirs_by_scan_id w2 = temp_dirs_by_scan_id w
    ∧ active_downloads_by_scan_id w2 = active_downloads_by_scan_id w
    ∧ prefs w2 = prefs w
    ∧ sent_count is_completion_report w2 = sent_count is_completion_report w
    ∧ (∀ env i u, updateFileDownloadDeviceProgress env i u w2
                  = updateFileDownloadDeviceProgress env i u w)
    ∧ tracker.all_files_backed_up None (download_tracker w2)
      = tracker.all_files_backed_up None (download_tracker w).
Proof.
  unfold record_block, logError.
  destruct (negb succeeded && _); [|destruct (move p)].
  all: eexists; split; [reflexivity|].
  all: repeat split.
  all: try (unfold sent_count; simpl; rewrite List.filter_app, length_app; simpl; lia).
  all: try (intros env i u; unfold updateFileDownloadDeviceProgress; simpl).
  all: by destruct (status rpd_file), (file_type rpd_file).
Qed.





(** ** The remaining time *)

Lemma bytes_outstanding_perm (l1 l2 : list (nat * TimeForDownload)) :
  l1 ≡ₚ l2 →
  foldr (λ (kv : nat * TimeForDownload) acc, (tfd_size kv.2 - tfd_downloaded kv.2 + acc)%Z) 0%Z l1
  = foldr (λ (kv : nat * TimeForDownload) acc, (tfd_size kv.2 - tfd_downloaded kv.2 + acc)%Z) 0%Z l2.
Proof. induction 1; simpl; lia. Qed.

Lemma bytes_outstanding_insert k t (m : gmap nat TimeForDownload) :
  m !! k = None →
  TimeRemaining.bytes_outstanding (<[k := t]> m)
  = (tfd_size t - tfd_downloaded t + TimeRemaining.bytes_outstanding m)%Z.
Proof.
  intros Hk. unfold TimeRemaining.bytes_outstanding.
  rewrite (bytes_outstanding_perm _ _ (map_to_list_insert m k t Hk)). reflexivity.
Qed.

Lemma bytes_outstanding_update k c (m : gmap nat TimeForDownload) :
  TimeRemaining.bytes_outstanding (TimeRemaining.update k c m)
  = (TimeRemaining.bytes_outstanding m - (if m !! k is Some _ then c else 0))%Z.
Proof.
  unfold TimeRemaining.update. destruct (m !! k) as [t|] eqn:Hk.
  - rewrite <- (insert_delete_id m k t Hk) at 2.
    rewrite <- (insert_delete_id m k t Hk) at 1.
    rewrite alter_insert_eq.
    rewrite !bytes_outstanding_insert by apply lookup_delete_eq.
    destruct t; simpl. lia.
  - rewrite alter_id by (intros ? ?; congruence). lia.
Qed.

Lemma time_remaining_mono (rate : Qc) m m' :
  (0 < rate)%Qc →
  (TimeRemaining.bytes_outstanding m' ≤ TimeRemaining.bytes_outstanding m)%Z →
  (TimeRemaining.time_remaining rate m' ≤ TimeRemaining.time_remaining rate m)%Qc.
Proof.
  intros Hr Hle. unfold TimeRemaining.time_remaining, Qcdiv.
  apply Qcmult_le_mono_nonneg_r.
  - apply Qclt_le_weak, Qcinv_pos, Hr.
  - apply (proj1 (Z2Qc_inj_le _ _) Hle).
Qed.

Lemma time_remaining_zero (rate : Qc) m :
  TimeRemaining.bytes_outstanding m = 0%Z →
  TimeRemaining.time_remaining rate m = 0%Qc.
Proof.
  intros H. unfold TimeRemaining.time_remaining, Qcdiv. rewrite H.
  rewrite Z2Qc_inj_0. apply Qcmult_0_l.
Qed.

Lemma quot_pos_mono (a c : Z) (b d : positive) :
  (a * Z.pos d ≤ c * Z.pos b)%Z → (a ÷ Z.pos b ≤ c ÷ Z.pos d)%Z.
Proof.
  intros H.
  destruct (Z_lt_le_dec a 0) as [Ha|Ha]; destruct (Z_lt_le_dec c 0) as [Hc|Hc].
  - rewrite <- (Z.opp_involutive a), <- (Z.opp_involutive c).
    rewrite (Z.quot_opp_l (- a)), (Z.quot_opp_l (- c)) by lia.
    rewrite !Z.quot_div_nonneg by lia.
    apply -> Z.opp_le_mono.
    apply Z.div_le_lower_bound; [lia|].
    pose proof (Z.mul_div_le (- c) (Z.pos d) ltac:(lia)).
    nia.
  - transitivity 0%Z.
    + rewrite <- (Z.opp_involutive a). rewrite (Z.quot_opp_l (- a)) by lia.
      pose proof (Z.quot_pos (- a) (Z.pos b) ltac:(lia) ltac:(lia)). lia.
    + apply Z.quot_pos; lia.
  - nia.
  - rewrite !Z.quot_div_nonneg by lia.
    apply Z.div_le_lower_bound; [lia|].
    pose proof (Z.mul_div_le a (Z.pos b) ltac:(lia)).
    nia.
Qed.

Lemma int_of_mono (q q' : Qc) : (q ≤ q')%Qc → (int_of q ≤ int_of q')%Z.
Proof. intros H. unfold int_of. apply quot_pos_mono. exact H. Qed.

Lemma message_seconds_time_message secs : message_seconds (time_message secs) = secs.
Proof.
  unfold time_message. repeat case_bool_decide; simpl; try lia.
  pose proof (Z.div_mod secs 60). lia.
Qed.

Lemma updateTimeRemaining_cases update rate w :
  window_after (updateTimeRemaining update rate w) = w ∨
  (time_figure rate w ≠ 0%Qc ∧
   window_after (updateTimeRemaining update rate w)
   = set_status_bar (Some (time_message (int_of (time_figure rate w)))) w).
Proof.
  unfold updateTimeRemaining, time_figure. destruct update; [|by left].
  cbn [when]. unfold window_after.
  destruct (bool_decide (TimeRemaining.time_remaining rate (time_remaining w) = 0%Qc)) eqn:Hz.
  - left. cbv [mbind M_bind gets]. cbn. rewrite Hz. reflexivity.
  - right. apply bool_decide_eq_false in Hz. split; [done|].
    cbv [mbind M_bind gets]. cbn. rewrite bool_decide_eq_false_2 by done. reflexivity.
Qed.

Lemma copyfilesBytesDownloaded_cases scan_id total chunk w :
  window_after (copyfilesBytesDownloaded scan_id total chunk w) = w ∨
  ((0 ≤ chunk)%Z ∧
   status_bar (window_after (copyfilesBytesDownloaded scan_id total chunk w)) = status_bar w ∧
   time_remaining (window_after (copyfilesBytesDownloaded scan_id total chunk w))
   = TimeRemaining.update scan_id chunk (time_remaining w)).
Proof.
  unfold copyfilesBytesDownloaded, window_after.
  destruct (bool_decide (0 ≤ total)%Z) eqn:Ht; [|by left].
  destruct (bool_decide (0 ≤ chunk)%Z) eqn:Hc; [|by left].
  right. apply bool_decide_eq_true in Hc. split; [done|]. destruct w; split; reflexivity.
Qed.

Lemma time_figure_update rate scan_id chunk w w' :
  (0 < rate)%Qc → (0 ≤ chunk)%Z →
  time_remaining w' = TimeRemaining.update scan_id chunk (time_remaining w) →
  (time_figure rate w' ≤ time_figure rate w)%Qc.
Proof.
  intros Hr Hc Hw. unfold time_figure. apply time_remaining_mono; [done|].
  rewrite Hw, bytes_outstanding_update. destruct (time_remaining w !! scan_id); lia.
Qed.

Lemma transfer_step rate e w :
  (0 < rate)%Qc → shown_in_step rate w →
  let w' := window_after (transfer_handler rate e w) in
  (time_figure rate w' ≤ time_figure rate w)%Qc ∧
  shown_in_step rate w' ∧ never_later w w' ∧ stays_shown w w'.
Proof.
  intros Hr Hw w'. subst w'. destruct e as [scan_id total chunk|update]; cbn [transfer_handler].
  - destruct (copyfilesBytesDownloaded_cases scan_id total chunk w) as [->|(Hc & Hs & Ht)].
    + repeat split; [apply Qcle_refl|done| |by intros ?].
      intros m m' H H'. rewrite H in H'. injection H' as ->. lia.
    + pose proof (time_figure_update rate scan_id chunk w _ Hr Hc Ht) as Hle.
      repeat split; [done| | |].
      * intros m Hm. rewrite Hs in Hm. apply int_of_mono in Hle. specialize (Hw m Hm). lia.
      * intros m m' H H'. rewrite Hs, H in H'. injection H' as ->. lia.
      * unfold stays_shown. by rewrite Hs.
  - destruct (updateTimeRemaining_cases update rate w) as [->|(Hz & ->)].
    + repeat split; [apply Qcle_refl|done| |by intros ?].
      intros m m' H H'. rewrite H in H'. injection H' as ->. lia.
    + assert (Hf : time_figure rate (set_status_bar (Some (time_message (int_of (time_figure rate w)))) w)
                   = time_figure rate w) by (by destruct w).
      assert (Hsb : status_bar (set_status_bar (Some (time_message (int_of (time_figure rate w)))) w)
                   = Some (time_message (int_of (time_figure rate w)))) by (by destruct w).
      repeat split.
      * rewrite Hf. apply Qcle_refl.
      * intros m Hm. rewrite Hsb in Hm. injection Hm as <-.
        rewrite Hf, message_seconds_time_message. lia.
      * intros m m' H H'. rewrite Hsb in H'. injection H' as <-.
        rewrite message_seconds_time_message. by apply Hw.
      * intros _. rewrite Hsb. by eexists.
Qed.

Lemma transfer_run rate events w :
  (0 < rate)%Qc → shown_in_step rate w →
  let w' := remaining_time_run rate events w in
  (time_figure rate w' ≤ time_figure rate w)%Qc ∧
  shown_in_step rate w' ∧ never_later w w' ∧ stays_shown w w'.
Proof.
  intros Hr. revert w. induction events as [|e events IH]; intros w Hw; cbn zeta.
  - change (remaining_time_run rate [] w) with w.
    repeat split; [apply Qcle_refl|done| |by intros ?].
    intros m m' H H'. rewrite H in H'. injection H' as ->. lia.
  - destruct (transfer_step rate e w Hr Hw) as (H1 & H2 & H3 & H4).
    destruct (IH _ H2) as (I1 & I2 & I3 & I4).
    change (remaining_time_run rate (e :: events) w)
      with (remaining_time_run rate events (window_after (transfer_handler rate e w))).
    repeat split.
    + eapply Qcle_trans; eassumption.
    + done.
    + intros m m' Hm Hm'. destruct (H4 (mk_is_Some _ _ Hm)) as [m1 Hm1].
      specialize (H3 _ _ Hm Hm1). specialize (I3 _ _ Hm1 Hm'). lia.
    + intros H. apply I4, H4, H.
Qed.

(** C7 (counterexample). At the constant rate of 10 bytes per second the
    card's 100 bytes are transferred in two updates, the display refreshed
    after each. At the end no byte is outstanding and the figure is zero, yet
    the status bar still reports one second remaining: the last refresh
    found the figure zero and showed nothing. *)
Theorem zero_remaining_time_not_reported :
  (0 < rate_10)%Qc ∧
  TimeRemaining.bytes_outstanding (time_remaining window_all_transferred) = 0%Z ∧
  time_figure rate_10 window_all_transferred = 0%Qc ∧
  status_bar window_all_transferred = Some msg_one_second.
Proof.
  split; [reflexivity|]. split; [vm_compute; reflexivity|].
  split; [apply time_remaining_zero; vm_compute; reflexivity|vm_compute; reflexivity].
Qed.

(** C7 (as amended). At a constant positive rate, along any run of
    byte-transferred updates and refreshes of the display, from a window
    whose status bar is not behind the figure: the remaining-time figure,
    its whole seconds and the seconds shown by the status bar never
    increase; once no byte is outstanding the figure is zero, and a refresh
    then leaves the window as it is, the zero not being shown. *)
Theorem remaining_time_never_increases (rate : Qc) (earlier later : list TransferEvent)
    (w : RapidWindow) :
  (0 < rate)%Qc → shown_in_step rate w →
  let w1 := remaining_time_run rate earlier w in
  let w2 := remaining_time_run rate later w1 in
  (time_figure rate w2 ≤ time_figure rate w1)%Qc ∧
  (int_of (time_figure rate w2) ≤ int_of (time_figure rate w1))%Z ∧
  never_later w1 w2 ∧
  (TimeRemaining.bytes_outstanding (time_remaining w2) = 0%Z →
   time_figure rate w2 = 0%Qc ∧
   ∀ update, window_after (updateTimeRemaining update rate w2) = w2).
Proof.
  intros Hr Hw w1 w2.
  destruct (transfer_run rate earlier w Hr Hw) as (_ & Hw1 & _ & _).
  destruct (transfer_run rate later _ Hr Hw1) as (H1 & H2 & H3 & _).
  fold w1 in H1, H2, H3. fold w2 in H1, H2, H3.
  split; [done|]. split; [by apply int_of_mono|]. split; [done|].
  intros Hz. pose proof (time_remaining_zero rate _ Hz) as Hf. split; [done|].
  intros update. destruct (updateTimeRemaining_cases update rate w2) as [H|[H _]]; [done|].
  by destruct H.
Qed.

Lemma remaining_time_never_increases_witness :
  (0 < rate_10)%Qc ∧ shown_in_step rate_10 window_some_transferred ∧
  never_later
    (remaining_time_run rate_10 [bytes_downloaded 0 50 20; time_update true] window_some_transferred)
    (remaining_time_run rate_10 [bytes_downloaded 0 80 30; time_update true]
      (remaining_time_run rate_10 [bytes_downloaded 0 50 20; time_update true] window_some_transferred)).
Proof.
  assert (Hr : (0 < rate_10)%Qc) by reflexivity.
  assert (Hs : shown_in_step rate_10 window_some_transferred).
  { intros m Hm. vm_compute in Hm. injection Hm as <-. vm_compute. discriminate. }
  split; [exact Hr|]. split; [exact Hs|].
  apply (remaining_time_never_increases rate_10
           [bytes_downloaded 0 50 20; time_update true]
           [bytes_downloaded 0 80 30; time_update true] window_some_transferred Hr Hs).
Defined.

(** ** Temporary folders *)
Lemma set_sent_set_sent l l' w : set_sent l (set_sent l' w) = set_sent l w.
Proof. by destruct w. Qed.

Lemma clean_step env d (k : M unit) w :
  d ≠ home_dir env →
  ((assert (bool_decide (d ≠ home_dir env)) ;;
    when (os_path_isdir env d) (send (shutil_rmtree d))) ;; k) w
  = k (if os_path_isdir env d then set_sent (sent w ++ [shutil_rmtree d]) w else w).
Proof.
  intros Hne. unfold assert. rewrite bool_decide_eq_true_2 by done.
  by destruct (os_path_isdir env d).
Qed.

Lemma clean_loop_sends env dirs w :
  ∃ removed,
    (clean_loop env dirs w).2 = set_sent (sent w ++ (shutil_rmtree <$> removed)) w
    ∧ (∀ d, d ∈ removed → d ∈ dirs ∧ d ≠ home_dir env ∧ os_path_isdir env d = true)
    ∧ (home_dir env ∈ dirs → (clean_loop env dirs w).1 = inl AssertionError)
    ∧ (home_dir env ∉ dirs →
       (clean_loop env dirs w).1 = inr tt
       ∧ removed = List.filter (os_path_isdir env) dirs).
Proof.
  unfold clean_loop. revert w. induction dirs as [|d dirs IH]; intros w.
  - exists []. simpl. rewrite app_nil_r, set_sent_id.
    split; [done|]. split; [by intros ? ?%elem_of_nil|]. split; [by intros ?%elem_of_nil|done].
  - cbn [for_each]. destruct (decide (d = home_dir env)) as [->|Hne].
    + exists []. simpl. rewrite app_nil_r, set_sent_id.
      unfold mbind, M_bind, assert. rewrite bool_decide_eq_false_2 by (by intros []).
      simpl. split; [done|]. split; [by intros ? ?%elem_of_nil|]. split; [done|].
      intros []; by left.
    + rewrite clean_step by done.
      destruct (os_path_isdir env d) eqn:Hd.
      * destruct (IH (set_sent (sent w ++ [shutil_rmtree d]) w)) as (removed & Hw & Hin & Hbad & Hgood).
        exists (d :: removed). split; [|split; [|split]].
        -- rewrite Hw. simpl. rewrite set_sent_set_sent. f_equal.
           by rewrite <- app_assoc.
        -- intros d' [->|Hd']%elem_of_cons.
           ++ split; [by left|done].
           ++ destruct (Hin d' Hd') as (? & ? & ?). split; [by right|done].
        -- intros [?|?]%elem_of_cons; [done|]. by apply Hbad.
        -- intros [_ ?]%not_elem_of_cons. destruct Hgood as [? ->]; [done|].
           split; [done|]. simpl. by rewrite Hd.
      * destruct (IH w) as (removed & Hw & Hin & Hbad & Hgood).
        exists removed. split; [done|]. split; [|split].
        -- intros d' Hd'. destruct (Hin d' Hd') as (? & ? & ?). split; [by right|done].
        -- intros [?|?]%elem_of_cons; [done|]. by apply Hbad.
        -- intros [_ ?]%not_elem_of_cons. destruct Hgood as [? ->]; [done|].
           split; [done|]. simpl. by rewrite Hd.
Qed.

Lemma bind_pass (m : M unit) w : (m ;; pass) w = m w.
Proof. unfold mbind, M_bind, pass. by destruct (m w) as [[?|[]] ?]. Qed.

Lemma cleanTempDirsForScanId_loop env scan_id remove_entry w :
  cleanTempDirsForScanId env scan_id remove_entry w
  = match temp_dirs_by_scan_id w !! scan_id with
    | None => (inl KeyError, w)
    | Some dirs =>
        (clean_loop env dirs ;;
         when remove_entry
           (modify (λ w, set_temp_dirs_by_scan_id
                           (delete scan_id (temp_dirs_by_scan_id w)) w))) w
    end.
Proof.
  unfold cleanTempDirsForScanId. erewrite bind_inr by reflexivity.
  destruct (temp_dirs_by_scan_id w !! scan_id) as [dirs|]; [|done].
  by erewrite bind_inr by reflexivity.
Qed.

Lemma cleanTempDirsForScanId_sends env scan_id remove_entry w :
  ∃ removed,
    sent (cleanTempDirsForScanId env scan_id remove_entry w).2
      = (sent w ++ (shutil_rmtree <$> removed))%list
    ∧ (∀ d, d ∈ removed →
         d ≠ home_dir env ∧ os_path_isdir env d = true ∧ recorded_temp_dir w scan_id d).
Proof.
  rewrite cleanTempDirsForScanId_loop.
  destruct (temp_dirs_by_scan_id w !! scan_id) as [dirs|] eqn:Hdirs.
  - destruct (clean_loop_sends env dirs w) as (removed & Hw & Hin & _).
    exists removed. split.
    + unfold mbind, M_bind. destruct (clean_loop env dirs w) as [[e|[]] w1]; simpl in *.
      * by rewrite Hw.
      * subst w1. by destruct remove_entry.
    + intros d Hd. destruct (Hin d Hd) as (? & ? & ?). repeat split; [done..|].
      by exists dirs.
  - exists []. split; [by rewrite app_nil_r|]. by intros ? ?%elem_of_nil.
Qed.

(** X1. Cleaning the temporary folders of a device calls nothing but
    [shutil.rmtree], and only on folders that are recorded for that device,
    that exist as directories and that are not the home directory; this
    holds however the handler ends (unknown device, failed assertion). *)
Theorem cleaning_removes_only_recorded_folders (env : Env) (scan_id : nat)
    (remove_entry : bool) (w : RapidWindow) :
  let w' := window_after (cleanTempDirsForScanId env scan_id remove_entry w) in
  ∃ removed,
    newly_sent w w' = shutil_rmtree <$> removed
    ∧ ∀ d, d ∈ removed →
        d ≠ home_dir env ∧ os_path_isdir env d = true ∧ recorded_temp_dir w scan_id d.
Proof.
  intros w'. destruct (cleanTempDirsForScanId_sends env scan_id remove_entry w)
    as (removed & Hs & Hin).
  exists removed. split; [|done]. by apply newly_sent_app.
Qed.

Lemma cleanTempDirsForScanId_keep env scan_id w dirs :
  temp_dirs_by_scan_id w !! scan_id = Some dirs →
  cleanTempDirsForScanId env scan_id false w = clean_loop env dirs w.
Proof.
  intros Hdirs. rewrite cleanTempDirsForScanId_loop, Hdirs. cbn [when]. apply bind_pass.
Qed.

Lemma clean_all_loop_sends env ids w :
  (∀ id, id ∈ ids → is_Some (temp_dirs_by_scan_id w !! id)) →
  ∃ removed,
    (clean_all_loop env ids w).2 = set_sent (sent w ++ (shutil_rmtree <$> removed)) w
    ∧ (∀ d, d ∈ removed →
         d ≠ home_dir env ∧ os_path_isdir env d = true
         ∧ ∃ id, id ∈ ids ∧ recorded_temp_dir w id d)
    ∧ ((clean_all_loop env ids w).1 = inr tt
       ∨ ((clean_all_loop env ids w).1 = inl AssertionError
          ∧ ∃ id, id ∈ ids ∧ recorded_temp_dir w id (home_dir env)))
    ∧ ((clean_all_loop env ids w).1 = inr tt →
       (¬ ∃ id, id ∈ ids ∧ recorded_temp_dir w id (home_dir env))
       ∧ ∀ id d, id ∈ ids → recorded_temp_dir w id d → os_path_isdir env d = true →
           d ∈ removed).
Proof.
  unfold clean_all_loop. revert w. induction ids as [|id ids IH]; intros w Hdom.
  - exists []. simpl. rewrite app_nil_r, set_sent_id.
    split; [done|]. split; [by intros ? ?%elem_of_nil|].
    split; [by left|].
    intros _. split; [by intros (? & ?%elem_of_nil & _)|]. by intros ? ? ?%elem_of_nil.
  - cbn [for_each].
    destruct (Hdom id) as [dirs Hdirs]; [by left|].
    unfold mbind, M_bind. rewrite (cleanTempDirsForScanId_keep env id w dirs Hdirs).
    destruct (clean_loop_sends env dirs w) as (removed1 & Hw1 & Hin1 & Hbad1 & Hgood1).
    destruct (clean_loop env dirs w) as [[e|[]] w1] eqn:Hloop; simpl in Hw1, Hbad1, Hgood1.
    + (* the assertion failed *)
      destruct (decide (home_dir env ∈ dirs)) as [Hhome|Hhome];
        [|by destruct (Hgood1 Hhome)].
      exists removed1. simpl. split; [done|]. split; [|split].
      * intros d Hd. destruct (Hin1 d Hd) as (? & ? & ?).
        repeat split; [done..|]. exists id. split; [by left|by exists dirs].
      * right. specialize (Hbad1 Hhome). simplify_eq. split; [done|].
        exists id. split; [by left|by exists dirs].
      * done.
    + destruct (decide (home_dir env ∈ dirs)) as [Hhome|Hhome];
        [by specialize (Hbad1 Hhome)|].
      destruct (Hgood1 Hhome) as [_ Hrem1].
      destruct (IH w1) as (removed & Hw & Hin & Hcases & Hgood).
      { intros id' Hid'. subst w1. simpl. apply Hdom. by right. }
      assert (Hrec : ∀ id' d, recorded_temp_dir w1 id' d ↔ recorded_temp_dir w id' d).
      { intros. by subst w1. }
      exists (removed1 ++ removed)%list. split; [|split; [|split]].
      * rewrite Hw, Hw1. simpl. rewrite set_sent_set_sent. f_equal.
        by rewrite fmap_app, app_assoc.
      * intros d [Hd|Hd]%elem_of_app.
        -- destruct (Hin1 d Hd) as (? & ? & ?).
           repeat split; [done..|]. exists id. split; [by left|by exists dirs].
        -- destruct (Hin d Hd) as (? & ? & id' & ? & ?%Hrec).
           repeat split; [done..|]. exists id'. split; [by right|done].
      * destruct Hcases as [?|(? & id' & ? & ?%Hrec)]; [by left|right].
        split; [done|]. exists id'. split; [by right|done].
      * intros Hret. destruct (Hgood Hret) as [Hno Hall]. split.
        -- intros (id' & [->|Hid']%elem_of_cons & Hr).
           ++ destruct Hr as (dirs' & Hd' & ?). by simplify_eq.
           ++ apply Hno. exists id'. split; [done|]. by apply Hrec.
        -- intros id' d [->|Hid']%elem_of_cons Hr Hd.
           ++ apply elem_of_app. left. destruct Hr as (dirs' & Hd' & ?). simplify_eq.
              apply list_elem_of_In, filter_In. split; [by apply list_elem_of_In|done].
           ++ apply elem_of_app. right. apply (Hall id' d); [done| |done]. by apply Hrec.
Qed.

Lemma elem_of_temp_ids (w : RapidWindow) id :
  id ∈ (map_to_list (temp_dirs_by_scan_id w)).*1 ↔ is_Some (temp_dirs_by_scan_id w !! id).
Proof.
  rewrite list_elem_of_fmap. split.
  - intros ([id' dirs] & -> & Hin%elem_of_map_to_list). by exists dirs.
  - intros [dirs Hd]. exists (id, dirs). split; [done|]. by apply elem_of_map_to_list.
Qed.

(** X2. [cleanAllTempDirs] returns exactly when the home directory is not
    among the recorded temporary folders; it then has removed every recorded
    folder that exists, and the table is empty. When the home directory is
    recorded the assertion fails and the table is left as it was. In both
    cases only recorded, existing folders other than the home directory are
    removed. *)
Theorem cleanAllTempDirs_cleans (env : Env) (w : RapidWindow) :
  let r := cleanAllTempDirs env w in
  (returned r = true ↔ ¬ home_dir_recorded env w)
  ∧ (∃ removed,
       newly_sent w (window_after r) = shutil_rmtree <$> removed
       ∧ (∀ d, d ∈ removed →
            d ≠ home_dir env ∧ os_path_isdir env d = true
            ∧ ∃ scan_id, recorded_temp_dir w scan_id d)
       ∧ (returned r = true →
          ∀ scan_id d, recorded_temp_dir w scan_id d → os_path_isdir env d = true →
            d ∈ removed))
  ∧ (returned r = true → temp_dirs_by_scan_id (window_after r) = ∅)
  ∧ (returned r = false →
     temp_dirs_by_scan_id (window_after r) = temp_dirs_by_scan_id w).
Proof.
  intros r. subst r. unfold cleanAllTempDirs.
  erewrite bind_inr by reflexivity.
  fold (clean_all_loop env (map_to_list (temp_dirs_by_scan_id w)).*1).
  destruct (clean_all_loop_sends env (map_to_list (temp_dirs_by_scan_id w)).*1 w)
    as (removed & Hw & Hin & Hcases & Hgood).
  { intros id. apply elem_of_temp_ids. }
  assert (Hiff : (∃ id, id ∈ (map_to_list (temp_dirs_by_scan_id w)).*1
                        ∧ recorded_temp_dir w id (home_dir env))
                 ↔ home_dir_recorded env w).
  { split.
    - intros (id & _ & Hr). by exists id.
    - intros (id & Hr). exists id. split; [|done]. apply elem_of_temp_ids.
      destruct Hr as (dirs & ? & _). by exists dirs. }
  unfold mbind, M_bind, returned, window_after.
  destruct (clean_all_loop env _ w) as [[e|[]] w1] eqn:Hloop; simpl in *.
  - assert (Hrec : home_dir_recorded env w).
    { apply Hiff. by destruct Hcases as [?|[_ ?]]. }
    split; [split; [done|by intros []]|].
    split; [|split; [done|by subst w1]].
    exists removed. split; [apply newly_sent_app; by subst w1|].
    split; [|done]. intros d Hd. destruct (Hin d Hd) as (? & ? & id & _ & ?).
    repeat split; [done..|]. by exists id.
  - destruct (Hgood eq_refl) as [Hno Hall].
    assert (Hrec : ¬ home_dir_recorded env w) by (by rewrite <- Hiff).
    split; [done|]. split; [|split; [by destruct w1|done]].
    exists removed. split; [apply newly_sent_app; by subst w1|].
    split.
    + intros d Hd. destruct (Hin d Hd) as (? & ? & id & _ & ?).
      repeat split; [done..|]. by exists id.
    + intros _ id d Hr Hd.
      apply (Hall id d); [|done..]. apply elem_of_temp_ids.
      destruct Hr as (dirs & ? & _). by exists dirs.
Qed.

(** ** Removing a device *)
Lemma removeDevice_preserves {B} (proj : RapidWindow → B) env scan_id stop_worker :
  (∀ l w, proj (set_sent l w) = proj w) →
  (∀ v w, proj (set_rpd_files v w) = proj w) →
  (∀ v w, proj (set_device_state v w) = proj w) →
  (∀ v w, proj (set_devices v w) = proj w) →
  preserves proj (removeDevice env scan_id stop_worker).
Proof.
  intros Hs Hf Hst Hd.
  unfold removeDevice, clearAll, generateTemporalProximityTableData, mapModel.
  frame.
  all: try (by apply preserves_send).
  all: apply preserves_modify; intros w; cbv beta; by rewrite ?Hf, ?Hst, ?Hd.
Qed.

Lemma removeDevice_running env scan_id stop_worker w :
  downloadIsRunning (removeDevice env scan_id stop_worker w).2 = downloadIsRunning w.
Proof.
  unfold downloadIsRunning.
  assert (H1 : active_downloads_by_scan_id (removeDevice env scan_id stop_worker w).2
               = active_downloads_by_scan_id w)
    by (by apply removeDevice_preserves).
  assert (H2 : download_tracker (removeDevice env scan_id stop_worker w).2
               = download_tracker w)
    by (by apply removeDevice_preserves).
  assert (H3 : prefs (removeDevice env scan_id stop_worker w).2 = prefs w)
    by (by apply removeDevice_preserves).
  by rewrite H1, H2, H3.
Qed.

Lemma removeDevice_registered env scan_id stop_worker w :
  is_Some (devices w !! scan_id) →
  removeDevice env scan_id stop_worker w
  = (inr tt,
     set_devices (delete scan_id (devices w))
       (set_device_state (delete scan_id (device_state w))
          (set_rpd_files (kept_files scan_id (rpd_files w))
             (set_sent (sent w ++ removeDevice_calls env scan_id w) w)))).
Proof.
  intros [device Hdev]. unfold removeDevice, removeDevice_calls, kept_files.
  erewrite bind_inr by reflexivity.
  rewrite bool_decide_eq_true_2 by (apply elem_of_dom; eauto).
  erewrite bind_inr by reflexivity.
  unfold clearAll, generateTemporalProximityTableData, mapModel.
  exec.
  destruct (bool_decide (scan_id ∈ prompting_for_user_action w));
    destruct (thumbnailModel_clearAll env scan_id);
    destruct (bool_decide (scan_id ∈ scanmq_workers env));
    destruct (bool_decide (scan_id ∈ copyfilesmq_workers env));
    simpl; rewrite Hdev; simpl; rewrite Hdev; simpl;
    destruct w; simpl; rewrite <- ?app_assoc; reflexivity.
Qed.

Lemma removeDevice_devices env scan_id stop_worker w :
  returned (removeDevice env scan_id stop_worker w) = true
  ∧ devices (removeDevice env scan_id stop_worker w).2 = delete scan_id (devices w).
Proof.
  destruct (devices w !! scan_id) as [device|] eqn:Hdev.
  - by rewrite removeDevice_registered by eauto.
  - unfold removeDevice. erewrite bind_inr by reflexivity.
    rewrite bool_decide_eq_false_2 by (by apply not_elem_of_dom).
    split; [done|]. simpl. by rewrite delete_id.
Qed.

(** X3. [removeDevice] does not take the device out of the set of active
    downloads or out of the time-remaining table: a device removed while it
    is being downloaded from is no longer registered afterwards, yet it is
    still counted as downloading, and [downloadIsRunning] still answers
    True. *)
Theorem removed_device_stays_in_active_downloads (env : Env) (scan_id : nat)
    (stop_worker : bool) (w : RapidWindow) :
  scan_id ∈ active_downloads_by_scan_id w →
  let w' := window_after (removeDevice env scan_id stop_worker w) in
  devices w' !! scan_id = None
  ∧ scan_id ∈ active_downloads_by_scan_id w'
  ∧ time_remaining w' = time_remaining w
  ∧ downloadIsRunning w' = true.
Proof.
  intros Hactive w'. subst w'. unfold window_after.
  destruct (removeDevice_devices env scan_id stop_worker w) as [_ Hd].
  assert (H1 : active_downloads_by_scan_id (removeDevice env scan_id stop_worker w).2
               = active_downloads_by_scan_id w)
    by (by apply removeDevice_preserves).
  split; [by rewrite Hd, lookup_delete_eq|]. split; [by rewrite H1|].
  split; [by apply removeDevice_preserves|].
  rewrite removeDevice_running. unfold downloadIsRunning.
  rewrite bool_decide_eq_false_2; [done|].
  intros Hsize%size_empty_iff. set_solver.
Qed.

Lemma removed_device_stays_in_active_downloads_witness :
  let w := window_downloading prefs_no_backup in
  let w' := window_after (removeDevice env_downloading 0 true w) in
  devices w' !! 0 = None ∧ 0 ∈ active_downloads_by_scan_id w'
  ∧ time_remaining w' = time_remaining w ∧ downloadIsRunning w' = true.
Proof.
  apply (removed_device_stays_in_active_downloads env_downloading 0 true
           (window_downloading prefs_no_backup)).
  apply elem_of_elements.
  replace (elements (active_downloads_by_scan_id (window_downloading prefs_no_backup)))
    with [0] by (vm_compute; reflexivity).
  by left.
Defined.

Lemma elem_of_removeDevice_calls env scan_id w s :
  s ∈ removeDevice_calls env scan_id w ↔
    (s = messageBox_reject scan_id ∧ scan_id ∈ prompting_for_user_action w)
    ∨ s = thumbnailModel_clearAll_files scan_id
    ∨ (s = offloadmq_assign_work ∧ thumbnailModel_clearAll env scan_id = true)
    ∨ s = deviceModel_removeDevice scan_id
    ∨ (s = scanmq_stop_worker scan_id ∧ scan_id ∈ scanmq_workers env)
    ∨ (s = copyfilesmq_stop_worker scan_id ∧ scan_id ∈ copyfilesmq_workers env).
Proof.
  unfold removeDevice_calls. rewrite !elem_of_app.
  repeat case_bool_decide; destruct (thumbnailModel_clearAll env scan_id);
    rewrite ?elem_of_nil, ?list_elem_of_singleton; naive_solver.
Qed.

(** X4. [removeDevice] always returns, and leaves the registry without the
    device and otherwise as it was; its parameter [stop_worker] plays no
    part. For a registered device the row of the device model is removed, and
    the scan worker, the copy worker and the open message box of the device
    are stopped or rejected exactly when there is one. *)
Theorem removeDevice_unregisters (env : Env) (scan_id : nat) (stop_worker : bool)
    (w : RapidWindow) :
  let r := removeDevice env scan_id stop_worker w in
  let w' := window_after r in
  returned r = true
  ∧ devices w' = delete scan_id (devices w)
  ∧ r = removeDevice env scan_id (negb stop_worker) w
  ∧ (is_Some (devices w !! scan_id) →
     device_state w' = delete scan_id (device_state w)
     ∧ deviceModel_removeDevice scan_id ∈ newly_sent w w'
     ∧ (scanmq_stop_worker scan_id ∈ newly_sent w w' ↔ scan_id ∈ scanmq_workers env)
     ∧ (copyfilesmq_stop_worker scan_id ∈ newly_sent w w'
        ↔ scan_id ∈ copyfilesmq_workers env)
     ∧ (messageBox_reject scan_id ∈ newly_sent w w'
        ↔ scan_id ∈ prompting_for_user_action w)).
Proof.
  intros r w'. subst r w'. unfold window_after.
  destruct (removeDevice_devices env scan_id stop_worker w) as [Hr Hd].
  split; [done|]. split; [done|]. split; [done|].
  intros Hdev. rewrite removeDevice_registered by done. cbn [snd].
  erewrite newly_sent_app by (by destruct w).
  split; [by destruct w|].
  rewrite !elem_of_removeDevice_calls. naive_solver.
Qed.

(** ** Mounted partitions *)
Lemma sync_no_backup_devices_in_sync w : counts_in_sync (sync_no_backup_devices w).2.
Proof. intros []; by destruct w. Qed.

Lemma counts_in_sync_frame w w' :
  download_tracker w' = download_tracker w → backup_devices w' = backup_devices w →
  counts_in_sync w → counts_in_sync w'.
Proof. intros Ht Hb H ft. rewrite Ht, Hb. apply H. Qed.

Lemma partitionMounted_cases env path w :
  (partitionMounted env path w).2 = w
  ∨ (∃ t, isBackupPath env path (prefs w) = Some t
          ∧ path ∈ mountPaths env
          ∧ monitorPartitionChanges (prefs w) = true
          ∧ partitionValid env path (prefs w) = true
          ∧ path ∉ dom (backup_devices w)
          ∧ partitionMounted env path w
            = (inr tt,
               (displayMessageInStatusBar
                  (sync_no_backup_devices
                     (addDeviceToBackupManager path
                        (set_backup_devices
                           (<[path := {| has_mount := true; backup_type := t |}]>
                              (backup_devices w)) w)).2).2).2))
  ∨ (isBackupPath env path (prefs w) = None
     ∧ shouldScanMountPath env path (prefs w) = true
     ∧ partitionValid env path (prefs w) = true
     ∧ ∃ device b,
         (partitionMounted env path w).2
         = (prepareNonCameraDeviceScan env device (set_auto_start_is_on b w)).2).
Proof.
  unfold partitionMounted.
  unfold assert. case_bool_decide as Hm; [|left; by erewrite bind_inl by reflexivity].
  erewrite bind_inr by reflexivity.
  erewrite bind_inr by reflexivity.
  destruct (monitorPartitionChanges (prefs w)) eqn:Hmon; [|by left]. cbn [when].
  destruct (partitionValid env path (prefs w)) eqn:Hv; [|by left]. cbn [when].
  destruct (isBackupPath env path (prefs w)) as [t|] eqn:Hb.
  - erewrite bind_inr by reflexivity.
    case_bool_decide as Hin; [|by left].
    right; left. exists t. by repeat split.
  - destruct (shouldScanMountPath env path (prefs w)) eqn:Hs; [|by left]. cbn [when].
    right; right. repeat split; [done..|]. erewrite bind_inr by reflexivity. eauto.
Qed.

(** X5. A mounted partition is taken as a backup destination or as a
    device to download from, never as both: when [isBackupPath] recognises
    the path, the device registry is left alone and no scan worker is
    started; when it does not, the collection of backup destinations, the
    tracker and the backup workers are left alone. *)
Theorem mounted_partition_backup_or_source (env : Env) (path : string) (w : RapidWindow) :
  let w' := window_after (partitionMounted env path w) in
  (is_Some (isBackupPath env path (prefs w)) →
   devices w' = devices w
   ∧ sent_count is_scanmq_start_worker w' = sent_count is_scanmq_start_worker w)
  ∧ (isBackupPath env path (prefs w) = None →
     backup_devices w' = backup_devices w
     ∧ download_tracker w' = download_tracker w
     ∧ sent_count is_backupmq_add_device w' = sent_count is_backupmq_add_device w).
Proof.
  intros w'. subst w'. unfold window_after.
  destruct (partitionMounted_cases env path w)
    as [->|[(t & Ht & _ & _ & _ & _ & ->)|(Hnone & _ & _ & device & b & ->)]].
  - done.
  - split; [|by rewrite Ht]. intros _. split; [by destruct w|].
    unfold sent_count. destruct w; simpl. by rewrite !List.filter_app, !app_nil_r.
  - split; [rewrite Hnone; by intros [? ?]|]. intros _.
    split; [by rewrite prepareNonCameraDeviceScan_preserves|].
    split; [by rewrite prepareNonCameraDeviceScan_preserves|].
    unfold sent_count. f_equal.
    apply (prepareNonCameraDeviceScan_quiet env device (set_auto_start_is_on b w)).
Qed.

Lemma partitionMounted_in_sync env path w :
  counts_in_sync w → counts_in_sync (partitionMounted env path w).2.
Proof.
  intros Hsync.
  destruct (partitionMounted_cases env path w)
    as [->|[(t & Ht & _ & _ & _ & _ & ->)|(Hnone & _ & _ & device & b & ->)]].
  - done.
  - cbn [snd]. intros []; by destruct w.
  - revert Hsync. apply counts_in_sync_frame; by rewrite prepareNonCameraDeviceScan_preserves.
Qed.

Lemma for_each_returns {A} (l : list A) (body : A → M unit) :
  (∀ x w, ∃ w', body x w = (inr tt, w')) →
  ∀ w, ∃ w', for_each l body w = (inr tt, w').
Proof.
  intros Hbody. induction l as [|x l IH]; intros w; simpl.
  - by exists w.
  - destruct (Hbody x w) as [w1 H1]. erewrite bind_inr by exact H1. apply IH.
Qed.

Lemma setupBackupDevices_syncs env w :
  ∃ w1, setupBackupDevices env w = sync_no_backup_devices w1.
Proof.
  unfold setupBackupDevices. erewrite bind_inr by reflexivity. cbv beta.
  destruct (backup_device_autodetection (prefs w)).
  - match goal with
    | |- context [for_each ?l ?body] =>
        destruct (for_each_returns l body) with (w := w) as [w1 H1]
    end.
    { intros path w0. destruct (partitionValid env path (prefs w)); [|by eexists].
      cbn [when]. destruct (isBackupPath env path (prefs w)); by eexists. }
    erewrite bind_inr by exact H1. by exists w1.
  - assert (∃ w0, setupManualBackup w = (inr tt, w0)) as [w0 H0].
    { unfold setupManualBackup. erewrite bind_inr by reflexivity.
      case_bool_decide; by eexists. }
    erewrite (bind_inr (setupManualBackup ;; _)); [by eexists|].
    erewrite bind_inr by exact H0. erewrite bind_inr by reflexivity.
    unfold addDeviceToBackupManager. rewrite for_each_send. reflexivity.
Qed.

(** X6. The tracker's numbers of photo-capable and of video-capable backup
    destinations follow the collection: if they agree with it before a mount
    event, they agree with it afterwards, whatever the event does
    (destination added, device scanned, nothing); and [setupBackupDevices]
    ends with them in agreement. *)
Theorem backup_counts_stay_in_sync (env : Env) (path : string) (w : RapidWindow) :
  counts_in_sync w →
  counts_in_sync (window_after (partitionMounted env path w))
  ∧ counts_in_sync (window_after (setupBackupDevices env w)).
Proof.
  intros Hsync. split; [by apply partitionMounted_in_sync|].
  unfold window_after. destruct (setupBackupDevices_syncs env w) as [w1 ->].
  apply sync_no_backup_devices_in_sync.
Qed.

Lemma backup_counts_stay_in_sync_witness :
  counts_in_sync (initial_window example_prefs example_job_code)
  ∧ counts_in_sync (window_after (partitionMounted example_env "/media/drive"
                                    (initial_window example_prefs example_job_code))).
Proof.
  assert (H : counts_in_sync (initial_window example_prefs example_job_code))
    by (intros []; vm_compute; reflexivity).
  split; [exact H|].
  apply (backup_counts_stay_in_sync example_env "/media/drive"
           (initial_window example_prefs example_job_code) H).
Defined.

(** X7. Mounting a partition that is a backup destination not yet
    registered registers it with the capability [isBackupPath] found and
    starts its backup worker, the tracker's counts following; unmounting it
    again (no volume of that path being registered as a device) stops the
    worker and gives back the collection of destinations as it was, the
    device registry untouched. *)
Theorem backup_destination_mount_round_trip (env : Env) (path : string)
    (t : BackupLocationType.t) (w : RapidWindow) :
  path ∈ mountPaths env →
  monitorPartitionChanges (prefs w) = true →
  partitionValid env path (prefs w) = true →
  isBackupPath env path (prefs w) = Some t →
  backup_devices w !! path = None →
  scan_id_from_path path DeviceType.volume (devices w) = None →
  let w1 := window_after (partitionMounted env path w) in
  let w2 := window_after (partitionUmounted env path w1) in
  backup_devices w1 = <[path := {| has_mount := true; backup_type := t |}]> (backup_devices w)
  ∧ backupmq_add_device path ∈ newly_sent w w1
  ∧ counts_in_sync w1
  ∧ (path ≠ EmptyString →
     backup_devices w2 = backup_devices w
     ∧ backupmq_remove_device path ∈ newly_sent w1 w2
     ∧ devices w2 = devices w).
Proof.
  intros Hm Hmon Hv Ht Hnew Hvol w1 w2.
  assert (Hw1 : w1 = (displayMessageInStatusBar
                  (sync_no_backup_devices
                     (addDeviceToBackupManager path
                        (set_backup_devices
                           (<[path := {| has_mount := true; backup_type := t |}]>
                              (backup_devices w)) w)).2).2).2).
  { subst w1. unfold window_after, partitionMounted, assert.
    rewrite bool_decide_eq_true_2 by done.
    erewrite bind_inr by reflexivity. erewrite bind_inr by reflexivity.
    rewrite Hmon, Hv. cbn [when]. rewrite Ht.
    erewrite bind_inr by reflexivity.
    rewrite bool_decide_eq_true_2 by (by apply not_elem_of_dom). reflexivity. }
  assert (Hbd1 : backup_devices w1
                 = <[path := {| has_mount := true; backup_type := t |}]> (backup_devices w))
    by (rewrite Hw1; by destruct w).
  split; [done|]. split.
  { erewrite (newly_sent_app w [backupmq_add_device path; statusBar_basic_message]).
    - by left.
    - rewrite Hw1. destruct w; simpl. by rewrite <- app_assoc. }
  split.
  { rewrite Hw1. intros []; by destruct w. }
  intros Hne.
  assert (Hw2 : w2 = (setDownloadActionSensitivity
           (sync_no_backup_devices
              (displayMessageInStatusBar
                 (set_backup_devices (delete path (backup_devices w1))
                    (send (backupmq_remove_device path) w1).2)).2).2).2).
  { subst w2. unfold window_after, partitionUmounted.
    rewrite bool_decide_eq_false_2 by done.
    erewrite bind_inr by reflexivity. erewrite bind_inr by reflexivity.
    replace (devices w1) with (devices w) by (rewrite Hw1; by destruct w).
    rewrite Hvol.
    rewrite bool_decide_eq_true_2
      by (rewrite Hbd1; apply elem_of_dom; rewrite lookup_insert_eq; eauto).
    reflexivity. }
  assert (Hbd2 : backup_devices w2 = backup_devices w).
  { rewrite Hw2, setDownloadActionSensitivity_preserves by done.
    transitivity (delete path (backup_devices w1)); [by destruct w1|].
    rewrite Hbd1. by apply delete_insert_id. }
  split; [done|]. split.
  - rewrite Hw2. unfold setDownloadActionSensitivity.
    erewrite bind_inr by reflexivity.
    match goal with |- context [when ?b _] => destruct b end; cbn [when].
    + erewrite (newly_sent_app w1
        [backupmq_remove_device path; statusBar_basic_message; downloadAct_refresh]).
      * by left.
      * destruct w1; simpl. by rewrite <- !app_assoc.
    + erewrite (newly_sent_app w1 [backupmq_remove_device path; statusBar_basic_message]).
      * by left.
      * destruct w1; simpl. by rewrite <- !app_assoc.
  - rewrite Hw2, setDownloadActionSensitivity_preserves by done.
    rewrite Hw1. by destruct w.
Qed.

Lemma backup_destination_mount_round_trip_witness :
  let w := initial_window example_prefs example_job_code in
  let w1 := window_after (partitionMounted example_env "/media/drive" w) in
  backup_devices w1
  = <[ "/media/drive" := {| has_mount := true;
                             backup_type := BackupLocationType.photos_and_videos |}]>
      (backup_devices w)
  ∧ backup_devices (window_after (partitionUmounted example_env "/media/drive" w1))
    = backup_devices w.
Proof.
  intros w w1.
  destruct (backup_destination_mount_round_trip example_env "/media/drive"
              BackupLocationType.photos_and_videos w)
    as (H1 & _ & _ & H2).
  - by left.
  - reflexivity.
  - vm_compute. reflexivity.
  - vm_compute. reflexivity.
  - reflexivity.
  - reflexivity.
  - split; [exact H1|]. apply H2. discriminate.
Defined.

(** ** The job code chosen in the dialog *)
Lemma startDownload_preserves_job_code env scan_id :
  preserves (λ w, (prefs w, job_code w)) (startDownload env scan_id).
Proof.
  unfold startDownload, startDownloadPhase2, downloadFiles, invalidDownloadFolders,
    isValidDownloadDir, log_error, logError, markDownloadPending, enablePrefsAndRefresh,
    setDownloadActionLabel, setDeviceState, mapModel.
  frame.
Qed.

Lemma remove_all_spec code codes :
  code ∉ remove_all code codes
  ∧ remove_all code codes `sublist_of` codes
  ∧ ∀ c, c ∈ codes → c ≠ code → c ∈ remove_all code codes.
Proof.
  unfold remove_all. induction codes as [|c codes (IH1 & IH2 & IH3)]; simpl.
  - split; [by intros ?%elem_of_nil|]. split; [done|]. by intros ? ?%elem_of_nil.
  - case_bool_decide as Hc; simpl.
    + subst c. split; [done|]. split; [by apply sublist_cons|].
      intros c [->|Hin]%elem_of_cons Hne; [done|]. by apply IH3.
    + split; [|split].
      * intros [->|?]%elem_of_cons; [done|]. by apply IH1.
      * by apply sublist_skip.
      * intros c' [->|Hin]%elem_of_cons Hne; [by left|]. right. by apply IH3.
Qed.

(** X8. When the dialog is accepted with a job code that is not empty, the
    job code is set and the prompt is over; if it is to be remembered it
    becomes the first of the remembered job codes and occurs there once, the
    other codes following in their former order; if not, the list is left as
    it was. The download that follows changes none of this. *)
Theorem accepted_job_code_is_remembered_first (env : Env) (code : string)
    (remember : bool) (w : RapidWindow) :
  code ≠ EmptyString →
  let w' := window_after (get_job_code_dialog_closed env (dialog_accepted code remember) w) in
  jc_job_code (job_code w') = code
  ∧ prompting_for_job_code (job_code w') = false
  ∧ remember_job_code (prefs w') = remember
  ∧ (remember = false → job_codes (prefs w') = job_codes (prefs w))
  ∧ (remember = true →
     ∃ rest, job_codes (prefs w') = code :: rest
             ∧ code ∉ rest
             ∧ rest `sublist_of` job_codes (prefs w)
             ∧ ∀ c, c ∈ job_codes (prefs w) → c ≠ code → c ∈ rest).
Proof.
  intros Hne w'. subst w'. unfold window_after, get_job_code_dialog_closed.
  erewrite bind_inr by reflexivity. erewrite bind_inr by reflexivity.
  erewrite bind_inr by reflexivity.
  rewrite bool_decide_eq_true_2 by done.
  destruct remember; cbn [when].
  - erewrite bind_inr by reflexivity. erewrite bind_inr by reflexivity.
    match goal with
    | |- context [startDownload env None ?x] =>
        pose proof (startDownload_preserves_job_code env None x) as Hp;
        set (w2 := x) in *
    end.
    injection Hp as Hprefs Hjc. rewrite Hprefs, Hjc.
    split; [by destruct w|]. split; [by destruct w|]. split; [by destruct w|].
    split; [done|]. intros _.
    exists (remove_all code (job_codes (prefs w))).
    split; [by destruct w|]. apply remove_all_spec.
  - erewrite bind_inr by reflexivity. erewrite bind_inr by reflexivity.
    match goal with
    | |- context [startDownload env None ?x] =>
        pose proof (startDownload_preserves_job_code env None x) as Hp;
        set (w2 := x) in *
    end.
    injection Hp as Hprefs Hjc. rewrite Hprefs, Hjc.
    split; [by destruct w|]. split; [by destruct w|]. split; [by destruct w|].
    split; [by destruct w|]. done.
Qed.

Lemma accepted_job_code_is_remembered_first_witness :
  let w' := window_after (get_job_code_dialog_closed example_env
                            (dialog_accepted "wedding" true) window_prompting) in
  jc_job_code (job_code w') = "wedding" ∧ prompting_for_job_code (job_code w') = false.
Proof.
  intros w'.
  destruct (accepted_job_code_is_remembered_first example_env "wedding" true window_prompting)
    as (H1 & H2 & _).
  - discriminate.
  - split; [exact H1|exact H2].
Defined.

(** X9. A dialog that is cancelled, or accepted with an empty job code,
    ends the prompt and starts nothing: no call is made, no file is marked
    for download, and the job code and the remembered codes are as before. *)
Theorem cancelled_job_code_starts_nothing (env : Env) (result : DialogResult)
    (w : RapidWindow) :
  (result = dialog_rejected ∨ ∃ remember, result = dialog_accepted EmptyString remember) →
  let r := get_job_code_dialog_closed env result w in
  let w' := window_after r in
  returned r = true
  ∧ sent w' = sent w
  ∧ download_files w' = download_files w
  ∧ rpd_files w' = rpd_files w
  ∧ job_codes (prefs w') = job_codes (prefs w)
  ∧ jc_job_code (job_code w') = jc_job_code (job_code w)
  ∧ prompting_for_job_code (job_code w') = false
  ∧ job_code_dialogs w' = pred (job_code_dialogs w).
Proof.
  intros [->|[remember ->]] r w'; subst r w';
    unfold window_after, get_job_code_dialog_closed.
  - erewrite bind_inr by reflexivity. by destruct w.
  - erewrite bind_inr by reflexivity. erewrite bind_inr by reflexivity.
    erewrite bind_inr by reflexivity.
    rewrite bool_decide_eq_false_2 by (by intros []). by destruct w.
Qed.

Lemma cancelled_job_code_starts_nothing_witness :
  let w' := window_after (get_job_code_dialog_closed example_env dialog_rejected
                            window_prompting) in
  sent w' = sent window_prompting ∧ prompting_for_job_code (job_code w') = false.
Proof.
  intros w'.
  destruct (cancelled_job_code_starts_nothing example_env dialog_rejected window_prompting)
    as (_ & H1 & _ & _ & _ & _ & H2 & _).
  - left. reflexivity.
  - split; [exact H1|exact H2].
Defined.

(** ** Scan messages of a registered device *)
Lemma add_files_loop (fs : list RPDFile) (generate : bool) w :
  for_each fs (λ rpd_file,
    modify (λ w, set_rpd_files (<[unique_id rpd_file := rpd_file]> (rpd_files w)) w) ;;
    send (thumbnailModel_addFile rpd_file generate)) w
  = (inr tt,
     set_sent (sent w ++ ((λ f, thumbnailModel_addFile f generate) <$> fs))
       (set_rpd_files (add_files fs (rpd_files w)) w)).
Proof.
  revert w. induction fs as [|f fs IH]; intros w; simpl.
  - unfold pass, mret, M_ret. rewrite app_nil_r. by destruct w.
  - erewrite bind_inr by reflexivity. rewrite IH. f_equal.
    destruct w; simpl. by rewrite <- app_assoc.
Qed.

(** X10. A scan message with files, for a device that is registered (the
    device of the message's first file), is processed to its end: the
    device's counts become those of the message, the device model is told,
    and [addFile] is called once per file in the order of the message, with
    thumbnails to generate exactly when auto-start is off; this whichever
    devices the other files of the message name. The state of the device and
    the active downloads are as before. *)
Theorem scanned_files_are_added (env : Env) (data : ScanResults) (try_again : bool)
    (w : RapidWindow) (first : RPDFile) (rest : list RPDFile) (device : Device) :
  sr_rpd_files data = Some (first :: rest) →
  devices w !! scan_id first = Some device →
  let r := scanMessageReceived env data try_again w in
  let w' := window_after r in
  returned r = true
  ∧ newly_sent w w'
    = deviceModel_updateDeviceScan (scan_id first)
      :: ((λ f, thumbnailModel_addFile f (negb (auto_start_is_on w))) <$> first :: rest)
  ∧ devices w'
    = <[scan_id first :=
          set_file_size_sum (sr_file_size_sum data)
            (set_no_videos_scanned (sr_no_videos data)
               (set_no_photos_scanned (sr_no_photos data) device))]> (devices w)
  ∧ device_state w' = device_state w
  ∧ active_downloads_by_scan_id w' = active_downloads_by_scan_id w.
Proof.
  intros Hfiles Hdev r w'. subst r w'. unfold window_after, scanMessageReceived.
  rewrite Hfiles.
  erewrite bind_inr by reflexivity. erewrite bind_inr by reflexivity.
  rewrite Hdev.
  erewrite bind_inr by reflexivity.
  erewrite bind_inr.
  2:{ unfold mapModel. erewrite bind_inr by reflexivity.
      cbn [devices set_devices]. rewrite lookup_insert_eq.
      erewrite bind_inr by reflexivity. reflexivity. }
  erewrite bind_inr by reflexivity. erewrite bind_inr by reflexivity.
  rewrite add_files_loop. cbn [fst snd returned].
  split; [done|].
  split; [|by destruct w].
  apply newly_sent_app. destruct w; simpl. by rewrite <- app_assoc.
Qed.

Lemma scanned_files_are_added_witness :
  let w' := window_after (scanMessageReceived example_env card_scan_results true
                            window_scanning) in
  newly_sent window_scanning w'
  = [deviceModel_updateDeviceScan 0;
     thumbnailModel_addFile (card_photo DownloadStatus.not_downloaded) true].
Proof.
  intros w'.
  destruct (scanned_files_are_added example_env card_scan_results true window_scanning
              (card_photo DownloadStatus.not_downloaded) [] example_card)
    as (_ & H & _).
  - reflexivity.
  - vm_compute. reflexivity.
  - exact H.
Defined.

(** X11. A scan error of a registered device is answered by the user: with
    "Try Again" the scan worker is resumed and the device stays; with
    "Ignore This Device" the worker is stopped and the device is removed from
    the registry and from the device model, the message box being rejected
    once more on the way. In both cases the handler returns and the device is
    no longer among those prompting for user action. *)
Theorem scan_error_is_retried_or_device_dropped (env : Env) (data : ScanResults)
    (try_again : bool) (w : RapidWindow) (code : CameraErrorCode.t) :
  sr_rpd_files data = None →
  sr_error_code data = Some code →
  is_Some (devices w !! sr_scan_id data) →
  let scan_id := sr_scan_id data in
  let r := scanMessageReceived env data try_again w in
  let w' := window_after r in
  returned r = true
  ∧ prompting_for_user_action w' = prompting_for_user_action w ∖ {[scan_id]}
  ∧ (try_again = true →
     devices w' = devices w ∧ newly_sent w w' = [scanmq_resume scan_id])
  ∧ (try_again = false →
     devices w' = delete scan_id (devices w)
     ∧ device_state w' = delete scan_id (device_state w)
     ∧ scanmq_stop_worker scan_id ∈ newly_sent w w'
     ∧ messageBox_reject scan_id ∈ newly_sent w w'
     ∧ scanmq_resume scan_id ∉ newly_sent w w').
Proof.
  intros Hfiles Hcode Hdev scan_id r w'. subst r w' scan_id.
  unfold window_after, scanMessageReceived. rewrite Hfiles.
  erewrite bind_inr by reflexivity.
  destruct Hdev as [device Hdev]. rewrite Hdev, Hcode.
  erewrite bind_inr by reflexivity.
  destruct try_again.
  - erewrite bind_inr by reflexivity. erewrite bind_inr by reflexivity.
    cbn [prompting_for_user_action set_sent set_prompting_for_user_action].
    rewrite bool_decide_eq_true_2 by set_solver.
    cbn [fst snd returned modify].
    split; [done|]. split; [destruct w; simpl; set_solver|].
    split; [|done]. intros _. split; [by destruct w|].
    apply newly_sent_app. by destruct w.
  - erewrite bind_inr.
    2:{ erewrite bind_inr by reflexivity.
        rewrite removeDevice_registered by (by destruct w; simpl; eauto).
        reflexivity. }
    erewrite bind_inr by reflexivity.
    rewrite bool_decide_eq_true_2 by (destruct w; simpl; set_solver).
    cbn [fst snd returned modify].
    split; [done|]. split; [destruct w; simpl; set_solver|].
    split; [done|]. intros _.
    split; [by destruct w|]. split; [by destruct w|].
    erewrite (newly_sent_app w
      (scanmq_stop_worker (sr_scan_id data)
       :: removeDevice_calls env (sr_scan_id data)
            (set_prompting_for_user_action
               ({[sr_scan_id data]} ∪ prompting_for_user_action w) w))).
    2:{ destruct w; simpl. by rewrite <- app_assoc. }
    split; [by left|].
    split.
    + right. apply elem_of_removeDevice_calls. left. split; [done|].
      destruct w; simpl. set_solver.
    + intros [?|Hin]%elem_of_cons; [done|].
      apply elem_of_removeDevice_calls in Hin. naive_solver.
Qed.

Lemma scan_error_is_retried_or_device_dropped_witness :
  let w' := window_after (scanMessageReceived example_env card_locked false
                            window_scanning) in
  devices w' = delete 0 (devices window_scanning).
Proof.
  intros w'.
  destruct (scan_error_is_retried_or_device_dropped example_env card_locked false
              window_scanning CameraErrorCode.locked)
    as (_ & _ & _ & H).
  - reflexivity.
  - reflexivity.
  - eexists. vm_compute. reflexivity.
  - by destruct H.
Defined.

(** ** The end of a scan without auto-start *)
Lemma scanFinished_no_auto_start env scan_id w device :
  auto_start_is_on w = false →
  devices w !! scan_id = Some device →
  let w0 :=
    set_download_tracker
      (tracker.set_file_types_present scan_id (file_types_present device) (download_tracker w))
      w in
  let calls :=
    ([deviceModel_updateDeviceScan scan_id]
     ++ (if downloadIsRunning w then [] else [downloadAct_refresh])
     ++ [statusBar_basic_message; offloadmq_assign_work])%list in
  scanFinished env scan_id w
  = (inr tt,
     if generate_thumbnails (prefs w) then
       set_sent (sent w ++ calls ++ [thumbnailModel_generateThumbnails scan_id])%list
         (set_device_state (<[scan_id := DeviceState.scanned]> (device_state w)) w0)
     else set_sent (sent w ++ calls)%list w0).
Proof.
  intros Hauto Hdev w0 calls. subst w0 calls. unfold scanFinished.
  erewrite bind_inr by reflexivity. rewrite Hdev.
  unfold setDownloadActionSensitivity, displayMessageInStatusBar,
    generateTemporalProximityTableData, setDeviceState, mapModel.
  exec. rewrite Hdev. simpl.
  assert (Hrun : downloadIsRunning
            (set_sent (sent w ++ [deviceModel_updateDeviceScan scan_id])
               (set_download_tracker
                  (tracker.set_file_types_present scan_id (file_types_present device)
                     (download_tracker w)) w)) = downloadIsRunning w) by (by destruct w).
  rewrite Hrun.
  destruct (downloadIsRunning w); simpl; rewrite Hauto; simpl;
    destruct (generate_thumbnails (prefs w)) eqn:Hg; simpl; rewrite ?Hdev; simpl;
    destruct w; simpl in *; rewrite ?Hg; unfold modify; simpl; repeat rewrite <- app_assoc; reflexivity.
Qed.

(** X12. Without auto-start, the end of a scan starts no download and opens
    no job-code prompt: no copy worker is started, nothing is marked for
    download. Thumbnails are requested exactly when the device is registered
    and thumbnail generation is on, and only then is the device set to
    scanned: with thumbnail generation off the device model keeps the state
    it had. *)
Theorem scan_finished_without_auto_start_waits (env : Env) (scan_id : nat) (w : RapidWindow) :
  auto_start_is_on w = false →
  let r := scanFinished env scan_id w in
  let w' := window_after r in
  returned r = true
  ∧ sent_count is_copyfilesmq_start_worker w' = sent_count is_copyfilesmq_start_worker w
  ∧ sent_count is_jobCodeDialog_exec w' = sent_count is_jobCodeDialog_exec w
  ∧ download_files w' = download_files w
  ∧ active_downloads_by_scan_id w' = active_downloads_by_scan_id w
  ∧ rpd_files w' = rpd_files w
  ∧ (thumbnailModel_generateThumbnails scan_id ∈ newly_sent w w'
     ↔ is_Some (devices w !! scan_id) ∧ generate_thumbnails (prefs w) = true)
  ∧ device_state w'
    = if bool_decide (is_Some (devices w !! scan_id)) && generate_thumbnails (prefs w)
      then <[scan_id := DeviceState.scanned]> (device_state w)
      else device_state w.
Proof.
  intros Hauto r w'. subst r w'. unfold window_after.
  destruct (devices w !! scan_id) as [device|] eqn:Hdev.
  - rewrite (scanFinished_no_auto_start env scan_id w device Hauto Hdev).
    rewrite bool_decide_eq_true_2 by eauto. cbn [andb fst snd returned].
    destruct (generate_thumbnails (prefs w)) eqn:Hg.
    + split; [done|].
      erewrite (newly_sent_app w) by (destruct w; reflexivity).
      unfold sent_count.
      split; [destruct w, (downloadIsRunning _); simpl;
              rewrite List.filter_app; simpl; by rewrite app_nil_r|].
      split; [destruct w, (downloadIsRunning _); simpl;
              rewrite List.filter_app; simpl; by rewrite app_nil_r|].
      split; [by destruct w|]. split; [by destruct w|]. split; [by destruct w|].
      split; [|by destruct w].
      split; [eauto|]. intros _. set_solver.
    + split; [done|].
      erewrite (newly_sent_app w) by (destruct w; reflexivity).
      unfold sent_count.
      split; [destruct w, (downloadIsRunning _); simpl;
              rewrite List.filter_app; simpl; by rewrite app_nil_r|].
      split; [destruct w, (downloadIsRunning _); simpl;
              rewrite List.filter_app; simpl; by rewrite app_nil_r|].
      split; [by destruct w|]. split; [by destruct w|]. split; [by destruct w|].
      split; [|by destruct w].
      split; [|by intros [_ ?]].
      destruct (downloadIsRunning w); set_solver.
  - assert (scanFinished env scan_id w = (inr tt, w)) as ->.
    { unfold scanFinished. erewrite bind_inr by reflexivity. by rewrite Hdev. }
    rewrite bool_decide_eq_false_2 by (by intros [? ?]). cbn [andb fst snd returned].
    do 6 (split; [done|]). split; [|done].
    erewrite (newly_sent_app w []) by (by rewrite app_nil_r).
    split; [by intros ?%elem_of_nil|by intros [[? ?] _]].
Qed.

Lemma scan_finished_without_auto_start_waits_witness :
  let w' := window_after (scanFinished example_env 0 window_scanning) in
  sent_count is_copyfilesmq_start_worker w'
  = sent_count is_copyfilesmq_start_worker window_scanning
  ∧ download_files w' = download_files window_scanning.
Proof.
  intros w'.
  destruct (scan_finished_without_auto_start_waits example_env 0 window_scanning)
    as (_ & H1 & _ & H2 & _).
  - reflexivity.
  - split; [exact H1|exact H2].
Defined.

(** ** Cameras to unmount before a download *)
Lemma camera_unmount_loop_preserves {B} (proj : RapidWindow → B) env marked :
  (∀ v w, proj (set_camera_unmounts_needed v w) = proj w) →
  preserves proj (camera_unmount_loop env marked).
Proof.
  intros H. unfold camera_unmount_loop. frame.
  apply preserves_modify. intros w. apply H.
Qed.

Lemma startDownloadPhase2_preserves_unmounts env :
  preserves camera_unmounts_needed (startDownloadPhase2 env).
Proof.
  unfold startDownloadPhase2, downloadFiles, invalidDownloadFolders,
    isValidDownloadDir, log_error, logError, markDownloadPending, enablePrefsAndRefresh,
    setDownloadActionLabel, setDeviceState, mapModel.
  frame.
Qed.

Lemma bind_bind {A B C} (m : M A) (k1 : A → M B) (k2 : B → M C) w :
  ((m ≫= k1) ≫= k2) w
  = match m w with
    | (inl e, w1) => (inl e, w1)
    | (inr a, w1) => (k1 a ≫= k2) w1
    end.
Proof. unfold mbind, M_bind. by destruct (m w) as [[?|?] ?]. Qed.

Lemma startDownload_split env scan_id w :
  let marked := getFilesMarkedForDownload env (rpd_files w) scan_id in
  let w0 := set_camera_unmounts_needed ∅ (set_download_files (Some marked) w) in
  startDownload env scan_id w
  = if gvfsControlsMounts env then
      match camera_unmount_loop env marked w0 with
      | (inl e, w1) => (inl e, w1)
      | (inr _, w1) =>
          if bool_decide (size (camera_unmounts_needed w1) = 0)
          then startDownloadPhase2 env w1
          else (inr tt,
                set_sent (sent w1 ++ (unmount_request <$> elements (camera_unmounts_needed w1)))
                  w1)
      end
    else startDownloadPhase2 env w0.
Proof.
  intros marked w0. subst marked w0. unfold startDownload.
  erewrite bind_inr by reflexivity. erewrite bind_inr by reflexivity.
  erewrite bind_inr by reflexivity.
  destruct (gvfsControlsMounts env).
  - unfold camera_unmount_loop. rewrite bind_bind.
    match goal with |- context [for_each ?l ?b ?x] => destruct (for_each l b x) as [[e|[]] w1] end;
      [done|].
    rewrite bind_bind. unfold gets at 1. cbv iota beta.
    case_bool_decide; [done|].
    rewrite bind_bind.
    rewrite (for_each_ext _ _ (λ c, send (unmount_request c))) by (by intros []).
    by rewrite for_each_send.
  - by erewrite bind_inr by reflexivity.
Qed.

(** X13. Whenever [startDownload] leaves cameras to unmount, the download
    has not begun: the volume monitor controls the mounts, no file has been
    set to pending, no device is among the active downloads, no copy worker
    has been started and preferences and refresh have not been disabled; the
    marked files are kept, and the calls made, if the handler returned, are
    the unmount requests, one per camera to unmount. *)
Theorem download_waits_for_camera_unmounts (env : Env) (scan_id : option nat)
    (w : RapidWindow) :
  let r := startDownload env scan_id w in
  let w' := window_after r in
  camera_unmounts_needed w' ≠ ∅ →
  gvfsControlsMounts env = true
  ∧ download_state w' = download_state w
  ∧ download_files w' = Some (getFilesMarkedForDownload env (rpd_files w) scan_id)
  ∧ sent_count is_copyfilesmq_start_worker w' = sent_count is_copyfilesmq_start_worker w
  ∧ sent_count is_prefs_and_refresh_setEnabled w'
    = sent_count is_prefs_and_refresh_setEnabled w
  ∧ (returned r = true →
     newly_sent w w' = unmount_request <$> elements (camera_unmounts_needed w')).
Proof.
  intros r w'. subst r w'. unfold window_after. rewrite startDownload_split. cbv zeta.
  set (marked := getFilesMarkedForDownload env (rpd_files w) scan_id).
  set (w0 := set_camera_unmounts_needed ∅ (set_download_files (Some marked) w)).
  destruct (gvfsControlsMounts env).
  2:{ intros Hne. destruct Hne.
      by rewrite startDownloadPhase2_preserves_unmounts. }
  pose proof (camera_unmount_loop_preserves download_state env marked
                (λ _ _, eq_refl) w0) as Hst.
  pose proof (camera_unmount_loop_preserves download_files env marked
                (λ _ _, eq_refl) w0) as Hdf.
  pose proof (camera_unmount_loop_preserves sent env marked
                (λ _ _, eq_refl) w0) as Hsent.
  destruct (camera_unmount_loop env marked w0) as [[e|[]] w1]; cbn [fst snd] in *.
  - intros _.
    split; [done|]. split; [by rewrite Hst|]. split; [by rewrite Hdf|].
    unfold sent_count. rewrite Hsent. by destruct w.
  - case_bool_decide as Hsize.
    + intros Hne. destruct Hne.
      rewrite startDownloadPhase2_preserves_unmounts.
      by apply size_empty_iff, leibniz_equiv in Hsize.
    + intros _. cbn [fst snd returned].
      split; [done|]. split; [by transitivity (download_state w1)|].
      split; [by transitivity (download_files w1)|].
      assert (Hquiet : ∀ kind : Sent → bool,
                (∀ c, kind (unmount_request c) = false) →
                sent_count kind
                  (set_sent (sent w1 ++ (unmount_request <$> elements (camera_unmounts_needed w1)))
                     w1) = sent_count kind w).
      { intros kind Hkind. unfold sent_count. replace (sent (set_sent _ w1))
          with (sent w1 ++ (unmount_request <$> elements (camera_unmounts_needed w1)))%list
          by (by destruct w1).
        rewrite List.filter_app, Hsent.
        replace (List.filter kind (unmount_request <$> _)) with (@nil Sent).
        - rewrite app_nil_r. by destruct w.
        - induction (elements (camera_unmounts_needed w1)) as [|c l IH]; [done|].
          simpl. by rewrite Hkind. }
      split; [by apply Hquiet|]. split; [by apply Hquiet|].
      intros _. apply newly_sent_app.
      replace (sent w) with (sent w1) by (rewrite Hsent; by destruct w).
      by destruct w1.
Qed.

Lemma download_waits_for_camera_unmounts_witness :
  let w' := window_after (startDownload env_camera_mounted None window_two_scans) in
  camera_unmounts_needed w' ≠ ∅
  ∧ download_state w' = download_state window_two_scans
  ∧ sent_count is_copyfilesmq_start_worker w'
    = sent_count is_copyfilesmq_start_worker window_two_scans.
Proof.
  intros w'.
  assert (Hne : camera_unmounts_needed w' ≠ ∅).
  { intros Heq. apply (f_equal elements) in Heq. revert Heq. vm_compute. discriminate. }
  split; [exact Hne|].
  destruct (download_waits_for_camera_unmounts env_camera_mounted None window_two_scans Hne)
    as (_ & H1 & _ & H2 & _).
  split; [exact H1|exact H2].
Defined.

(** X14. The report of an unmount requested for a download, for a camera
    that is awaited: a failure leaves the window as it is, so the download
    stays blocked; a success takes the camera out of the awaited ones, and
    the download's second phase runs exactly when it was the last one,
    leaving no camera awaited. *)
Theorem camera_unmount_report_starts_or_blocks_download (env : Env)
    (cameras_to_unmount : gmap string string) (result : bool) (model port : string)
    (w : RapidWindow) :
  (model, port) ∈ camera_unmounts_needed w →
  let r := cameraUnmounted env cameras_to_unmount result model port true w in
  (result = false → r = (inr cameras_to_unmount, w))
  ∧ (result = true → camera_unmounts_needed w ≠ {[(model, port)]} →
     r = (inr cameras_to_unmount,
          set_camera_unmounts_needed (camera_unmounts_needed w ∖ {[(model, port)]}) w))
  ∧ (result = true → camera_unmounts_needed w = {[(model, port)]} →
     window_after r
     = window_after (startDownloadPhase2 env (set_camera_unmounts_needed ∅ w))
     ∧ camera_unmounts_needed (window_after r) = ∅).
Proof.
  intros Hin r. subst r. unfold cameraUnmounted. cbn [negb].
  erewrite bind_inr by reflexivity.
  rewrite bool_decide_eq_true_2 by done.
  erewrite bind_inr by reflexivity.
  split; [by intros ->|]. split.
  - intros -> Hne. rewrite bind_bind. unfold modify at 1. cbv beta iota.
    rewrite bind_bind. unfold gets at 1. cbv beta iota.
    rewrite bool_decide_eq_false_2; [done|].
    intros Hsize%size_empty_iff. apply Hne.
    replace (camera_unmounts_needed (set_camera_unmounts_needed
               (camera_unmounts_needed w ∖ {[(model, port)]}) w))
      with (camera_unmounts_needed w ∖ {[(model, port)]}) in Hsize by (by destruct w).
    apply set_eq. intros c. destruct (decide (c = (model, port))) as [->|]; set_solver.
  - intros -> Heq.
    match goal with |- window_after ?r = ?x ∧ _ => assert (Hr : window_after r = x) end.
    { rewrite bind_bind. unfold modify at 1. cbv beta iota.
      rewrite bind_bind. unfold gets at 1. cbv beta iota.
      replace (camera_unmounts_needed w ∖ {[(model, port)]})
        with (∅ : gset (string * string)) by (rewrite Heq; set_solver).
      rewrite bool_decide_eq_true_2 by (by destruct w). cbn [when].
      unfold window_after, mbind, M_bind.
      by destruct (startDownloadPhase2 env (set_camera_unmounts_needed ∅ w))
        as [[e|[]] w1]. }
    split; [exact Hr|]. rewrite Hr. unfold window_after.
    rewrite startDownloadPhase2_preserves_unmounts. by destruct w.
Qed.

Lemma camera_unmount_report_starts_or_blocks_download_witness :
  cameraUnmounted env_camera_mounted ∅ false "EOS" "usb:001,002" true
    window_waiting_for_unmount
  = (inr ∅, window_waiting_for_unmount).
Proof.
  apply (camera_unmount_report_starts_or_blocks_download env_camera_mounted ∅ false
           "EOS" "usb:001,002" window_waiting_for_unmount); [|reflexivity].
  apply elem_of_elements.
  replace (elements (camera_unmounts_needed window_waiting_for_unmount))
    with [("EOS", "usb:001,002")] by (vm_compute; reflexivity).
  by left.
Defined.

(** ** Volumes found at start-up *)
Lemma startDeviceScan_registers device w :
  startDeviceScan device w
  = (inr tt,
     set_sent (sent w ++ startDeviceScan_calls device w)
       (set_device_state (<[scan_id_counter w := DeviceState.scanning]> (device_state w))
          (set_scan_id_counter (S (scan_id_counter w))
             (set_devices (<[scan_id_counter w := device]> (devices w)) w)))).
Proof.
  unfold startDeviceScan, add_device, addToDeviceDisplay, mapModel,
    setDownloadActionSensitivity, startDeviceScan_calls.
  exec. rewrite lookup_insert_eq. simpl.
  replace (downloadIsRunning _) with (downloadIsRunning w) by (by destruct w).
  destruct (downloadIsRunning w); destruct w; simpl; unfold modify; simpl;
    repeat rewrite <- app_assoc; reflexivity.
Qed.

Lemma prepareNonCameraDeviceScan_cases env device w :
  prepareNonCameraDeviceScan env device w = (inr tt, w)
  ∨ (known_device env (devices w) device = false
     ∧ (scanEvenIfNoDCIM (prefs w) = true → device_path device ∈ path_whitelist (prefs w))
     ∧ prepareNonCameraDeviceScan env device w = startDeviceScan device w).
Proof.
  unfold prepareNonCameraDeviceScan.
  erewrite bind_inr by reflexivity. erewrite bind_inr by reflexivity.
  destruct (known_device env (devices w) device); [by left|]. cbn [negb].
  destruct (scanEvenIfNoDCIM (prefs w)); cbn [andb].
  - case_bool_decide; [|by left]. right. by repeat split.
  - right. by repeat split.
Qed.

Lemma scan_loop_sends env (mounts : list string) w :
  ∃ l w',
    for_each mounts (λ path, prepareNonCameraDeviceScan env (volume_device env path)) w
    = (inr tt, w')
    ∧ sent w' = (sent w ++ l)%list
    ∧ prefs w' = prefs w
    ∧ backup_devices w' = backup_devices w
    ∧ download_tracker w' = download_tracker w
    ∧ ∀ scan_id device, scanmq_start_worker scan_id device ∈ l →
        ∃ path, path ∈ mounts ∧ device = volume_device env path
                ∧ (scanEvenIfNoDCIM (prefs w) = true → path ∈ path_whitelist (prefs w)).
Proof.
  revert w. induction mounts as [|path mounts IH]; intros w.
  - exists [], w. rewrite app_nil_r. repeat split; try done. by intros ? ? ?%elem_of_nil.
  - cbn [for_each].
    destruct (prepareNonCameraDeviceScan_cases env (volume_device env path) w)
      as [Hskip|(Hknown & Hwhite & Hscan)].
    + erewrite bind_inr by exact Hskip.
      destruct (IH w) as (l & w' & Hrun & Hsent & Hp & Hb & Ht & Hl).
      exists l, w'. repeat split; try done.
      intros scan_id device Hin. destruct (Hl scan_id device Hin) as (path' & ? & ? & ?).
      exists path'. split; [by right|done].
    + rewrite startDeviceScan_registers in Hscan.
      erewrite bind_inr by exact Hscan.
      match goal with |- context [for_each _ _ ?x] => set (w1 := x) end.
      destruct (IH w1) as (l & w' & Hrun & Hsent & Hp & Hb & Ht & Hl).
      exists (startDeviceScan_calls (volume_device env path) w ++ l)%list, w'.
      split; [done|]. split; [rewrite Hsent; subst w1; destruct w; simpl;
                               by rewrite <- app_assoc|].
      split; [rewrite Hp; subst w1; by destruct w|].
      split; [rewrite Hb; subst w1; by destruct w|].
      split; [rewrite Ht; subst w1; by destruct w|].
      intros scan_id device [Hin|Hin]%elem_of_app.
      * exists path. split; [by left|].
        unfold startDeviceScan_calls in Hin. destruct (downloadIsRunning w).
        -- rewrite app_nil_r in Hin. apply elem_of_cons in Hin as [Heq|Hin]; [done|].
           apply list_elem_of_singleton in Hin. by simplify_eq.
        -- apply elem_of_app in Hin as [Hin|Hin].
           ++ apply elem_of_cons in Hin as [Heq|Hin]; [done|].
              apply list_elem_of_singleton in Hin. by simplify_eq.
           ++ by apply list_elem_of_singleton in Hin.
      * destruct (Hl scan_id device Hin) as (path' & ? & ? & Hw').
        exists path'. split; [by right|]. split; [done|].
        replace (prefs w1) with (prefs w) in Hw' by (subst w1; by destruct w). done.
Qed.

(** X15. [setupNonCameraDevices] always returns and touches neither the
    backup destinations nor the tracker; with device autodetection off it
    does nothing. Every scan it starts is that of a volume whose path is a
    mounted valid mount point, valid as a partition, to be scanned by
    [shouldScanMountPath], and not a registered backup destination; and when
    partitions without a DCIM folder are scanned too, only whitelisted paths
    are scanned. *)
Theorem start_up_scan_spares_backup_destinations (env : Env) (w : RapidWindow) :
  let r := setupNonCameraDevices env w in
  let w' := window_after r in
  returned r = true
  ∧ backup_devices w' = backup_devices w
  ∧ download_tracker w' = download_tracker w
  ∧ (device_autodetection (prefs w) = false → w' = w)
  ∧ ∀ scan_id device, scanmq_start_worker scan_id device ∈ newly_sent w w' →
      device_type device = DeviceType.volume
      ∧ device_path device ∈ mountedValidMountPoints env
      ∧ device_path device ∉ dom (backup_devices w)
      ∧ partitionValid env (device_path device) (prefs w) = true
      ∧ shouldScanMountPath env (device_path device) (prefs w) = true
      ∧ (scanEvenIfNoDCIM (prefs w) = true →
         device_path device ∈ path_whitelist (prefs w)).
Proof.
  intros r w'. subst r w'. unfold window_after, setupNonCameraDevices.
  erewrite bind_inr by reflexivity.
  destruct (device_autodetection (prefs w)) eqn:Hauto; cbn [negb].
  2:{ cbn [snd fst returned pass mret M_ret]. do 4 (split; [done|]).
      intros scan_id device Hin.
      erewrite (newly_sent_app w []) in Hin by (by rewrite app_nil_r).
      by apply elem_of_nil in Hin. }
  erewrite bind_inr by reflexivity.
  match goal with |- context [for_each ?m _ w] => set (mounts := m) end.
  destruct (scan_loop_sends env mounts w) as (l & w' & Hrun & Hsent & Hp & Hb & Ht & Hl).
  rewrite Hrun. cbn [fst snd returned].
  split; [done|]. split; [done|]. split; [done|]. split; [done|].
  intros scan_id device Hin. rewrite (newly_sent_app w l w' Hsent) in Hin.
  destruct (Hl scan_id device Hin) as (path & Hpath & -> & Hwhite).
  subst mounts. apply list_elem_of_In, filter_In in Hpath as [Hmp Hcond].
  apply andb_prop in Hcond as [Hvalid Hcond]. apply andb_prop in Hcond as [Hnb Hscan].
  apply negb_true_iff, bool_decide_eq_false in Hnb.
  repeat split; try done. by apply list_elem_of_In.
Qed.

(** ** Messages of the copy workers *)
Lemma bool_decide_is_Some_Some {A} (x : A) : bool_decide (is_Some (Some x)) = true.
Proof. apply bool_decide_eq_true_2. by eexists. Qed.

Lemma bool_decide_is_Some_None {A} : bool_decide (is_Some (@None A)) = false.
Proof. apply bool_decide_eq_false_2. by intros [? ?]. Qed.

Ltac is_some_decide :=
  rewrite ?bool_decide_is_Some_Some, ?bool_decide_is_Some_None; cbn [andb orb].

(** X16. Whatever the copy manager forwards, the window handles: a message
    that passes the assertions of [CopyFilesManager.process_sink_data] is
    emitted with everything its slot needs, and the slot
    ([copyfilesBytesDownloaded], [copyfilesDownloaded] or
    [tempDirsReceivedFromCopyFiles]) returns without an exception on every
    window. A message with a byte total is forwarded as a bytes report and
    only with both counts present and not negative, so that the assertions
    of [copyfilesBytesDownloaded] cannot fail. *)
Theorem forwarded_copy_message_is_handled (data : CopyFilesResults)
    (s : CopyFilesManager.Signal) :
  CopyFilesManager.process_sink_data data = inr s →
  (∃ handler, copyfiles_slot s = Some handler ∧ ∀ w, returned (handler w) = true)
  ∧ (∀ content, s = CopyFilesManager.bytesDownloaded content →
       content = data
       ∧ ∃ total chunk, cfr_total_downloaded data = Some total
                        ∧ cfr_chunk_downloaded data = Some chunk
                        ∧ (0 ≤ total)%Z ∧ (0 ≤ chunk)%Z)
  ∧ (is_Some (cfr_total_downloaded data) → s = CopyFilesManager.bytesDownloaded data).
Proof.
  unfold CopyFilesManager.process_sink_data, sink_bind, sink_assert, sink_nonneg.
  destruct data as [sid ptd vtd total chunk ok file count]; cbn [cfr_scan_id
    cfr_photo_temp_dir cfr_video_temp_dir cfr_total_downloaded cfr_chunk_downloaded
    cfr_copy_succeeded cfr_rpd_file cfr_download_count].
  destruct total as [total|]; is_some_decide.
  - destruct sid as [sid|]; is_some_decide; [|done].
    destruct chunk as [chunk|]; [|done].
    case_bool_decide as Hc; [|done]. case_bool_decide as Ht; [|done].
    intros [= <-]. split; [|split; [|done]].
    + eexists. split; [reflexivity|]. intros w.
      unfold copyfilesBytesDownloaded, assert.
      by rewrite !bool_decide_eq_true_2 by done.
    + intros content [= <-]. split; [done|]. by exists total, chunk.
  - destruct ok as [ok|]; is_some_decide.
    + destruct file as [file|]; is_some_decide; [|done].
      destruct count as [count|]; is_some_decide; [|done].
      intros [= <-]. split; [|split; [done|by intros [? ?]]].
      eexists. split; [reflexivity|]. done.
    + destruct (bool_decide (is_Some ptd) || bool_decide (is_Some vtd)); [|done].
      destruct sid as [sid|]; is_some_decide; [|done].
      intros [= <-]. split; [|split; [done|by intros [? ?]]].
      eexists. split; [reflexivity|]. done.
Qed.

Lemma forwarded_copy_message_is_handled_witness :
  ∃ handler,
    copyfiles_slot (CopyFilesManager.bytesDownloaded bytes_report) = Some handler
    ∧ ∀ w, returned (handler w) = true.
Proof.
  apply (forwarded_copy_message_is_handled bytes_report
           (CopyFilesManager.bytesDownloaded bytes_report)).
  reflexivity.
Defined.

(** ** The text of the status bar *)

(** X17. [isValidDownloadDir] answers whether the folder exists and is
    writable when it is not to log; asked to log, it fails on an invalid
    folder with [AttributeError], the method [log_error] it calls not being
    defined. So [generateBasicStatusMessage], which checks both download
    folders and asks to log, returns only when both are valid, and leaves
    the window as it is either way; while the check before a download looks at
    the folders of the file types downloaded only: with the video folder
    invalid, a download of photos is not blocked, yet the status text cannot
    be built. *)
Theorem status_text_needs_both_download_folders (env : Env) (w : RapidWindow) :
  let p := prefs w in
  (∀ path is_photo_dir,
     isValidDownloadDir env path is_photo_dir false w = (inr (valid_download_dir env path), w)
     ∧ isValidDownloadDir env path is_photo_dir true w
       = if valid_download_dir env path then (inr true, w)
         else (inl (AttributeError "log_error"), w))
  ∧ generateBasicStatusMessage env w
    = (if valid_download_dir env (photo_download_folder p)
          && valid_download_dir env (video_download_folder p)
       then (inr tt, w) else (inl (AttributeError "log_error"), w))
  ∧ (valid_download_dir env (photo_download_folder p) = true →
     valid_download_dir env (video_download_folder p) = false →
     invalidDownloadFolders env {| dt_photos := true; dt_videos := false |} w = (inr [], w)
     ∧ returned (generateBasicStatusMessage env w) = false).
Proof.
  intros p. subst p.
  assert (Hcheck : ∀ path is_photo_dir,
     isValidDownloadDir env path is_photo_dir false w = (inr (valid_download_dir env path), w)
     ∧ isValidDownloadDir env path is_photo_dir true w
       = if valid_download_dir env path then (inr true, w)
         else (inl (AttributeError "log_error"), w)).
  { intros path is_photo_dir. unfold isValidDownloadDir, valid_download_dir, log_error.
    by destruct (os_path_isdir env path), (os_access_W_OK env path). }
  assert (Hgen : generateBasicStatusMessage env w
    = (if valid_download_dir env (photo_download_folder (prefs w))
          && valid_download_dir env (video_download_folder (prefs w))
       then (inr tt, w) else (inl (AttributeError "log_error"), w))).
  { unfold generateBasicStatusMessage. erewrite bind_inr by reflexivity.
    destruct (Hcheck (photo_download_folder (prefs w)) true) as [_ Hp].
    destruct (Hcheck (video_download_folder (prefs w)) false) as [_ Hv].
    destruct (valid_download_dir env (photo_download_folder (prefs w)));
      [|by erewrite bind_inl by exact Hp].
    erewrite bind_inr by exact Hp.
    destruct (valid_download_dir env (video_download_folder (prefs w)));
      [|by erewrite bind_inl by exact Hv].
    by erewrite bind_inr by exact Hv. }
  split; [exact Hcheck|]. split; [exact Hgen|].
  intros Hphoto Hvideo. rewrite Hgen, Hphoto, Hvideo.
  split; [|done]. rewrite invalidDownloadFolders_eq.
  unfold invalid_download_folders. cbn [dt_photos dt_videos andb]. by rewrite Hphoto.
Qed.

(** ** The download button *)

(** X18. When the button shows "Pause", a click asks the copy workers to
    pause and puts the button back to "Download", and nothing else changes;
    the next click is then a request for a download like any other: a
    job-code prompt if one is needed, or [startDownload]. *)
Theorem pause_button_returns_to_download (env : Env) (w : RapidWindow) :
  download_action_is_download w = false →
  let r := downloadButtonClicked env w in
  let w' := window_after r in
  r = (inr tt, set_download_action_is_download true
                 (set_sent (sent w ++ [copyfilesmq_pause]) w))
  ∧ downloadButtonClicked env w'
    = (if need_to_prompt w' then get_job_code w' else startDownload env None w').
Proof.
  intros Hpause r w'.
  assert (Hr : r = (inr tt, set_download_action_is_download true
                              (set_sent (sent w ++ [copyfilesmq_pause]) w))).
  { subst r. unfold downloadButtonClicked. erewrite bind_inr by reflexivity.
    rewrite Hpause. unfold pauseDownload.
    erewrite bind_inr by reflexivity. erewrite bind_inr by reflexivity.
    cbn [download_action_is_download set_sent]. by rewrite Hpause. }
  split; [exact Hr|]. subst w'. rewrite Hr. cbn [window_after snd].
  unfold downloadButtonClicked. erewrite bind_inr by reflexivity.
  cbn [download_action_is_download set_download_action_is_download].
  erewrite bind_inr by reflexivity. by destruct (need_to_prompt _).
Qed.

Lemma pause_button_returns_to_download_witness :
  downloadButtonClicked env_downloading window_pause_shown
  = (inr tt, set_download_action_is_download true
               (set_sent (sent window_pause_shown ++ [copyfilesmq_pause]) window_pause_shown)).
Proof.
  apply (pause_button_returns_to_download env_downloading window_pause_shown).
  reflexivity.
Defined.

(** ** Manual backup destinations *)

(** X19. With manual backup locations, every path that [isBackupPath]
    accepts as a destination is registered by [setupManualBackup], without a
    mount, with the capability [isBackupPath] gives it; or with photos and
    videos, when the two locations are the same. *)
Theorem manual_destinations_cover_backup_paths (env : Env) (w : RapidWindow)
    (path : string) (t : BackupLocationType.t) :
  backup_device_autodetection (prefs w) = false →
  isBackupPath env path (prefs w) = Some t →
  let r := setupManualBackup w in
  let w' := window_after r in
  returned r = true
  ∧ ∃ d, backup_devices w' !! path = Some d
         ∧ has_mount d = false
         ∧ (backup_type d = t
            ∨ (backup_type d = BackupLocationType.photos_and_videos
               ∧ backup_photo_location (prefs w) = backup_video_location (prefs w))).
Proof.
  intros Hmanual Hpath r w'. subst r w'. unfold window_after, setupManualBackup.
  erewrite bind_inr by reflexivity.
  unfold isBackupPath in Hpath. rewrite Hmanual in Hpath.
  destruct (backup_files (prefs w)); [|done]. cbv beta zeta.
  destruct (decide (backup_photo_location (prefs w) = backup_video_location (prefs w)))
    as [Heq|Hne]; [rewrite bool_decide_eq_false_2 by (by intros ?)
                  |rewrite bool_decide_eq_true_2 by done]; last first.
  - erewrite bind_inr by reflexivity. split; [done|].
    unfold modify. destruct w; simpl in *.
    case_bool_decide as Hp.
    + destruct (manualBackupPathAvailable env path); [|done]. simplify_eq.
      eexists. rewrite lookup_insert_ne by done. rewrite lookup_insert_eq.
      split; [done|]. split; [done|by left].
    + case_bool_decide as Hv; [|done].
      destruct (manualBackupPathAvailable env path); [|done]. simplify_eq.
      eexists. rewrite lookup_insert_eq. split; [done|]. split; [done|by left].
  - split; [done|]. unfold modify. destruct w; simpl in *.
    case_bool_decide as Hp.
    + subst path. eexists. rewrite lookup_insert_eq.
      split; [done|]. split; [done|by right].
    + case_bool_decide as Hv; [|done]. congruence.
Qed.

Lemma manual_destinations_cover_backup_paths_witness :
  let w := initial_window prefs_manual_backup example_job_code in
  ∃ d, backup_devices (window_after (setupManualBackup w)) !! "/backup/videos" = Some d
       ∧ has_mount d = false
       ∧ (backup_type d = BackupLocationType.videos
          ∨ (backup_type d = BackupLocationType.photos_and_videos
             ∧ backup_photo_location (prefs w) = backup_video_location (prefs w))).
Proof.
  intros w.
  apply (manual_destinations_cover_backup_paths example_env w "/backup/videos"
           BackupLocationType.videos).
  - reflexivity.
  - vm_compute. reflexivity.
Defined.

(** ** The time shown, and the time a download started *)

(** X20. [updateTimeRemaining] always returns and changes nothing but the
    text of the status bar; when it changes it, the rate sampler has asked
    for an update and the figure is not zero, and the text stands for the
    whole seconds of the figure: empty exactly when they are zero (a figure
    below one second), and in minutes and seconds only above 60, the
    seconds below 60 and adding up with the minutes to the figure. *)
Theorem shown_time_is_whole_seconds (update : bool) (rate : Qc) (w : RapidWindow) :
  let w' := window_after (updateTimeRemaining update rate w) in
  let secs := int_of (time_figure rate w) in
  returned (updateTimeRemaining update rate w) = true
  ∧ (w' = w
     ∨ (update = true ∧ time_figure rate w ≠ 0%Qc
        ∧ ∃ m, w' = set_status_bar (Some m) w
               ∧ message_seconds m = secs
               ∧ (m = msg_empty ↔ secs = 0%Z)
               ∧ ∀ minutes seconds, m = msg_minutes minutes seconds →
                   (60 < secs ∧ 0 ≤ seconds < 60 ∧ secs = 60 * minutes + seconds)%Z)).
Proof.
  intros w' secs. subst w' secs. split.
  - unfold updateTimeRemaining. destruct update; [|done]. cbn [when].
    erewrite bind_inr by reflexivity. by destruct (negb _).
  - destruct update; [|by left].
    destruct (updateTimeRemaining_cases true rate w) as [->|(Hz & ->)]; [by left|].
    right. split; [done|]. split; [done|]. eexists. split; [reflexivity|].
    split; [apply message_seconds_time_message|].
    unfold time_message. split.
    + repeat case_bool_decide; split; (done || lia).
    + intros minutes seconds. repeat case_bool_decide; intros [= <- <-].
      pose proof (Z.div_mod (int_of (time_figure rate w)) 60 ltac:(lia)).
      pose proof (Z.mod_pos_bound (int_of (time_figure rate w)) 60 ltac:(lia)).
      lia.
Qed.

Lemma startDownloadPhase2_start_time env w :
  download_start_time (startDownloadPhase2 env w).2
  = match download_files w with
    | None => download_start_time w
    | Some df =>
        match invalid_download_folders env (download_types df) (prefs w) with
        | [] => Some (default (datetime_now env) (download_start_time w))
        | _ :: _ => download_start_time w
        end
    end.
Proof.
  unfold startDownloadPhase2.
  erewrite bind_inr by reflexivity.
  destruct (download_files w) as [df|]; [|done].
  erewrite bind_inr by reflexivity.
  erewrite bind_inr by apply invalidDownloadFolders_eq.
  destruct (invalid_download_folders env (download_types df) (prefs w)); [|done].
  erewrite bind_inr by reflexivity.
  assert (Htail : ∀ w1, download_start_time
            ((markDownloadPending (files df) ;;
              enablePrefsAndRefresh false ;;
              send (renamemq_send (rename_message RenameAndMoveStatus.download_started)) ;;
              for_each (map_to_list (files df)) (λ '(scan_id, fs),
                let fs := set_status DownloadStatus.download_pending <$> fs in
                let generate :=
                  if terminateThumbnailGeneration env scan_id then markThumbnailsNeeded env fs
                  else false in
                stats ← getitem (download_stats df !! scan_id);
                downloadFiles fs scan_id stats generate) ;;
              setDownloadActionLabel false) w1).2 = download_start_time w1).
  { intros w1.
    match goal with |- _ (?m w1).2 = _ => assert (preserves download_start_time m) as H end.
    { unfold downloadFiles, markDownloadPending, enablePrefsAndRefresh,
        setDownloadActionLabel, setDeviceState, mapModel. frame. }
    apply H. }
  assert (Hmissing : ∀ (k : M unit) w1,
            ((match backupDestinationsMissing (download_types df) w with
              | Some _ => logError ErrorType.warning "Backup problem"
                            "No backup device contains a valid folder"
              | None => pass
              end) ;; k) w1 = k w1).
  { intros k w1. by destruct (backupDestinationsMissing _ _). }
  rewrite Hmissing.
  erewrite bind_inr by reflexivity.
  destruct (download_start_time w) as [t|] eqn:Hstart.
  - rewrite bool_decide_eq_false_2 by done. cbn [when].
    erewrite bind_inr by reflexivity. by rewrite Htail.
  - rewrite bool_decide_eq_true_2 by done. cbn [when].
    erewrite bind_inr by reflexivity. rewrite Htail. by destruct w.
Qed.

(** X21. The time a download started is taken once: when it is set,
    [startDownload] and [startDownloadPhase2] leave it as it is, however they
    end, so that the files of a device that joins a running download carry
    the start time of the first. *)
Theorem download_start_time_is_taken_once (env : Env) (scan_id : option nat)
    (w : RapidWindow) (t : Z) :
  download_start_time w = Some t →
  download_start_time (window_after (startDownload env scan_id w)) = Some t
  ∧ download_start_time (window_after (startDownloadPhase2 env w)) = Some t.
Proof.
  intros Hstart. unfold window_after.
  assert (Hphase2 : ∀ w1, download_start_time w1 = Some t →
                          download_start_time (startDownloadPhase2 env w1).2 = Some t).
  { intros w1 H1. rewrite startDownloadPhase2_start_time, H1.
    destruct (download_files w1) as [df|]; [|done].
    by destruct (invalid_download_folders _ _ _). }
  split; [|by apply Hphase2].
  rewrite startDownload_split. cbv zeta.
  set (marked := getFilesMarkedForDownload env (rpd_files w) scan_id).
  set (w0 := set_camera_unmounts_needed ∅ (set_download_files (Some marked) w)).
  assert (H0 : download_start_time w0 = Some t) by (subst w0; by destruct w).
  destruct (gvfsControlsMounts env); [|by apply Hphase2].
  pose proof (camera_unmount_loop_preserves download_start_time env marked
                (λ _ _, eq_refl) w0) as Hloop.
  destruct (camera_unmount_loop env marked w0) as [[e|[]] w1]; cbn [snd] in *.
  - by rewrite Hloop.
  - case_bool_decide; [apply Hphase2; by rewrite Hloop|].
    cbn [snd]. rewrite <- H0, <- Hloop. by destruct w1.
Qed.

Lemma download_start_time_is_taken_once_witness :
  download_start_time
    (window_after (startDownload env_downloading None (window_downloading prefs_no_backup)))
  = Some 0%Z
  ∧ download_start_time
      (window_after (startDownloadPhase2 env_downloading (window_downloading prefs_no_backup)))
    = Some 0%Z.
Proof.
  apply (download_start_time_is_taken_once env_downloading None
           (window_downloading prefs_no_backup) 0%Z).
  vm_compute. reflexivity.
Defined.

(** ** Backup destinations found at start-up *)
Lemma register_loop env p (l : list string) w :
  for_each l (λ path,
    when (partitionValid env path p)
      match isBackupPath env path p with
      | Some backup_type =>
          modify (λ w, set_backup_devices
            (<[path := {| has_mount := true; backup_type := backup_type |}]>
               (backup_devices w)) w) ;;
          addDeviceToBackupManager path
      | None => pass
      end) w
  = (inr tt,
     set_sent (sent w ++ (backupmq_add_device <$> List.filter (recognised env p) l))
       (set_backup_devices
          (foldl (register env p) (backup_devices w) (List.filter (recognised env p) l)) w)).
Proof.
  revert w. induction l as [|path l IH]; intros w.
  - simpl. unfold pass, mret, M_ret. rewrite app_nil_r. by destruct w.
  - cbn [for_each List.filter].
    assert (Hrec : recognised env p path
                   = partitionValid env path p
                     && bool_decide (is_Some (isBackupPath env path p))) by done.
    rewrite Hrec. clear Hrec.
    destruct (partitionValid env path p); cbn [when andb].
    + destruct (isBackupPath env path p) as [t|] eqn:Hb.
      * rewrite bool_decide_is_Some_Some.
        erewrite bind_inr by reflexivity. rewrite IH. f_equal.
        assert (Hreg : ∀ bd, register env p bd path
                  = <[path := {| has_mount := true; backup_type := t |}]> bd)
          by (intros bd; unfold register; by rewrite Hb).
        cbn [foldl fmap list_fmap]. rewrite Hreg.
        destruct w; simpl. by rewrite <- app_assoc.
      * rewrite bool_decide_is_Some_None. erewrite bind_inr by reflexivity. by rewrite IH.
    + erewrite bind_inr by reflexivity. by rewrite IH.
Qed.

Lemma register_lookup env p (l : list string) bd path :
  foldl (register env p) bd l !! path
  = match isBackupPath env path p with
    | Some t => if bool_decide (path ∈ l)
                then Some {| has_mount := true; backup_type := t |} else bd !! path
    | None => bd !! path
    end.
Proof.
  revert bd. induction l as [|path' l IH]; intros bd.
  - cbn [foldl]. destruct (isBackupPath env path p); [|done].
    by rewrite bool_decide_eq_false_2 by (by intros ?%elem_of_nil).
  - cbn [foldl]. rewrite IH. unfold register.
    destruct (isBackupPath env path p) as [t|] eqn:Hb.
    + destruct (decide (path = path')) as [<-|Hne].
      * rewrite Hb. rewrite (bool_decide_eq_true_2 (path ∈ path :: l)) by (by left).
        case_bool_decide; [done|]. by rewrite lookup_insert_eq.
      * assert (Hiff : path ∈ path' :: l ↔ path ∈ l) by set_solver.
        rewrite (bool_decide_ext _ _ Hiff).
        case_bool_decide; [done|].
        destruct (isBackupPath env path' p); [by rewrite lookup_insert_ne|done].
    + destruct (isBackupPath env path' p) as [t'|] eqn:Hb'; [|done].
      rewrite lookup_insert_ne; [done|]. intros ->. congruence.
Qed.

(** X22. With backup-device autodetection, [setupBackupDevices] returns
    and registers exactly the mounted valid mount points that are valid
    partitions and that [isBackupPath] recognises, each with the capability
    found and its mount; the other entries of the collection are untouched,
    a backup worker is started for exactly these paths, and the tracker's
    counts agree with the collection at the end. *)
Theorem autodetected_destinations_are_the_recognised_mounts (env : Env) (w : RapidWindow) :
  backup_device_autodetection (prefs w) = true →
  let r := setupBackupDevices env w in
  let w' := window_after r in
  let found path :=
    path ∈ mountedValidMountPoints env ∧ partitionValid env path (prefs w) = true in
  returned r = true
  ∧ (∀ path t, found path → isBackupPath env path (prefs w) = Some t →
       backup_devices w' !! path = Some {| has_mount := true; backup_type := t |})
  ∧ (∀ path, ¬ (found path ∧ is_Some (isBackupPath env path (prefs w))) →
       backup_devices w' !! path = backup_devices w !! path)
  ∧ (∀ path, backupmq_add_device path ∈ newly_sent w w'
             ↔ found path ∧ is_Some (isBackupPath env path (prefs w)))
  ∧ counts_in_sync w'.
Proof.
  intros Hauto r w' found. subst r w' found. unfold window_after, setupBackupDevices.
  erewrite bind_inr by reflexivity. cbv beta. rewrite Hauto.
  erewrite bind_inr by apply register_loop.
  set (good := List.filter (recognised env (prefs w)) (mountedValidMountPoints env)).
  assert (Hgood : ∀ path, path ∈ good ↔
            (path ∈ mountedValidMountPoints env ∧ partitionValid env path (prefs w) = true)
            ∧ is_Some (isBackupPath env path (prefs w))).
  { intros path. subst good. rewrite list_elem_of_In, filter_In, <- list_elem_of_In.
    unfold recognised. rewrite andb_true_iff, bool_decide_eq_true. tauto. }
  cbn [returned fst snd sync_no_backup_devices modify].
  split; [done|].
  assert (Hbd : ∀ path,
    backup_devices (sync_no_backup_devices
      (set_sent (sent w ++ (backupmq_add_device <$> good))
         (set_backup_devices (foldl (register env (prefs w)) (backup_devices w) good) w))).2
      !! path
    = foldl (register env (prefs w)) (backup_devices w) good !! path) by (by destruct w).
  split; [|split; [|split]].
  - intros path t Hfound Ht. rewrite Hbd, register_lookup, Ht.
    rewrite bool_decide_eq_true_2; [done|]. apply Hgood. split; [done|]. by eexists.
  - intros path Hnot. rewrite Hbd, register_lookup.
    destruct (isBackupPath env path (prefs w)) as [t|] eqn:Ht; [|done].
    rewrite bool_decide_eq_false_2; [done|]. rewrite Hgood, Ht. tauto.
  - intros path.
    erewrite (newly_sent_app w (backupmq_add_device <$> good)) by (by destruct w).
    rewrite <- Hgood, list_elem_of_fmap. split.
    + by intros (path' & [= <-] & ?).
    + intros ?. by exists path.
  - apply sync_no_backup_devices_in_sync.
Qed.

Lemma autodetected_destinations_are_the_recognised_mounts_witness :
  backup_devices window_with_backup_drive !! "/media/drive"
  = Some {| has_mount := true; backup_type := BackupLocationType.photos_and_videos |}.
Proof.
  destruct (autodetected_destinations_are_the_recognised_mounts example_env
              (initial_window example_prefs example_job_code))
    as (_ & H & _).
  - reflexivity.
  - apply (H "/media/drive" BackupLocationType.photos_and_videos).
    + split; [by left|reflexivity].
    + vm_compute. reflexivity.
Defined.

(** ** The files of a device that has been removed *)

(** X23. When the download of a file ends whose device is no longer
    registered, the device is not taken out of the active downloads and
    global completion is not reported: the handler fails with [KeyError]
    exactly when the file would have completed its device, the device model
    being looked up through the registry first. A device removed during its
    download therefore keeps [downloadIsRunning] at True. *)
Theorem removed_device_never_completes (env : Env) (update : bool) (rate : Qc)
    (succeeded : bool) (rpd_file : RPDFile) (w : RapidWindow) :
  devices w !! scan_id rpd_file = None →
  let r := fileDownloadFinished env update rate succeeded rpd_file w in
  let w' := window_after r in
  active_downloads_by_scan_id w' = active_downloads_by_scan_id w
  ∧ sent_count is_completion_report w' = sent_count is_completion_report w
  ∧ (returned r = false ↔
     (updateFileDownloadDeviceProgress env (scan_id rpd_file) (unique_id rpd_file) w).1
     = true)
  ∧ (scan_id rpd_file ∈ active_downloads_by_scan_id w → downloadIsRunning w' = true).
Proof.
  intros Hdev r w'. subst r w'. unfold window_after.
  rewrite fileDownloadFinished_blocks.
  destruct (record_block_ok succeeded rpd_file (backup_devices w) (prefs w) w)
    as (w2 & Hrec & Hdevs & _ & Hactive & _ & Hcount & Hprog & _).
  erewrite bind_inr by exact Hrec.
  unfold progress_block. erewrite bind_inr by reflexivity.
  rewrite Hprog.
  destruct (updateFileDownloadDeviceProgress env (scan_id rpd_file) (unique_id rpd_file) w)
    as [completed files_remaining].
  cbn [fst].
  erewrite bind_inr by reflexivity.
  destruct (when_updateTimeRemaining (downloadIsRunning w2) update rate w2)
    as [message Hmessage].
  erewrite bind_inr by exact Hmessage.
  assert (Hresult :
    (when completed (device_completed_block env (prefs w) (scan_id rpd_file) files_remaining)
       (set_status_bar message w2))
    = (if completed then inl KeyError else inr tt, set_status_bar message w2)).
  { destruct completed; [|done]. cbn [when].
    unfold device_completed_block, setDeviceState, mapModel.
    erewrite bind_inl; [done|]. erewrite bind_inl; [done|].
    erewrite bind_inr by reflexivity.
    cbn [devices set_status_bar]. rewrite Hdevs, Hdev. reflexivity. }
  rewrite Hresult. cbn [fst snd returned].
  assert (Ha : active_downloads_by_scan_id (set_status_bar message w2)
               = active_downloads_by_scan_id w) by (rewrite <- Hactive; by destruct w2).
  split; [done|].
  split; [rewrite <- Hcount; by destruct w2|].
  split; [by destruct completed|].
  intros Hin. unfold downloadIsRunning. rewrite Ha.
  rewrite bool_decide_eq_false_2; [done|].
  intros Hsize%size_empty_iff. set_solver.
Qed.

Lemma removed_device_never_completes_witness :
  let photo := card_photo DownloadStatus.downloaded in
  let w' := window_after (fileDownloadFinished env_downloading false 0%Qc true photo
                            window_card_removed) in
  active_downloads_by_scan_id w' = active_downloads_by_scan_id window_card_removed
  ∧ sent_count is_completion_report w' = sent_count is_completion_report window_card_removed.
Proof.
  intros photo w'.
  destruct (removed_device_never_completes env_downloading false 0%Qc true photo
              window_card_removed) as (H1 & H2 & _).
  - vm_compute. reflexivity.
  - split; [exact H1|exact H2].
Defined.
